(** * Token lifecycle of the back end: authentication middleware, transparent
    renewal, role gates and the auth controller.

  Shallow embedding of
    - [backend/middlewares/checkRefreshCookie.js] (the renewal interceptor),
    - [backend/middlewares/authMiddleware.js]    (authenticate and the role gates),
    - [backend/controllers/authController.js]    (login, refreshToken, logout),
    - [backend/models/authModel.js] and [backend/queries/authQueries.js],
    - [backend/routes/authRoutes.js].

  Express handlers mutate [req] and [res] and either call [next()] or send
  a response; here a handler is a function from the pair (request, response)
  to the updated pair and a flow flag. *)

From stdpp Require Import base strings gmap list.
From Stdlib Require Import ZArith Ascii String.

Set Warnings "-register-all".

Local Open Scope Z_scope.
Local Open Scope string_scope.

(** ** JavaScript values the handlers look at *)

Module JS.

(** [!!v] for a string-valued property: [undefined] and [''] are falsy. *)
Definition truthy (v : option string) : bool :=
  match v with
  | Some s => negb (String.eqb s "")
  | None => false
  end.

(** [!!v] for a numeric property: [undefined] and [0] are falsy. *)
Definition truthy_num (v : option Z) : bool :=
  match v with
  | Some n => negb (Z.eqb n 0)
  | None => false
  end.

(** [v || d] with a string literal on the right. *)
Definition or_str (v : option string) (d : string) : string :=
  match v with
  | Some s => if String.eqb s "" then d else s
  | None => d
  end.

(** [a || b] on numeric properties. *)
Definition or_num (a b : option Z) : option Z :=
  if truthy_num a then a else b.

(** [s.startsWith(p)] *)
Fixpoint startsWith (s p : string) : bool :=
  match p with
  | EmptyString => true
  | String c p' =>
      match s with
      | EmptyString => false
      | String d s' => Ascii.eqb c d && startsWith s' p'
      end
  end.

(** [s.split(sep)] for a one-character separator: every occurrence cuts,
    so consecutive separators give empty pieces and the result is never
    empty. *)
Fixpoint split (sep : ascii) (s : string) : list string :=
  match s with
  | EmptyString => [EmptyString]
  | String c rest =>
      if Ascii.eqb c sep then EmptyString :: split sep rest
      else match split sep rest with
           | [] => [String c EmptyString]
           | piece :: pieces => String c piece :: pieces
           end
  end.

(** [xs.join(sep)] *)
Fixpoint join (sep : string) (xs : list string) : string :=
  match xs with
  | [] => ""
  | [x] => x
  | x :: rest => x +:+ sep +:+ join sep rest
  end.

(** [xs.includes(x)] *)
Definition includes (xs : list string) (x : string) : bool :=
  existsb (String.eqb x) xs.

(** A thrown [Error]. *)
Record Error := mkError { err_name : string; err_message : string }.

(** A call that returns or throws. *)
Inductive completion (A : Type) :=
| Return (a : A)
| Throw (e : Error).
Arguments Return {A} a.
Arguments Throw {A} e.

(** What [res.json] serialises.  A property whose value is [undefined] is
    dropped by the serialiser; [object] builds a literal from optional
    properties accordingly. *)
Inductive json :=
| JBool (b : bool)
| JNum (n : Z)
| JStr (s : string)
| JObj (props : list (string * json)).

Definition object (props : list (string * option json)) : json :=
  JObj (omap (fun p => match p.2 with Some v => Some (p.1, v) | None => None end) props).

(** [o.k] on a serialised object. *)
Definition prop (k : string) (o : json) : option json :=
  match o with
  | JObj props => snd <$> List.find (fun p => String.eqb (fst p) k) props
  | _ => None
  end.

End JS.
Import JS.

(** ** Requests, responses and handlers *)

Module Http.

(** Decoded token payload.  The login path signs [user_id], the renewal
    interceptor signs [id_user]; a payload may carry either. *)
Record Claims := mkClaims {
  c_user_id : option Z;
  c_id_user : option Z;
  c_email : option string;
  c_role : option string;
  c_name : option string;
  c_surname : option string;
  c_loginMethod : option string
}.

(** The object stored in [req.user]. *)
Record User := mkUser {
  id_user : option Z;
  email : option string;
  role : string;
  name : option string;
  surname : option string;
  loginMethod : option string
}.

(** The parts of an Express request the handlers read or write.
    [query], [cookies] and [body] are absent when no parser filled them;
    [user = None] stands for both [undefined] and [null]. *)
Record Req := mkReq {
  headers : gmap string string;
  query : option (gmap string string);
  cookies : option (gmap string string);
  body : option (gmap string string);
  user : option User;
  token : option string;
  tokenExpired : option bool
}.

Record CookieOptions := mkCookieOptions {
  httpOnly : bool;
  secure : bool;
  sameSite : option string;
  maxAge : option Z;
  path : option string
}.

(** [res.cookie(name, value, options)] and [res.clearCookie(name, options)]. *)
Inductive CookieOp :=
| SetCookie (cname value : string) (o : CookieOptions)
| ClearCookie (cname : string) (o : CookieOptions).

(** The response under construction; [sent] is the body once [res.json]
    has run. *)
Record Res := mkRes {
  statusCode : Z;
  resHeaders : list (string * string);
  cookieOps : list CookieOp;
  sent : option json
}.

(** A handler either calls [next()] or ends the request. *)
Inductive Flow := Next | Done.

Definition Handler : Type := Req -> Res -> Req * Res * Flow.

Definition res0 : Res := mkRes 200 [] [] None.

Definition status (code : Z) (res : Res) : Res :=
  mkRes code (resHeaders res) (cookieOps res) (sent res).

Definition send_json (b : json) (res : Res) : Res :=
  mkRes (statusCode res) (resHeaders res) (cookieOps res) (Some b).

Definition set_header (k v : string) (res : Res) : Res :=
  mkRes (statusCode res) (resHeaders res ++ [(k, v)]) (cookieOps res) (sent res).

Definition cookie (n v : string) (o : CookieOptions) (res : Res) : Res :=
  mkRes (statusCode res) (resHeaders res) (cookieOps res ++ [SetCookie n v o]) (sent res).

Definition clearCookie (n : string) (o : CookieOptions) (res : Res) : Res :=
  mkRes (statusCode res) (resHeaders res) (cookieOps res ++ [ClearCookie n o]) (sent res).

(** [clearCookie(name)] called without options. *)
Definition no_options : CookieOptions := mkCookieOptions false false None None None.

(** Handlers of one route, run in registration order until one of them
    does not call [next()]. *)
Fixpoint run (chain : list Handler) (req : Req) (res : Res) : Req * Res * Flow :=
  match chain with
  | [] => (req, res, Next)
  | h :: rest =>
      match h req res with
      | (req', res', Next) => run rest req' res'
      | stop => stop
      end
  end.

(** The value a client holds for cookie [n] after it applied the cookie
    operations of a response, having sent [before].  The options are not
    compared: the client is taken to hold the cookie under the path an
    operation names. *)
Fixpoint cookie_after (n : string) (before : option string) (ops : list CookieOp)
  : option string :=
  match ops with
  | [] => before
  | SetCookie m v _ :: rest =>
      cookie_after n (if String.eqb m n then Some v else before) rest
  | ClearCookie m _ :: rest =>
      cookie_after n (if String.eqb m n then None else before) rest
  end.

(** [req.cookies?.k] *)
Definition cookie_of (req : Req) (k : string) : option string :=
  cookies req ≫= (fun m => m !! k).

Definition code_of (res : Res) : option json := sent res ≫= prop "code".
Definition message_of (res : Res) : option json := sent res ≫= prop "message".

End Http.
Import Http.

(** ** middlewares/authMiddleware *)

Module authMiddleware.
Section WithCodec.

(** [verifyAccessToken] comes from [config/jsonwebtoken]; [NODE_ENV] is
    [process.env.NODE_ENV]. *)
Variable verifyAccessToken : string -> completion Claims.
Variable NODE_ENV : option string.

(** The [if / else if] chain at the top of [authenticate]: the token and
    the local [tokenSource]. *)
Definition locateToken (req : Req) : option string * string :=
  let authorization := headers req !! "authorization" in
  if truthy authorization && startsWith (default "" authorization) "Bearer " then
    (split " " (default "" authorization) !! 1%nat, "header")
  else if truthy (query req ≫= (fun q => q !! "token")) then
    (query req ≫= (fun q => q !! "token"), "query")
  else if truthy (cookies req ≫= (fun c => c !! "access_token")) then
    (cookies req ≫= (fun c => c !! "access_token"), "cookie")
  else if truthy (body req ≫= (fun b => b !! "token")) then
    (body req ≫= (fun b => b !! "token"), "body")
  else
    (None, "none").

Definition TOKEN_REQUIRED : json :=
  object [("success", Some (JBool false));
          ("message", Some (JStr "Token de acceso requerido"));
          ("code", Some (JStr "TOKEN_REQUIRED"))].

Definition INVALID_TOKEN_FORMAT : json :=
  object [("success", Some (JBool false));
          ("message", Some (JStr "Token inválido: falta identificación de usuario"));
          ("code", Some (JStr "INVALID_TOKEN_FORMAT"))].

Definition INVALID_TOKEN (error : Error) : json :=
  object [("success", Some (JBool false));
          ("message", Some (JStr "Token inválido o mal formado"));
          ("code", Some (JStr "INVALID_TOKEN"));
          ("debug",
           if bool_decide (NODE_ENV = Some "development") then
             Some (object [("error", Some (JStr (err_message error)));
                           ("name", Some (JStr (err_name error)))])
           else None)].

Definition NOT_AUTHENTICATED : json :=
  object [("success", Some (JBool false));
          ("message", Some (JStr "No autenticado"));
          ("code", Some (JStr "NOT_AUTHENTICATED"))].

Definition denied (message code : string) : json :=
  object [("success", Some (JBool false));
          ("message", Some (JStr message));
          ("code", Some (JStr code))].

Definition authenticate : Handler := fun req res =>
  let '(token, tokenSource) := locateToken req in
  if negb (truthy token) then
    (req, send_json TOKEN_REQUIRED (status 401 res), Done)
  else
    match verifyAccessToken (default "" token) with
    | Return decoded =>
        let userId := or_num (c_user_id decoded) (c_id_user decoded) in
        if negb (truthy_num userId) then
          (req, send_json INVALID_TOKEN_FORMAT (status 401 res), Done)
        else
          (mkReq (headers req) (query req) (cookies req) (body req)
             (Some (mkUser userId
                      (c_email decoded)
                      (or_str (c_role decoded) "user")
                      (Some (or_str (c_name decoded) ""))
                      (Some (or_str (c_surname decoded) ""))
                      (Some (or_str (c_loginMethod decoded) "traditional"))))
             token
             (Some false),
           res, Next)
    | Throw error =>
        if String.eqb (err_message error) "ACCESS_TOKEN_EXPIRED" then
          (mkReq (headers req) (query req) (cookies req) (body req)
             None token (Some true),
           res, Next)
        else
          (req, send_json (INVALID_TOKEN error) (status 401 res), Done)
    end.

Definition requireAdmin : Handler := fun req res =>
  match user req with
  | None => (req, send_json NOT_AUTHENTICATED (status 401 res), Done)
  | Some u =>
      if negb (String.eqb (role u) "admin") then
        (req, send_json (denied "Acceso denegado: solo administradores" "ADMIN_REQUIRED")
                (status 403 res), Done)
      else (req, res, Next)
  end.

Definition requireHR : Handler := fun req res =>
  match user req with
  | None => (req, send_json NOT_AUTHENTICATED (status 401 res), Done)
  | Some u =>
      if negb (String.eqb (role u) "hr") then
        (req, send_json (denied "Acceso denegado: solo recursos humanos" "HR_REQUIRED")
                (status 403 res), Done)
      else (req, res, Next)
  end.

Definition requireMarketing : Handler := fun req res =>
  match user req with
  | None => (req, send_json NOT_AUTHENTICATED (status 401 res), Done)
  | Some u =>
      if negb (String.eqb (role u) "mkt") then
        (req, send_json (denied "Acceso denegado: solo marketing" "MARKETING_REQUIRED")
                (status 403 res), Done)
      else (req, res, Next)
  end.

Definition isAuthenticated : Handler := fun req res =>
  match user req with
  | None => (req, send_json NOT_AUTHENTICATED (status 401 res), Done)
  | Some _ => (req, res, Next)
  end.

Definition hasRole (required : string) : Handler := fun req res =>
  match user req with
  | None => (req, send_json NOT_AUTHENTICATED (status 401 res), Done)
  | Some u =>
      if negb (String.eqb (role u) required) then
        (req, send_json (denied ("Acceso denegado. Se requiere rol: " +:+ required)
                           "ROLE_REQUIRED")
                (status 403 res), Done)
      else (req, res, Next)
  end.

Definition hasAnyRole (roles : list string) : Handler := fun req res =>
  match user req with
  | None => (req, send_json NOT_AUTHENTICATED (status 401 res), Done)
  | Some u =>
      if negb (includes roles (role u)) then
        (req, send_json (denied ("Acceso denegado. Se requiere uno de estos roles: "
                                   +:+ join ", " roles)
                           "ROLE_REQUIRED")
                (status 403 res), Done)
      else (req, res, Next)
  end.

End WithCodec.
End authMiddleware.

(** ** middlewares/checkRefreshCookie *)

Module checkRefreshCookie.
Section WithCodec.

Variable verifyRefreshToken : string -> completion Claims.
Variable createAccessToken : Claims -> string.

Definition SESSION_EXPIRED : json :=
  object [("success", Some (JBool false));
          ("code", Some (JStr "SESSION_EXPIRED"));
          ("message", Some (JStr "Sesión expirada. Por favor, inicia sesión nuevamente."))].

Definition INVALID_SESSION : json :=
  object [("success", Some (JBool false));
          ("code", Some (JStr "INVALID_SESSION"));
          ("message", Some (JStr "Sesión inválida. Por favor, inicia sesión nuevamente."))].

(** The payload the interceptor signs. *)
Definition renewed_claims (refreshData : Claims) : Claims :=
  mkClaims None (c_id_user refreshData) (c_email refreshData)
    (Some (or_str (c_role refreshData) "user")) None None None.

(** The handler registered with [checkRefreshCookie.use]. *)
Definition refreshMiddleware : Handler := fun req res =>
  if negb (bool_decide (tokenExpired req = Some true)) then (req, res, Next)
  else
    let refreshToken := cookie_of req "refresh_token" in
    if negb (truthy refreshToken) then
      (req, send_json SESSION_EXPIRED (status 401 res), Done)
    else
      match verifyRefreshToken (default "" refreshToken) with
      | Return refreshData =>
          let newAccessToken := createAccessToken (renewed_claims refreshData) in
          (mkReq (headers req) (query req) (cookies req) (body req)
             (Some (mkUser (c_id_user refreshData)
                      (c_email refreshData)
                      (or_str (c_role refreshData) "user")
                      None None None))
             (Some newAccessToken)
             (Some false),
           set_header "X-New-Access-Token" newAccessToken res,
           Next)
      | Throw error =>
          (req,
           send_json INVALID_SESSION
             (status 401 (clearCookie "refresh_token" no_options res)),
           Done)
      end.

End WithCodec.
End checkRefreshCookie.

(** ** queries/authQueries and models/authModel *)

Module authQueries.

(** A row of [users] as the [login] query selects it:
    [SELECT user_id, role, email, password FROM users WHERE email = $1]. *)
Record UserRow := mkUserRow {
  user_id : Z;
  role : string;
  email : string;
  password : string
}.

(** The same row without its [password] column, as [getUserById] selects
    it and as the model hands it to the controller. *)
Record UserInfo := mkUserInfo {
  i_user_id : Z;
  i_role : string;
  i_email : string
}.

(** [pool.query(queries.login, [email])]: [result.rows]. *)
Definition login (users : list UserRow) (mail : string) : list UserRow :=
  List.filter (fun r => String.eqb (email r) mail) users.

(** [pool.query(queries.getUserById, [user_id])]: [result.rows]. *)
Definition getUserById (users : list UserRow) (id : option Z) : list UserInfo :=
  match id with
  | Some n =>
      List.map (fun r => mkUserInfo (user_id r) (role r) (email r))
        (List.filter (fun r => Z.eqb (user_id r) n) users)
  | None => []
  end.

End authQueries.

Module authModel.
Section WithStore.

(** The [users] table behind [pool], and [bcrypt.compare]. *)
Variable users : list authQueries.UserRow.
Variable bcrypt_compare : string -> string -> bool.

(** [const { password: _, ...userWithoutPassword } = user] *)
Definition userWithoutPassword (user : authQueries.UserRow) : authQueries.UserInfo :=
  authQueries.mkUserInfo (authQueries.user_id user) (authQueries.role user)
    (authQueries.email user).

(** [login] on strings, where [bcrypt.compare] resolves; [Untyped.model_login]
    is the function on any value, where it may reject. *)
Definition login (email password : string) : list authQueries.UserInfo :=
  match authQueries.login users email with
  | [] => []
  | user :: _ =>
      if negb (bcrypt_compare password (authQueries.password user)) then []
      else [userWithoutPassword user]
  end.

(** What [require('../models/authModel')] gives the controller: the
    properties of [module.exports].  A property the module does not export
    is [undefined]. *)
Record Exports := mkExports {
  exp_login : string -> string -> list authQueries.UserInfo;
  exp_getUserById : option (option Z -> list authQueries.UserInfo)
}.

(** [module.exports = { login, logout }]: there is no [getUserById]. *)
Definition exports : Exports := mkExports login None.

End WithStore.
End authModel.

(** ** controllers/authController *)

Module authController.
Section WithModel.

Variable Auth : authModel.Exports.
Variable createAccessToken : Claims -> string.
Variable createRefreshToken : Claims -> string.
Variable verifyRefreshToken : string -> completion Claims.
Variable NODE_ENV : option string.

(** [user.name] and [user.surname]: the rows of [users] have no such
    column, the property is [undefined]. *)
Definition name_of (user : authQueries.UserInfo) : option string := None.
Definition surname_of (user : authQueries.UserInfo) : option string := None.

Definition access_claims (user : authQueries.UserInfo) : Claims :=
  mkClaims (Some (authQueries.i_user_id user)) None
    (Some (authQueries.i_email user))
    (Some (authQueries.i_role user))
    (Some (or_str (name_of user) ""))
    (Some (or_str (surname_of user) ""))
    None.

Definition refresh_claims (user : authQueries.UserInfo) : Claims :=
  mkClaims (Some (authQueries.i_user_id user)) None
    (Some (authQueries.i_email user))
    (Some (authQueries.i_role user))
    None None None.

(** The options of [res.cookie('refresh_token', ...)]. *)
Definition issue_options : CookieOptions :=
  mkCookieOptions true (bool_decide (NODE_ENV = Some "production"))
    (Some "strict") (Some (7 * 24 * 60 * 60 * 1000)) (Some "/api").

(** The options of [res.clearCookie('refresh_token', ...)]. *)
Definition clear_options : CookieOptions :=
  mkCookieOptions true (bool_decide (NODE_ENV = Some "production"))
    (Some "strict") None (Some "/api").

Definition user_json (user : authQueries.UserInfo) : json :=
  object [("user_id", Some (JNum (authQueries.i_user_id user)));
          ("email", Some (JStr (authQueries.i_email user)));
          ("role", Some (JStr (authQueries.i_role user)));
          ("name", Some (JStr (or_str (name_of user) "")));
          ("surname", Some (JStr (or_str (surname_of user) "")))].

Definition session_json (accessToken : string) (user : authQueries.UserInfo) : json :=
  object [("success", Some (JBool true));
          ("accessToken", Some (JStr accessToken));
          ("expiresIn", Some (JNum 900));
          ("user", Some (user_json user))].

Definition failure (message : string) : json :=
  object [("success", Some (JBool false)); ("message", Some (JStr message))].

Definition failure_code (message code : string) : json :=
  object [("success", Some (JBool false));
          ("message", Some (JStr message));
          ("code", Some (JStr code))].

(** The [catch] of [login]; [err] is the [TypeError] of destructuring an
    absent [req.body]. *)
Definition login_error (err : Error) : json :=
  object [("success", Some (JBool false));
          ("message", Some (JStr "Error interno del servidor"));
          ("error",
           if bool_decide (NODE_ENV = Some "development")
           then Some (JStr (err_message err)) else None)].

Definition no_body : Error :=
  mkError "TypeError"
    "Cannot destructure property 'email' of 'req.body' as it is undefined.".

Definition login : Handler := fun req res =>
  match body req with
  | None => (req, send_json (login_error no_body) (status 500 res), Done)
  | Some fields =>
      let email := fields !! "email" in
      let password := fields !! "password" in
      if negb (truthy email) || negb (truthy password) then
        (req, send_json (failure "Email y contraseña son requeridos") (status 400 res), Done)
      else
        match authModel.exp_login Auth (default "" email) (default "" password) with
        | [] =>
            (req, send_json (failure "Credenciales inválidas") (status 401 res), Done)
        | user :: _ =>
            let accessToken := createAccessToken (access_claims user) in
            let refreshToken := createRefreshToken (refresh_claims user) in
            (req,
             send_json (session_json accessToken user)
               (status 200 (cookie "refresh_token" refreshToken issue_options res)),
             Done)
        end
  end.

(** The outer [catch] of [refreshToken]. *)
Definition refresh_error : json := failure "Error interno del servidor".

Definition refreshToken : Handler := fun req res =>
  match cookies req with
  | None => (req, send_json refresh_error (status 500 res), Done)
  | Some jar =>
      let refreshToken := jar !! "refresh_token" in
      if negb (truthy refreshToken) then
        (req,
         send_json (failure_code "Refresh token requerido" "REFRESH_TOKEN_REQUIRED")
           (status 401 res),
         Done)
      else
        match verifyRefreshToken (default "" refreshToken) with
        | Throw error =>
            if String.eqb (err_message error) "REFRESH_TOKEN_EXPIRED"
               || String.eqb (err_message error) "Token expirado" then
              (req,
               send_json
                 (failure_code "Sesión expirada. Por favor inicie sesión nuevamente."
                    "SESSION_EXPIRED")
                 (status 401 (clearCookie "refresh_token" clear_options res)),
               Done)
            else
              (req,
               send_json (failure_code "Refresh token inválido" "INVALID_REFRESH_TOKEN")
                 (status 401 res),
               Done)
        | Return decoded =>
            match authModel.exp_getUserById Auth with
            | None =>
                (* Auth.getUserById is not a function: the outer catch *)
                (req, send_json refresh_error (status 500 res), Done)
            | Some getUserById =>
                match getUserById (c_user_id decoded) with
                | [] =>
                    (req,
                     send_json (failure_code "Usuario no encontrado" "USER_NOT_FOUND")
                       (status 401 (clearCookie "refresh_token" clear_options res)),
                     Done)
                | user :: _ =>
                    let newAccessToken := createAccessToken (access_claims user) in
                    let newRefreshToken := createRefreshToken (refresh_claims user) in
                    (req,
                     send_json (session_json newAccessToken user)
                       (cookie "refresh_token" newRefreshToken issue_options res),
                     Done)
                end
            end
        end
  end.

Definition logout : Handler := fun req res =>
  (req,
   send_json
     (object [("success", Some (JBool true));
              ("message", Some (JStr "Sesión cerrada exitosamente."))])
     (clearCookie "refresh_token" clear_options res),
   Done).

End WithModel.
End authController.

(** ** routes/authRoutes and the protected-route chain *)

Module authRoutes.
Section WithDeps.

Variable Auth : authModel.Exports.
Variable createAccessToken : Claims -> string.
Variable createRefreshToken : Claims -> string.
Variable verifyAccessToken : string -> completion Claims.
Variable verifyRefreshToken : string -> completion Claims.
Variable NODE_ENV : option string.

(** [router.post('/refresh', authController.refreshToken)] *)
Definition refresh : list Handler :=
  [authController.refreshToken Auth createAccessToken createRefreshToken
     verifyRefreshToken NODE_ENV].

(** [router.post('/logout', authMiddleware.authenticate, authController.logout)] *)
Definition logout : list Handler :=
  [authMiddleware.authenticate verifyAccessToken NODE_ENV;
   authController.logout NODE_ENV].

(** The chain the interceptor documents for a protected route:
    [authMiddleware.authenticate, checkRefreshCookie, ...handlers]. *)
Definition protected (handlers : list Handler) : list Handler :=
  authMiddleware.authenticate verifyAccessToken NODE_ENV
  :: checkRefreshCookie.refreshMiddleware verifyRefreshToken createAccessToken
  :: handlers.

End WithDeps.
End authRoutes.

(** ** config/jsonwebtoken *)

(** Modelled from the spec: [config/jsonwebtoken] (the Token Codec) is
  imported by the middlewares and the controller but is not among the
  sources.  A token is a signed content, [content.signature]; [verify]
  fails with [TAMPERED] when the signature does not match, [MALFORMED] when
  the input does not parse, [EXPIRED] when the signature is valid and the
  expiry has passed (a token verified at exactly [expires_at] is expired).
  Access and refresh tokens are signed under independent secrets, here the
  first argument of [sign]; the access ttl is 900 s, the refresh ttl 7 days.
  The messages of the errors thrown on expiry are the ones the callers
  compare against; the other two are named after the outcome. *)
Module jsonwebtoken.

Inductive kind := access | refresh.
Inductive failure := TAMPERED | EXPIRED | MALFORMED.

(** Modelled from the spec: the wire form of a token, which the missing
    [config/jsonwebtoken] fixes; the signed content, a dot, the signature.
    [parse] cuts a token at its first dot. *)
Fixpoint parse (token : string) : option (string * string) :=
  match token with
  | EmptyString => None
  | String c rest =>
      if Ascii.eqb c "." then Some (EmptyString, rest)
      else match parse rest with
           | Some (content, signature) => Some (String c content, signature)
           | None => None
           end
  end.

(** [s] and [t] have the same length and differ in exactly one byte. *)
Fixpoint one_byte_flipped (s t : string) : bool :=
  match s, t with
  | String a s', String b t' =>
      if Ascii.eqb a b then one_byte_flipped s' t' else String.eqb s' t'
  | _, _ => false
  end.

Section WithKeys.

Variable sign : kind -> string -> string.
Variable encode : Claims -> Z -> Z -> string.
Variable decode : string -> option (Claims * Z * Z).

(** Modelled from the spec: [issue(kind, claims, ttl)] of the missing
    [config/jsonwebtoken] serialises the claims with [issued_at] and
    [expires_at = issued_at + ttl] and signs them with the secret of [kind]. *)
Definition issue (k : kind) (claims : Claims) (ttl now : Z) : string :=
  let content := encode claims now (now + ttl) in
  content +:+ "." +:+ sign k content.

(** Modelled from the spec: [verify(kind, token)] of the missing
    [config/jsonwebtoken] checks the signature, then the expiry, and tells
    [TAMPERED], [EXPIRED] and [MALFORMED] apart. *)
Definition verify (k : kind) (now : Z) (token : string) : Claims + failure :=
  match parse token with
  | None => inr MALFORMED
  | Some (content, signature) =>
      if negb (String.eqb signature (sign k content)) then inr TAMPERED
      else match decode content with
           | None => inr MALFORMED
           | Some (claims, issued_at, expires_at) =>
               if Z.leb expires_at now then inr EXPIRED else inl claims
           end
  end.

(** Modelled from the spec: the four functions the handlers import from
    the missing [config/jsonwebtoken]; access tokens live 900 s, refresh
    tokens 7 days, and an expiry is thrown under the message the callers
    compare against. *)
Definition createAccessToken (now : Z) (payload : Claims) : string :=
  issue access payload 900 now.

(** Modelled from the spec: refresh tokens are issued under the refresh
    secret with a ttl of 7 days. *)
Definition createRefreshToken (now : Z) (payload : Claims) : string :=
  issue refresh payload (7 * 24 * 60 * 60) now.

(** Modelled from the spec: verification under the access secret; the
    failure is thrown as an [Error], [ACCESS_TOKEN_EXPIRED] on expiry. *)
Definition verifyAccessToken (now : Z) (token : string) : completion Claims :=
  match verify access now token with
  | inl claims => Return claims
  | inr EXPIRED => Throw (mkError "Error" "ACCESS_TOKEN_EXPIRED")
  | inr TAMPERED => Throw (mkError "Error" "ACCESS_TOKEN_TAMPERED")
  | inr MALFORMED => Throw (mkError "Error" "ACCESS_TOKEN_MALFORMED")
  end.

(** Modelled from the spec: verification under the refresh secret; the
    failure is thrown as an [Error], [REFRESH_TOKEN_EXPIRED] on expiry. *)
Definition verifyRefreshToken (now : Z) (token : string) : completion Claims :=
  match verify refresh now token with
  | inl claims => Return claims
  | inr EXPIRED => Throw (mkError "Error" "REFRESH_TOKEN_EXPIRED")
  | inr TAMPERED => Throw (mkError "Error" "REFRESH_TOKEN_TAMPERED")
  | inr MALFORMED => Throw (mkError "Error" "REFRESH_TOKEN_MALFORMED")
  end.

End WithKeys.
End jsonwebtoken.

(** ** Concrete data: a small store, a small codec and some requests *)

Module Samples.

(** A codec instance: the signature is the content tagged by the kind's
    secret, and a handful of contents decode. *)
Definition sign (k : jsonwebtoken.kind) (content : string) : string :=
  match k with
  | jsonwebtoken.access => "a-" +:+ content
  | jsonwebtoken.refresh => "r-" +:+ content
  end.

Definition hr_claims : Claims :=
  mkClaims (Some 7) None (Some "ana@empresa.com") (Some "hr") (Some "") (Some "") None.

Definition roleless_claims : Claims :=
  mkClaims (Some 8) None (Some "luis@empresa.com") None None None None.

Definition hr_refresh_claims : Claims :=
  mkClaims (Some 7) None (Some "ana@empresa.com") (Some "hr") None None None.

Definition decode (content : string) : option (Claims * Z * Z) :=
  if String.eqb content "hr7" then Some (hr_claims, 500, 1400)
  else if String.eqb content "old7" then Some (hr_claims, 0, 900)
  else if String.eqb content "anon8" then Some (roleless_claims, 500, 1400)
  else if String.eqb content "ref7" then Some (hr_refresh_claims, 500, 605300)
  else if String.eqb content "ref8" then Some (roleless_claims, 500, 605300)
  else if String.eqb content "oref7" then Some (hr_refresh_claims, 0, 900)
  else None.

(** The content written for a payload tells which identifier it carries. *)
Definition encode (claims : Claims) (issued_at expires_at : Z) : string :=
  match c_id_user claims, c_user_id claims with
  | Some _, _ => "byid"
  | None, Some _ => "hr7"
  | None, None => "noid"
  end.

Definition now : Z := 1000.

Definition verifyAccessToken := jsonwebtoken.verifyAccessToken sign decode now.
Definition verifyRefreshToken := jsonwebtoken.verifyRefreshToken sign decode now.
Definition createAccessToken := jsonwebtoken.createAccessToken sign encode now.
Definition createRefreshToken := jsonwebtoken.createRefreshToken sign encode now.

Definition valid_access : string := "hr7.a-hr7".
Definition flipped_access : string := "hr7.a-hr6".
Definition expired_access : string := "old7.a-old7".
Definition roleless_access : string := "anon8.a-anon8".
Definition valid_refresh : string := "ref7.r-ref7".
Definition roleless_refresh : string := "ref8.r-ref8".
Definition forged_refresh : string := "ref7.r-forged".
Definition expired_refresh : string := "oref7.r-oref7".

Definition NODE_ENV : option string := Some "production".

(** A request with the given [Authorization] header and cookies. *)
Definition request (authorization : option string) (jar : gmap string string) : Req :=
  mkReq (match authorization with
         | Some a => {[ "authorization" := a ]}
         | None => ∅
         end)
    (Some ∅) (Some jar) (Some ∅) None None None.

Definition bearer (token : string) : option string := Some ("Bearer " +:+ token).

(** Credentials posted to [/login]. *)
Definition credentials (email password : string) : Req :=
  mkReq ∅ (Some ∅) (Some ∅)
    (Some {[ "email" := email; "password" := password ]}) None None None.

(** A store with one account. *)
Definition users : list authQueries.UserRow :=
  [authQueries.mkUserRow 7 "hr" "ana@empresa.com" "hash-of-Secreta123"].

Definition bcrypt_compare (plain hash : string) : bool :=
  String.eqb ("hash-of-" +:+ plain) hash.

Definition Auth : authModel.Exports := authModel.exports users bcrypt_compare.

(** Modelled from the spec: the credential store's [findById], which the
    controller calls as [Auth.getUserById] and which [authModel] does not
    define; it runs [queries.getUserById]. *)
Definition AuthWithLookup (store : list authQueries.UserRow) : authModel.Exports :=
  authModel.mkExports (authModel.login store bcrypt_compare)
    (Some (authQueries.getUserById store)).

(** A business handler at the end of a protected route. *)
Definition business : Handler := fun req res =>
  (req, send_json (object [("ok", Some (JBool true))]) res, Done).

(** A bearer header with two blanks between the scheme and a valid token,
    next to the same token in the query string. *)
Definition double_blank_request : Req :=
  mkReq {[ "authorization" := "Bearer  " +:+ valid_access ]}
    (Some {[ "token" := valid_access ]}) (Some ∅) (Some ∅) None None None.

(** No token anywhere. *)
Definition anonymous_request : Req := request None ∅.

(** A request the authenticator has attached an [hr] identity to. *)
Definition hr_user : User :=
  mkUser (Some 7) (Some "ana@empresa.com") "hr" (Some "") (Some "") (Some "traditional").

Definition hr_request : Req :=
  mkReq {[ "authorization" := "Bearer " +:+ valid_access ]}
    (Some ∅) (Some ∅) (Some ∅) (Some hr_user) (Some valid_access) (Some false).

(** An expired access token next to a refresh cookie. *)
Definition renewal_request (refresh_cookie : string) : Req :=
  request (bearer expired_access) {[ "refresh_token" := refresh_cookie ]}.

(** The same request once the authenticator has marked it expired. *)
Definition expired_request (refresh_cookie : string) : Req :=
  mkReq (headers (renewal_request refresh_cookie)) (Some ∅)
    (Some {[ "refresh_token" := refresh_cookie ]}) (Some ∅)
    None (Some expired_access) (Some true).

End Samples.

(** ** Reference readings used to state the properties *)

Module Reading.

(** The candidate each location offers, in priority order, and the first
    non-empty one: the token lookup as an ordered list of extractors. *)
Definition header_candidate (req : Req) : option string :=
  let authorization := headers req !! "authorization" in
  if truthy authorization && startsWith (default "" authorization) "Bearer "
  then split " " (default "" authorization) !! 1%nat
  else None.

Definition candidates (req : Req) : list (option string * string) :=
  [(header_candidate req, "header");
   (query req ≫= (fun q => q !! "token"), "query");
   (cookies req ≫= (fun c => c !! "access_token"), "cookie");
   (body req ≫= (fun b => b !! "token"), "body")].

Definition first_non_empty (req : Req) : option (option string * string) :=
  List.find (fun c => truthy (fst c)) (candidates req).

(** The header names the bearer scheme but carries no token after it. *)
Definition empty_bearer (req : Req) : bool :=
  let authorization := headers req !! "authorization" in
  truthy authorization && startsWith (default "" authorization) "Bearer "
  && negb (truthy (split " " (default "" authorization) !! 1%nat)).

(** The role gates of [authMiddleware], seen as one family. *)
Inductive gate :=
| Admin
| HR
| Marketing
| HasRole (required : string)
| HasAnyRole (roles : list string).

Definition handler_of (g : gate) : Handler :=
  match g with
  | Admin => authMiddleware.requireAdmin
  | HR => authMiddleware.requireHR
  | Marketing => authMiddleware.requireMarketing
  | HasRole r => authMiddleware.hasRole r
  | HasAnyRole rs => authMiddleware.hasAnyRole rs
  end.

Definition admits (g : gate) (r : string) : bool :=
  match g with
  | Admin => String.eqb r "admin"
  | HR => String.eqb r "hr"
  | Marketing => String.eqb r "mkt"
  | HasRole required => String.eqb r required
  | HasAnyRole roles => includes roles r
  end.

(** The [code] a gate answers with on a role mismatch. *)
Definition denial_code (g : gate) : string :=
  match g with
  | Admin => "ADMIN_REQUIRED"
  | HR => "HR_REQUIRED"
  | Marketing => "MARKETING_REQUIRED"
  | HasRole _ => "ROLE_REQUIRED"
  | HasAnyRole _ => "ROLE_REQUIRED"
  end.

(** Some way of gating a route for one of the three staff roles. *)
Definition staff_gate (g : gate) : Prop :=
  match g with
  | Admin | HR | Marketing => True
  | HasRole r => r = "admin" \/ r = "hr" \/ r = "mkt"
  | HasAnyRole rs => Forall (fun r => r = "admin" \/ r = "hr" \/ r = "mkt") rs
  end.

(** The security attributes a cookie is set or cleared with. *)
Definition same_attributes (a b : CookieOptions) : Prop :=
  httpOnly a = httpOnly b /\ secure a = secure b
  /\ sameSite a = sameSite b /\ path a = path b.

(** A response mints a token when it carries one in its body or in the
    renewal header. *)
Definition access_token_of (res : Res) : option string :=
  match snd <$> List.find (fun h => String.eqb (fst h) "X-New-Access-Token") (resHeaders res) with
  | Some t => Some t
  | None =>
      match sent res ≫= prop "accessToken" with
      | Some (JStr t) => Some t
      | _ => None
      end
  end.

End Reading.

(** ** queries/adminQueries and models/adminModel: the user accounts *)

Module adminQueries.
Section WithDatabase.

(** The database converts the text of a parameter compared with the integer
    column [user_id]; a text it does not accept makes the statement fail with
    the database's error.  [fresh_id] is the [user_id] the table gives an
    inserted row.  The table is taken as the statements see it, a list of
    rows; the sources hold no schema, so the table has no constraint and a
    statement whose parameters the database accepts succeeds.  A request
    body is an object with string values, as everywhere in this file. *)
Variable pg_integer : string -> option Z.
Variable invalid_integer : string -> Error.
Variable fresh_id : list authQueries.UserRow -> Z.

Definition returning (r : authQueries.UserRow) : authQueries.UserInfo :=
  authQueries.mkUserInfo (authQueries.user_id r) (authQueries.role r) (authQueries.email r).

(** [SELECT user_id, role, email, password FROM users WHERE user_id = $1] *)
Definition getUserById (users : list authQueries.UserRow) (user_id : string)
  : completion (list authQueries.UserRow) :=
  match pg_integer user_id with
  | None => Throw (invalid_integer user_id)
  | Some n => Return (List.filter (fun r => Z.eqb (authQueries.user_id r) n) users)
  end.

(** [INSERT INTO users (role, email, password) VALUES ($1, $2, $3)
     RETURNING user_id, role, email]: the returned rows and the table. *)
Definition createUser (users : list authQueries.UserRow) (role email password : string)
  : list authQueries.UserInfo * list authQueries.UserRow :=
  let row := authQueries.mkUserRow (fresh_id users) role email password in
  ([returning row], (users ++ [row])%list).

(** [UPDATE users SET role = $1, email = $2, password = $3 WHERE user_id = $4
     RETURNING user_id, role, email] *)
Definition updateUserById (users : list authQueries.UserRow)
           (role email password user_id : string)
  : completion (list authQueries.UserInfo * list authQueries.UserRow) :=
  match pg_integer user_id with
  | None => Throw (invalid_integer user_id)
  | Some n =>
      let set (r : authQueries.UserRow) :=
        authQueries.mkUserRow (authQueries.user_id r) role email password in
      Return
        (List.map (fun r => returning (set r))
           (List.filter (fun r => Z.eqb (authQueries.user_id r) n) users),
         List.map (fun r => if Z.eqb (authQueries.user_id r) n then set r else r) users)
  end.

(** [DELETE FROM users WHERE user_id = $1 RETURNING user_id, role, email] *)
Definition deleteUserById (users : list authQueries.UserRow) (user_id : string)
  : completion (list authQueries.UserInfo * list authQueries.UserRow) :=
  match pg_integer user_id with
  | None => Throw (invalid_integer user_id)
  | Some n =>
      Return
        (List.map returning
           (List.filter (fun r => Z.eqb (authQueries.user_id r) n) users),
         List.filter (fun r => negb (Z.eqb (authQueries.user_id r) n)) users)
  end.

End WithDatabase.
End adminQueries.

Module adminModel.
Section WithDatabase.

Variable pg_integer : string -> option Z.
Variable invalid_integer : string -> Error.
Variable fresh_id : list authQueries.UserRow -> Z.

(** [bcrypt.hash(password, saltRounds)] and [String.prototype.toLowerCase]. *)
Variable bcrypt_hash : string -> Z -> string.
Variable toLowerCase : string -> string.

Definition validRoles : list string := ["admin"; "hr"; "mkt"].

Definition user_json (u : authQueries.UserInfo) : json :=
  object [("user_id", Some (JNum (authQueries.i_user_id u)));
          ("role", Some (JStr (authQueries.i_role u)));
          ("email", Some (JStr (authQueries.i_email u)))].

(** A row as [getUserById] selects it: the password hash is one of its
    properties. *)
Definition row_json (r : authQueries.UserRow) : json :=
  object [("user_id", Some (JNum (authQueries.user_id r)));
          ("role", Some (JStr (authQueries.role r)));
          ("email", Some (JStr (authQueries.email r)));
          ("password", Some (JStr (authQueries.password r)))].

(** [throw new Error(prefix + error.message)] *)
Definition rethrow (prefix : string) (error : Error) : Error :=
  mkError "Error" (prefix +:+ err_message error).

Definition not_found (user_id : string) : Error :=
  mkError "Error" ("Usuario con ID " +:+ user_id +:+ " no encontrado").

Definition invalid_role : Error :=
  mkError "Error" "Rol inválido. Los roles permitidos son: admin, hr, mkt".

(** The [TypeError] of destructuring an absent [userData]. *)
Definition no_userData : Error :=
  mkError "TypeError"
    "Cannot destructure property 'role' of 'userData' as it is undefined.".

(** Each function returns its completion and the table it leaves. *)
Definition getUserById (users : list authQueries.UserRow) (user_id : string)
  : completion authQueries.UserRow :=
  match adminQueries.getUserById pg_integer invalid_integer users user_id with
  | Throw error => Throw (rethrow "Error al obtener usuario por ID: " error)
  | Return [] => Throw (rethrow "Error al obtener usuario por ID: " (not_found user_id))
  | Return (row :: _) => Return row
  end.

Definition createUser (users : list authQueries.UserRow)
           (userData : option (gmap string string))
  : completion json * list authQueries.UserRow :=
  match userData with
  | None => (Throw no_userData, users)
  | Some data =>
      let role := data !! "role" in
      let email := data !! "email" in
      let password := data !! "password" in
      if negb (truthy role) || negb (truthy email) || negb (truthy password) then
        (Throw (rethrow "Error al crear usuario: "
                  (mkError "Error" "Todos los campos son requeridos")), users)
      else if negb (includes validRoles (toLowerCase (default "" role))) then
        (Throw (rethrow "Error al crear usuario: " invalid_role), users)
      else
        let saltRounds := 10 in
        let hashedPassword := bcrypt_hash (default "" password) saltRounds in
        let '(rows, users') :=
          adminQueries.createUser fresh_id users
            (toLowerCase (default "" role)) (default "" email) hashedPassword in
        (Return (object [("message", Some (JStr "Usuario creado exitosamente"));
                         ("user", user_json <$> head rows)]),
         users')
  end.

Definition updateUserById (users : list authQueries.UserRow) (user_id : string)
           (userData : option (gmap string string))
  : completion json * list authQueries.UserRow :=
  let wrap := rethrow "Error al actualizar usuario: " in
  match adminQueries.getUserById pg_integer invalid_integer users user_id with
  | Throw error => (Throw (wrap error), users)
  | Return [] => (Throw (wrap (not_found user_id)), users)
  | Return (existing :: _) =>
      match userData with
      | None => (Throw (wrap no_userData), users)
      | Some data =>
          let role := data !! "role" in
          let email := data !! "email" in
          let password := data !! "password" in
          let newPassword :=
            match password with
            | Some p =>
                if negb (String.eqb p "") then bcrypt_hash p 10
                else authQueries.password existing
            | None => authQueries.password existing
            end in
          let updateData_role :=
            if truthy role then toLowerCase (default "" role)
            else authQueries.role existing in
          let updateData_email := or_str email (authQueries.email existing) in
          let updateData_password :=
            or_str (Some newPassword) (authQueries.password existing) in
          if truthy role && negb (includes validRoles updateData_role) then
            (Throw (wrap invalid_role), users)
          else
            match adminQueries.updateUserById pg_integer invalid_integer users
                    updateData_role updateData_email updateData_password user_id with
            | Throw error => (Throw (wrap error), users)
            | Return (rows, users') =>
                (Return (object [("message", Some (JStr "Usuario actualizado exitosamente"));
                                 ("user", user_json <$> head rows)]),
                 users')
            end
      end
  end.

Definition deleteUserById (users : list authQueries.UserRow) (user_id : string)
  : completion json * list authQueries.UserRow :=
  let wrap := rethrow "Error al eliminar usuario: " in
  match adminQueries.getUserById pg_integer invalid_integer users user_id with
  | Throw error => (Throw (wrap error), users)
  | Return [] => (Throw (wrap (not_found user_id)), users)
  | Return (existing :: _) =>
      match adminQueries.deleteUserById pg_integer invalid_integer users user_id with
      | Throw error => (Throw (wrap error), users)
      | Return (_, users') =>
          (Return (object [("message",
                            Some (JStr ("Usuario con ID " +:+ user_id
                                          +:+ " eliminado exitosamente")));
                           ("deletedUser", Some (row_json existing))]),
           users')
      end
  end.

End WithDatabase.
End adminModel.

(** ** controllers/adminController: the handlers for user accounts *)

Module adminController.
Section WithDatabase.

Variable pg_integer : string -> option Z.
Variable invalid_integer : string -> Error.
Variable fresh_id : list authQueries.UserRow -> Z.
Variable bcrypt_hash : string -> Z -> string.
Variable toLowerCase : string -> string.

Definition failed (err : Error) : json :=
  object [("success", Some (JBool false)); ("error", Some (JStr (err_message err)))].

(** A handler gets the table with the request and returns it with the
    response; [user_id] is [req.params.user_id]. *)
Definition getUserById (user_id : string) (users : list authQueries.UserRow)
  : Req -> Res -> Res * list authQueries.UserRow := fun req res =>
  match adminModel.getUserById pg_integer invalid_integer users user_id with
  | Return user =>
      (send_json (object [("success", Some (JBool true));
                          ("data", Some (adminModel.row_json user))]) res,
       users)
  | Throw err => (send_json (failed err) (status 404 res), users)
  end.

Definition createUser (users : list authQueries.UserRow)
  : Req -> Res -> Res * list authQueries.UserRow := fun req res =>
  match adminModel.createUser fresh_id bcrypt_hash toLowerCase users (body req) with
  | (Return result, users') => (send_json result (status 201 res), users')
  | (Throw err, users') => (send_json (failed err) (status 400 res), users')
  end.

Definition updateUserById (user_id : string) (users : list authQueries.UserRow)
  : Req -> Res -> Res * list authQueries.UserRow := fun req res =>
  match adminModel.updateUserById pg_integer invalid_integer bcrypt_hash toLowerCase
          users user_id (body req) with
  | (Return result, users') => (send_json result res, users')
  | (Throw err, users') => (send_json (failed err) (status 400 res), users')
  end.

Definition deleteUserById (user_id : string) (users : list authQueries.UserRow)
  : Req -> Res -> Res * list authQueries.UserRow := fun req res =>
  match adminModel.deleteUserById pg_integer invalid_integer users user_id with
  | (Return result, users') => (send_json result res, users')
  | (Throw err, users') => (send_json (failed err) (status 400 res), users')
  end.

End WithDatabase.
End adminController.

(** ** Concrete data for the user accounts *)

Module Accounts.

(** Lower case of the letters A to Z, enough for the sample roles. *)
Definition lower (c : ascii) : ascii :=
  let n := nat_of_ascii c in
  if (Nat.leb 65 n && Nat.leb n 90)%bool then ascii_of_nat (n + 32) else c.

Fixpoint toLowerCase (s : string) : string :=
  match s with
  | EmptyString => EmptyString
  | String c rest => String (lower c) (toLowerCase rest)
  end.

Definition bcrypt_hash (plain : string) (rounds : Z) : string := "hash-of-" +:+ plain.

Definition pg_integer (text : string) : option Z :=
  if String.eqb text "7" then Some 7
  else if String.eqb text "8" then Some 8
  else if String.eqb text "9" then Some 9
  else None.

Definition invalid_integer (text : string) : Error :=
  mkError "error" ("invalid input syntax for type integer: " +:+ text).

Definition fresh_id (users : list authQueries.UserRow) : Z :=
  1 + fold_right Z.max 7 (List.map authQueries.user_id users).

Definition new_account : gmap string string :=
  {[ "role" := "MKT"; "email" := "luis@empresa.com"; "password" := "Segura456" ]}.

Definition posting (fields : gmap string string) : Req :=
  mkReq ∅ (Some ∅) (Some ∅) (Some fields) None None None.

(** A codec instance that reads back what the interceptor signs for the
    sample account. *)
Definition renewed : Claims :=
  checkRefreshCookie.renewed_claims
    (authController.refresh_claims (authQueries.mkUserInfo 7 "hr" "ana@empresa.com")).

Definition encode (claims : Claims) (issued_at expires_at : Z) : string := "renewed".

Definition decode (content : string) : option (Claims * Z * Z) :=
  if String.eqb content "renewed" then Some (renewed, 1000, 1900)
  else if String.eqb content "ref7" then
    Some (authController.refresh_claims (authQueries.mkUserInfo 7 "hr" "ana@empresa.com"),
          500, 605300)
  else None.

Definition verifyAccessToken := jsonwebtoken.verifyAccessToken Samples.sign decode 1000.
Definition verifyRefreshToken := jsonwebtoken.verifyRefreshToken Samples.sign decode 1000.
Definition createAccessToken := jsonwebtoken.createAccessToken Samples.sign encode 1000.
Definition createRefreshToken := jsonwebtoken.createRefreshToken Samples.sign encode 1000.

(** The role of a row is one the account operations accept. *)
Definition valid_role (r : authQueries.UserRow) : Prop :=
  In (authQueries.role r) adminModel.validRoles.

End Accounts.

(** ** validators: the regular expressions of the login and account rules *)

Module RegExp.

(** A string as the regular expressions see it, a list of UTF-16 code units,
    and the part of the pattern language the validators use: character
    classes, [*], [+] and [{min,max}] on a class, sequence, lookahead, and
    the anchors [^] and [$] (no flags). *)
Inductive regex :=
| Class (p : Z -> bool)
| Star (p : Z -> bool)
| Plus (p : Z -> bool)
| Repeat (p : Z -> bool) (min max : nat)
| Seq (a b : regex)
| Lookahead (a : regex)
| Bol
| Eol.

(** [p*] from position [pos] on [s], then the continuation [k]. *)
Fixpoint star (p : Z -> bool) (pos : nat) (s : list Z) (k : nat -> list Z -> bool) : bool :=
  match s with
  | c :: s' => (p c && star p (S pos) s' k) || k pos s
  | [] => k pos []
  end.

(** [p{min,max}] *)
Fixpoint repeat (p : Z -> bool) (min max : nat) (pos : nat) (s : list Z)
         (k : nat -> list Z -> bool) : bool :=
  match max with
  | O => Nat.eqb min 0 && k pos s
  | S max' =>
      match s with
      | c :: s' => p c && repeat p (Nat.pred min) max' (S pos) s' k
      | [] => false
      end
      || (Nat.eqb min 0 && k pos s)
  end.

(** A match of [r] starting at position [pos], where [s] is what is left of
    the input, followed by [k]. *)
Fixpoint matches (r : regex) (pos : nat) (s : list Z) (k : nat -> list Z -> bool) : bool :=
  match r with
  | Class p =>
      match s with
      | c :: s' => p c && k (S pos) s'
      | [] => false
      end
  | Star p => star p pos s k
  | Plus p =>
      match s with
      | c :: s' => p c && star p (S pos) s' k
      | [] => false
      end
  | Repeat p min max => repeat p min max pos s k
  | Seq a b => matches a pos s (fun pos' s' => matches b pos' s' k)
  | Lookahead a => matches a pos s (fun _ _ => true) && k pos s
  | Bol => Nat.eqb pos 0 && k pos s
  | Eol =>
      match s with
      | [] => k pos s
      | _ :: _ => false
      end
  end.

(** A match starting at [pos] or at any later position. *)
Fixpoint search (r : regex) (pos : nat) (s : list Z) : bool :=
  matches r pos s (fun _ _ => true)
  || match s with
     | _ :: s' => search r (S pos) s'
     | [] => false
     end.

(** [r.test(s)] *)
Definition test (r : regex) (s : list Z) : bool := search r 0 s.

Definition range (lo hi : Z) (c : Z) : bool := Z.leb lo c && Z.leb c hi.

(** Line terminators, which [.] does not match, and white space, [\s]. *)
Definition line_terminator (c : Z) : bool :=
  Z.eqb c 10 || Z.eqb c 13 || Z.eqb c 8232 || Z.eqb c 8233.

Definition dot (c : Z) : bool := negb (line_terminator c).

Definition white_space (c : Z) : bool :=
  range 9 13 c || Z.eqb c 32 || Z.eqb c 160 || Z.eqb c 5760 || range 8192 8202 c
  || Z.eqb c 8232 || Z.eqb c 8233 || Z.eqb c 8239 || Z.eqb c 8287
  || Z.eqb c 12288 || Z.eqb c 65279.

Definition upper : Z -> bool := range 65 90.
Definition lower : Z -> bool := range 97 122.
Definition digit : Z -> bool := range 48 57.

(** [[^\s@]] *)
Definition local_char (c : Z) : bool := negb (white_space c || Z.eqb c 64).

(** [/^(?=.*[A-Z])(?=.*[a-z])(?=.*\d).{8,16}$/] *)
Definition passwordRegex : regex :=
  Seq Bol
    (Seq (Lookahead (Seq (Star dot) (Class upper)))
       (Seq (Lookahead (Seq (Star dot) (Class lower)))
          (Seq (Lookahead (Seq (Star dot) (Class digit)))
             (Seq (Repeat dot 8 16) Eol)))).

(** [/^[^\s@]+@[^\s@]+\.[^\s@]+$/] *)
Definition emailRegex : regex :=
  Seq Bol
    (Seq (Plus local_char)
       (Seq (Class (Z.eqb 64))
          (Seq (Plus local_char)
             (Seq (Class (Z.eqb 46))
                (Seq (Plus local_char) Eol))))).

(** The [custom] rule of [updateUserValidator] for [password]: [true], or
    the validation error it throws. *)
Definition update_password_rule (value : list Z) : completion bool :=
  if bool_decide (value = []) then Return true
  else if negb (test passwordRegex value) then
    Throw (mkError "Error"
             "La contraseña debe tener 8-16 caracteres, incluir mayúscula, minúscula y un número")
  else Return true.

(** The password rule in the words of its documentation: 8 to 16
    characters on one line, with an upper-case letter, a lower-case letter and
    a digit among them. *)
Definition password_policy (s : list Z) : bool :=
  Nat.leb 8 (List.length s) && Nat.leb (List.length s) 16 && forallb dot s
  && existsb upper s && existsb lower s && existsb digit s.

(** The code units of a string of ASCII characters. *)
Definition units (s : string) : list Z :=
  List.map (fun c => Z.of_nat (nat_of_ascii c)) (list_ascii_of_string s).

End RegExp.

(** ** The login path on request bodies of any JSON shape *)

Module Untyped.

(** A value of a parsed JSON body.  Above, the properties of [req.body] are
    strings; the login handler itself reads whatever the client posted. *)
Inductive value :=
| Null
| Bool (b : bool)
| Num (n : Z)
| Str (s : string)
| Arr (items : list value)
| Obj (props : list (string * value)).

(** [!!v]: [undefined], [null], [false], [0] and [''] are falsy; an array
    or an object is truthy, also when empty. *)
Definition truthy (v : option value) : bool :=
  match v with
  | None | Some Null => false
  | Some (Bool b) => b
  | Some (Num n) => negb (Z.eqb n 0)
  | Some (Str s) => negb (String.eqb s "")
  | Some (Arr _) | Some (Obj _) => true
  end.

(** [bcrypt.compare(data, hash)] of the [bcrypt] package, given what it
    answers on strings: it resolves to that answer for a string and rejects
    for every other [data]. *)
Definition compare (bcrypt_compare : string -> string -> bool)
           (data : option value) (hash : string) : completion bool :=
  match data with
  | Some (Str s) => Return (bcrypt_compare s hash)
  | None | Some Null => Throw (mkError "Error" "data and hash arguments required")
  | Some _ => Throw (mkError "Error" "data and hash must be strings")
  end.

Section WithStore.

Variable users : list authQueries.UserRow.

(** [bcrypt.compare], resolving or rejecting, and the text the database
    driver binds for a parameter that is not a string ([None] for SQL
    [NULL]). *)
Variable bcrypt_compare : option value -> string -> completion bool.
Variable prepareValue : value -> option string.

Variable createAccessToken : Claims -> string.
Variable createRefreshToken : Claims -> string.
Variable NODE_ENV : option string.

(** [pool.query(queries.login, [email])]: [result.rows]. *)
Definition query_login (email : option value) : list authQueries.UserRow :=
  match email with
  | Some (Str s) => authQueries.login users s
  | Some v =>
      match prepareValue v with
      | Some s => authQueries.login users s
      | None => []
      end
  | None => []
  end.

(** [authModel.login]: a rejection of [bcrypt.compare] is caught and thrown
    again. *)
Definition model_login (email password : option value)
  : completion (list authQueries.UserInfo) :=
  match query_login email with
  | [] => Return []
  | user :: _ =>
      match bcrypt_compare password (authQueries.password user) with
      | Throw error => Throw error
      | Return passwordMatch =>
          if negb passwordMatch then Return []
          else Return [authModel.userWithoutPassword user]
      end
  end.

(** [authController.login] on the body given; the rest of the request is
    not read. *)
Definition login (fields : option (gmap string value)) : Handler := fun req res =>
  match fields with
  | None =>
      (req,
       send_json (authController.login_error NODE_ENV authController.no_body)
         (status 500 res),
       Done)
  | Some fields =>
      let email := fields !! "email" in
      let password := fields !! "password" in
      if negb (truthy email) || negb (truthy password) then
        (req,
         send_json (authController.failure "Email y contraseña son requeridos")
           (status 400 res),
         Done)
      else
        match model_login email password with
        | Throw err =>
            (req, send_json (authController.login_error NODE_ENV err) (status 500 res),
             Done)
        | Return [] =>
            (req,
             send_json (authController.failure "Credenciales inválidas") (status 401 res),
             Done)
        | Return (user :: _) =>
            let accessToken := createAccessToken (authController.access_claims user) in
            let refreshToken := createRefreshToken (authController.refresh_claims user) in
            (req,
             send_json (authController.session_json accessToken user)
               (status 200
                  (cookie "refresh_token" refreshToken
                     (authController.issue_options NODE_ENV) res)),
             Done)
        end
  end.

End WithStore.

(** Credentials as a client may post them to [/login]. *)
Definition attempt (email : string) (password : value) : option (gmap string value) :=
  Some {[ "email" := Str email; "password" := password ]}.

(** A password posted as [["Equivocada9"]], an array holding one string. *)
Definition wrapped_password : value := Arr [Str "Equivocada9"].

(** A body with string values, as the handlers above read it. *)
Definition of_strings (fields : gmap string string) : gmap string value :=
  Str <$> fields.

End Untyped.

(** * Properties *)

(** ** Locating the token *)

Lemma truthy_default (v : option string) :
  truthy v = true -> v = Some (default "" v).
Proof. destruct v as [s|]; simpl; [reflexivity | discriminate]. Qed.

Lemma locateToken_reading (req : Req) :
  Reading.empty_bearer req = false ->
  authMiddleware.locateToken req =
    match Reading.first_non_empty req with
    | Some c => c
    | None => (None, "none")
    end.
Proof.
  unfold Reading.empty_bearer, Reading.first_non_empty, Reading.candidates,
    Reading.header_candidate, authMiddleware.locateToken.
  destruct (truthy (headers req !! "authorization")
            && startsWith (default "" (headers req !! "authorization")) "Bearer ") eqn:Hb;
    simpl.
  - intros Hne. apply negb_false_iff in Hne. rewrite Hne. reflexivity.
  - intros _.
    destruct (truthy (query req ≫= _)) eqn:Hq; [reflexivity|].
    destruct (truthy (cookies req ≫= _)) eqn:Hc; [reflexivity|].
    destruct (truthy (body req ≫= _)) eqn:Hy; reflexivity.
Qed.

Lemma locateToken_empty_bearer (req : Req) :
  Reading.empty_bearer req = true ->
  truthy (fst (authMiddleware.locateToken req)) = false
  /\ snd (authMiddleware.locateToken req) = "header".
Proof.
  unfold Reading.empty_bearer, authMiddleware.locateToken.
  intros H. apply andb_true_iff in H as [Hb Hne]. rewrite Hb. simpl.
  split; [now apply negb_true_iff in Hne | reflexivity].
Qed.

Lemma authenticate_no_token verifyAccessToken NODE_ENV (req : Req) (res : Res) :
  truthy (fst (authMiddleware.locateToken req)) = false ->
  authMiddleware.authenticate verifyAccessToken NODE_ENV req res
  = (req, send_json authMiddleware.TOKEN_REQUIRED (status 401 res), Done).
Proof.
  unfold authMiddleware.authenticate.
  destruct (authMiddleware.locateToken req) as [t src]. simpl.
  intros ->. reflexivity.
Qed.

Lemma authenticate_next_token verifyAccessToken NODE_ENV (req req' : Req) (res res' : Res) :
  authMiddleware.authenticate verifyAccessToken NODE_ENV req res = (req', res', Next) ->
  token req' = fst (authMiddleware.locateToken req)
  /\ truthy (token req') = true /\ res' = res.
Proof.
  unfold authMiddleware.authenticate.
  destruct (authMiddleware.locateToken req) as [t src]. simpl.
  destruct (truthy t) eqn:Ht; simpl; [|discriminate].
  destruct (verifyAccessToken (default "" t)) as [decoded|error].
  - destruct (negb (truthy_num _)); [discriminate|].
    intros [= <- <-]. simpl. auto.
  - destruct (String.eqb _ _); [|discriminate].
    intros [= <- <-]. simpl. auto.
Qed.

(** The lookup in full.  Unless the [Authorization] header names the
    bearer scheme and its piece after the first blank is empty, the
    authenticator takes the first non-empty candidate in the order header,
    query parameter, cookie, body field, together with its source, and it is
    that token a continuing request carries; a bearer header whose piece
    after the first blank is empty is answered 401 [TOKEN_REQUIRED] whatever
    the other locations hold; and when none of the four locations offers a
    token the answer is 401 [TOKEN_REQUIRED]. *)
Theorem authenticate_token_lookup :
  forall verifyAccessToken NODE_ENV (req : Req) (res : Res),
    (Reading.empty_bearer req = false ->
       authMiddleware.locateToken req =
         match Reading.first_non_empty req with
         | Some c => c
         | None => (None, "none")
         end
       /\ forall req' res',
            authMiddleware.authenticate verifyAccessToken NODE_ENV req res
              = (req', res', Next) ->
            exists src, Reading.first_non_empty req = Some (token req', src))
    /\ (Reading.empty_bearer req = true ->
          authMiddleware.authenticate verifyAccessToken NODE_ENV req res
          = (req, send_json authMiddleware.TOKEN_REQUIRED (status 401 res), Done))
    /\ (Reading.first_non_empty req = None ->
          authMiddleware.authenticate verifyAccessToken NODE_ENV req res
          = (req, send_json authMiddleware.TOKEN_REQUIRED (status 401 res), Done)
          /\ statusCode (status 401 res) = 401
          /\ code_of (send_json authMiddleware.TOKEN_REQUIRED (status 401 res))
             = Some (JStr "TOKEN_REQUIRED")).
Proof.
  intros verifyAccessToken NODE_ENV req res. split; [|split].
  - intros Hb. pose proof (locateToken_reading req Hb) as Hloc.
    split; [exact Hloc|].
    intros req' res' Hnext.
    apply authenticate_next_token in Hnext as (Htok & Htruthy & _).
    rewrite Hloc in Htok.
    destruct (Reading.first_non_empty req) as [[t src]|].
    + exists src. simpl in Htok. now rewrite Htok.
    + simpl in Htok. rewrite Htok in Htruthy. discriminate.
  - intros Hb. apply authenticate_no_token.
    now apply locateToken_empty_bearer.
  - intros Hnone. split; [|split; reflexivity].
    apply authenticate_no_token.
    destruct (Reading.empty_bearer req) eqn:Hb.
    + now apply locateToken_empty_bearer.
    + rewrite (locateToken_reading req Hb), Hnone. reflexivity.
Qed.

Lemma authenticate_token_lookup_witness :
  (Reading.empty_bearer (Samples.request (Samples.bearer Samples.valid_access) ∅) = false
   /\ authMiddleware.locateToken (Samples.request (Samples.bearer Samples.valid_access) ∅)
      = (Some Samples.valid_access, "header"))
  /\ (Reading.empty_bearer Samples.double_blank_request = true
      /\ code_of (snd (fst (authMiddleware.authenticate Samples.verifyAccessToken
                              Samples.NODE_ENV Samples.double_blank_request res0)))
         = Some (JStr "TOKEN_REQUIRED"))
  /\ (Reading.first_non_empty Samples.anonymous_request = None
      /\ statusCode (snd (fst (authMiddleware.authenticate Samples.verifyAccessToken
                                 Samples.NODE_ENV Samples.anonymous_request res0)))
         = 401).
Proof.
  assert (Ha : Reading.empty_bearer
                 (Samples.request (Samples.bearer Samples.valid_access) ∅) = false)
    by (vm_compute; reflexivity).
  assert (Hb : Reading.empty_bearer Samples.double_blank_request = true)
    by (vm_compute; reflexivity).
  assert (Hc : Reading.first_non_empty Samples.anonymous_request = None)
    by (vm_compute; reflexivity).
  split; [|split].
  - split; [exact Ha|].
    destruct (authenticate_token_lookup Samples.verifyAccessToken Samples.NODE_ENV
                (Samples.request (Samples.bearer Samples.valid_access) ∅) res0)
      as (H & _ & _).
    destruct (H Ha) as [Hloc _]. rewrite Hloc. vm_compute. reflexivity.
  - split; [exact Hb|].
    destruct (authenticate_token_lookup Samples.verifyAccessToken Samples.NODE_ENV
                Samples.double_blank_request res0) as (_ & H & _).
    rewrite (H Hb). reflexivity.
  - split; [exact Hc|].
    destruct (authenticate_token_lookup Samples.verifyAccessToken Samples.NODE_ENV
                Samples.anonymous_request res0) as (_ & _ & H).
    destruct (H Hc) as (Heq & _ & _). rewrite Heq. reflexivity.
Defined.

Lemma locateToken_second_blank (req : Req) (t : string) :
  headers req !! "authorization" = Some ("Bearer  " +:+ t) ->
  authMiddleware.locateToken req = (Some "", "header").
Proof.
  intros H. unfold authMiddleware.locateToken. rewrite H.
  change ("Bearer  " +:+ t) with ("Bearer" +:+ String " " (String " " t)).
  cbn [default]. unfold id.
  change (startsWith ("Bearer" +:+ String " " (String " " t)) "Bearer ") with true.
  change (truthy (Some ("Bearer" +:+ String " " (String " " t)))) with true.
  cbn [andb].
  change (split " " ("Bearer" +:+ String " " (String " " t)))
    with ("Bearer" :: "" :: split " " t).
  reflexivity.
Qed.

(** C3.  A bearer header with two blanks between the scheme and the token
    carries a token, and here the query string carries the same token; the
    first non-empty candidate is there to take.  Yet [split(' ')[1]] is the
    empty piece between the two blanks: the lookup ends at the header with an
    empty token, and the request is answered 401 [TOKEN_REQUIRED] whatever
    the verifier, while the same token after a single blank authenticates. *)
Theorem bearer_token_after_two_blanks_is_lost :
  forall verifyAccessToken NODE_ENV (res : Res),
    headers Samples.double_blank_request !! "authorization"
      = Some ("Bearer  " +:+ Samples.valid_access)
    /\ Reading.first_non_empty Samples.double_blank_request
       = Some (Some Samples.valid_access, "query")
    /\ authMiddleware.locateToken Samples.double_blank_request = (Some "", "header")
    /\ authMiddleware.authenticate verifyAccessToken NODE_ENV
         Samples.double_blank_request res
       = (Samples.double_blank_request,
          send_json authMiddleware.TOKEN_REQUIRED (status 401 res), Done)
    /\ code_of (send_json authMiddleware.TOKEN_REQUIRED (status 401 res))
       = Some (JStr "TOKEN_REQUIRED")
    /\ exists req',
         authMiddleware.authenticate Samples.verifyAccessToken Samples.NODE_ENV
           (Samples.request (Samples.bearer Samples.valid_access) ∅) res
         = (req', res, Next)
         /\ token req' = Some Samples.valid_access.
Proof.
  intros verifyAccessToken NODE_ENV res.
  assert (Hh : headers Samples.double_blank_request !! "authorization"
               = Some ("Bearer  " +:+ Samples.valid_access))
    by (vm_compute; reflexivity).
  pose proof (locateToken_second_blank _ _ Hh) as Hloc.
  split; [exact Hh|].
  split; [vm_compute; reflexivity|].
  split; [exact Hloc|].
  split; [apply authenticate_no_token; now rewrite Hloc|].
  split; [reflexivity|].
  eexists. split; [reflexivity | reflexivity].
Qed.

(** ** Expired against invalid tokens *)

Lemma parse_rejoin (token content signature : string) :
  jsonwebtoken.parse token = Some (content, signature) ->
  forall other, jsonwebtoken.parse (content +:+ "." +:+ other) = Some (content, other).
Proof.
  revert content. induction token as [|c rest IH]; simpl; intros content; [discriminate|].
  destruct (Ascii.eqb c ".") eqn:Hc.
  - intros [= <- _] other. reflexivity.
  - destruct (jsonwebtoken.parse rest) as [[content' signature']|]; [|discriminate].
    intros [= <- <-] other. simpl. rewrite Hc.
    now rewrite (IH content' eq_refl other).
Qed.

Lemma one_byte_flipped_neq (s t : string) :
  jsonwebtoken.one_byte_flipped s t = true -> String.eqb t s = false.
Proof.
  revert t. induction s as [|a s IH]; intros [|b t]; simpl; try discriminate.
  destruct (Ascii.eqb a b) eqn:Hab.
  - intros H. apply Ascii.eqb_eq in Hab as ->. rewrite Ascii.eqb_refl. now apply IH.
  - intros _. rewrite Ascii.eqb_sym, Hab. reflexivity.
Qed.

Lemma verify_flipped sign decode now token content signature claims flipped :
  jsonwebtoken.parse token = Some (content, signature) ->
  jsonwebtoken.verify sign decode jsonwebtoken.access now token = inl claims ->
  jsonwebtoken.one_byte_flipped signature flipped = true ->
  jsonwebtoken.verify sign decode jsonwebtoken.access now (content +:+ "." +:+ flipped)
  = inr jsonwebtoken.TAMPERED.
Proof.
  intros Hparse Hvalid Hflip. unfold jsonwebtoken.verify in *.
  rewrite (parse_rejoin _ _ _ Hparse flipped). rewrite Hparse in Hvalid.
  destruct (String.eqb signature (sign jsonwebtoken.access content)) eqn:Hsig;
    simpl in Hvalid; [|discriminate].
  apply String.eqb_eq in Hsig as <-.
  now rewrite (one_byte_flipped_neq _ _ Hflip).
Qed.

Lemma authenticate_throw verifyAccessToken NODE_ENV req res tok src error :
  authMiddleware.locateToken req = (Some tok, src) ->
  tok <> "" ->
  verifyAccessToken tok = Throw error ->
  authMiddleware.authenticate verifyAccessToken NODE_ENV req res =
    if String.eqb (err_message error) "ACCESS_TOKEN_EXPIRED"
    then (mkReq (headers req) (query req) (cookies req) (body req)
            None (Some tok) (Some true), res, Next)
    else (req, send_json (authMiddleware.INVALID_TOKEN NODE_ENV error) (status 401 res), Done).
Proof.
  intros Hloc Hne Hthrow. unfold authMiddleware.authenticate. rewrite Hloc. simpl.
  apply String.eqb_neq in Hne. rewrite Hne. simpl. now rewrite Hthrow.
Qed.

Lemma code_of_INVALID_TOKEN NODE_ENV error res :
  code_of (send_json (authMiddleware.INVALID_TOKEN NODE_ENV error) res)
  = Some (JStr "INVALID_TOKEN").
Proof. reflexivity. Qed.

(** C2.  When the verification of the located access token throws, the
    authenticator rejects only if the failure is not the expiry one: on
    [ACCESS_TOKEN_EXPIRED] it sets [tokenExpired], keeps the raw token,
    clears [req.user] and calls [next()]; on any other failure it answers
    401 [INVALID_TOKEN] at once, and on a protected route the interceptor
    and the handlers behind it never run, whatever refresh cookie came along.
    With the token codec of the spec, an otherwise valid token with one
    signature byte flipped fails as [TAMPERED], never as [EXPIRED], and is
    answered [INVALID_TOKEN]. *)
Theorem authenticate_expired_continues_invalid_rejects :
  (forall verifyAccessToken verifyRefreshToken createAccessToken NODE_ENV
          (req : Req) (res : Res) (tok src : string) (error : Error)
          (handlers : list Handler),
      authMiddleware.locateToken req = (Some tok, src) ->
      tok <> "" ->
      verifyAccessToken tok = Throw error ->
      (err_message error = "ACCESS_TOKEN_EXPIRED" ->
         authMiddleware.authenticate verifyAccessToken NODE_ENV req res
         = (mkReq (headers req) (query req) (cookies req) (body req)
              None (Some tok) (Some true), res, Next))
      /\ (err_message error <> "ACCESS_TOKEN_EXPIRED" ->
            let rejected :=
              send_json (authMiddleware.INVALID_TOKEN NODE_ENV error) (status 401 res) in
            authMiddleware.authenticate verifyAccessToken NODE_ENV req res
              = (req, rejected, Done)
            /\ statusCode rejected = 401
            /\ code_of rejected = Some (JStr "INVALID_TOKEN")
            /\ run (authRoutes.protected createAccessToken verifyAccessToken
                      verifyRefreshToken NODE_ENV handlers) req res
               = (req, rejected, Done)))
  /\ (forall sign decode now NODE_ENV (req : Req) (res : Res)
             (token content signature flipped src : string) (claims : Claims),
        jsonwebtoken.parse token = Some (content, signature) ->
        jsonwebtoken.verify sign decode jsonwebtoken.access now token = inl claims ->
        jsonwebtoken.one_byte_flipped signature flipped = true ->
        authMiddleware.locateToken req = (Some (content +:+ "." +:+ flipped), src) ->
        jsonwebtoken.verify sign decode jsonwebtoken.access now
          (content +:+ "." +:+ flipped) = inr jsonwebtoken.TAMPERED
        /\ exists error,
            authMiddleware.authenticate
              (jsonwebtoken.verifyAccessToken sign decode now) NODE_ENV req res
            = (req,
               send_json (authMiddleware.INVALID_TOKEN NODE_ENV error) (status 401 res),
               Done)).
Proof.
  split.
  - intros verifyAccessToken verifyRefreshToken createAccessToken NODE_ENV
      req res tok src error handlers Hloc Hne Hthrow.
    pose proof (authenticate_throw verifyAccessToken NODE_ENV req res tok src error
                  Hloc Hne Hthrow) as Hauth.
    split.
    + intros Hmsg. rewrite Hauth, Hmsg. reflexivity.
    + intros Hmsg. apply String.eqb_neq in Hmsg. rewrite Hmsg in Hauth.
      simpl. repeat split; try assumption; try reflexivity.
      unfold authRoutes.protected. simpl. rewrite Hauth. reflexivity.
  - intros sign decode now NODE_ENV req res token content signature flipped src claims
      Hparse Hvalid Hflip Hloc.
    pose proof (verify_flipped sign decode now token content signature claims flipped
                  Hparse Hvalid Hflip) as Htam.
    split; [exact Htam|].
    exists (mkError "Error" "ACCESS_TOKEN_TAMPERED").
    rewrite (authenticate_throw _ NODE_ENV req res _ src
               (mkError "Error" "ACCESS_TOKEN_TAMPERED") Hloc).
    + reflexivity.
    + destruct content; discriminate.
    + unfold jsonwebtoken.verifyAccessToken. now rewrite Htam.
Qed.

Lemma authenticate_expired_continues_invalid_rejects_witness :
  let expired_req :=
    Samples.request (Samples.bearer Samples.expired_access)
      {[ "refresh_token" := Samples.valid_refresh ]} in
  let flipped_req :=
    Samples.request (Samples.bearer Samples.flipped_access)
      {[ "refresh_token" := Samples.valid_refresh ]} in
  (authMiddleware.locateToken expired_req = (Some Samples.expired_access, "header")
   /\ Samples.verifyAccessToken Samples.expired_access
      = Throw (mkError "Error" "ACCESS_TOKEN_EXPIRED")
   /\ authMiddleware.authenticate Samples.verifyAccessToken Samples.NODE_ENV expired_req res0
      = (mkReq (headers expired_req) (query expired_req) (cookies expired_req)
           (body expired_req) None (Some Samples.expired_access) (Some true),
         res0, Next))
  /\ (authMiddleware.locateToken flipped_req = (Some Samples.flipped_access, "header")
      /\ Samples.verifyAccessToken Samples.flipped_access
         = Throw (mkError "Error" "ACCESS_TOKEN_TAMPERED")
      /\ run (authRoutes.protected Samples.createAccessToken Samples.verifyAccessToken
                Samples.verifyRefreshToken Samples.NODE_ENV [Samples.business])
             flipped_req res0
         = (flipped_req,
            send_json (authMiddleware.INVALID_TOKEN Samples.NODE_ENV
                         (mkError "Error" "ACCESS_TOKEN_TAMPERED")) (status 401 res0),
            Done))
  /\ (jsonwebtoken.parse Samples.valid_access = Some ("hr7", "a-hr7")
      /\ jsonwebtoken.verify Samples.sign Samples.decode jsonwebtoken.access Samples.now
           Samples.valid_access = inl Samples.hr_claims
      /\ jsonwebtoken.one_byte_flipped "a-hr7" "a-hr6" = true
      /\ jsonwebtoken.verify Samples.sign Samples.decode jsonwebtoken.access Samples.now
           Samples.flipped_access = inr jsonwebtoken.TAMPERED).
Proof.
  intros expired_req flipped_req.
  destruct authenticate_expired_continues_invalid_rejects as [Hthrow Hflip].
  assert (Hloc1 : authMiddleware.locateToken expired_req
                  = (Some Samples.expired_access, "header")) by (vm_compute; reflexivity).
  assert (Hv1 : Samples.verifyAccessToken Samples.expired_access
                = Throw (mkError "Error" "ACCESS_TOKEN_EXPIRED")) by (vm_compute; reflexivity).
  assert (Hloc2 : authMiddleware.locateToken flipped_req
                  = (Some Samples.flipped_access, "header")) by (vm_compute; reflexivity).
  assert (Hv2 : Samples.verifyAccessToken Samples.flipped_access
                = Throw (mkError "Error" "ACCESS_TOKEN_TAMPERED")) by (vm_compute; reflexivity).
  assert (Hp : jsonwebtoken.parse Samples.valid_access = Some ("hr7", "a-hr7"))
    by (vm_compute; reflexivity).
  assert (Hok : jsonwebtoken.verify Samples.sign Samples.decode jsonwebtoken.access
                  Samples.now Samples.valid_access = inl Samples.hr_claims)
    by (vm_compute; reflexivity).
  assert (Hf : jsonwebtoken.one_byte_flipped "a-hr7" "a-hr6" = true)
    by (vm_compute; reflexivity).
  split; [|split].
  - split; [exact Hloc1|]. split; [exact Hv1|].
    destruct (Hthrow Samples.verifyAccessToken Samples.verifyRefreshToken
                Samples.createAccessToken Samples.NODE_ENV expired_req res0
                Samples.expired_access "header" (mkError "Error" "ACCESS_TOKEN_EXPIRED")
                [Samples.business] Hloc1 ltac:(discriminate) Hv1) as [Hexp _].
    exact (Hexp eq_refl).
  - split; [exact Hloc2|]. split; [exact Hv2|].
    destruct (Hthrow Samples.verifyAccessToken Samples.verifyRefreshToken
                Samples.createAccessToken Samples.NODE_ENV flipped_req res0
                Samples.flipped_access "header" (mkError "Error" "ACCESS_TOKEN_TAMPERED")
                [Samples.business] Hloc2 ltac:(discriminate) Hv2) as [_ Hinv].
    destruct (Hinv ltac:(discriminate)) as (_ & _ & _ & Hrun). exact Hrun.
  - split; [exact Hp|]. split; [exact Hok|]. split; [exact Hf|].
    destruct (Hflip Samples.sign Samples.decode Samples.now Samples.NODE_ENV
                flipped_req res0 Samples.valid_access "hr7" "a-hr7" "a-hr6" "header"
                Samples.hr_claims Hp Hok Hf Hloc2) as [Htam _].
    exact Htam.
Defined.

(** ** Role gates *)

(** Case analysis on the gate, down to the body of its handler. *)
Ltac gate_cases g :=
  destruct g; simpl in *;
  unfold authMiddleware.requireAdmin, authMiddleware.requireHR,
    authMiddleware.requireMarketing, authMiddleware.hasRole, authMiddleware.hasAnyRole.

Lemma gate_unauthenticated (g : Reading.gate) (req : Req) (res : Res) :
  user req = None ->
  Reading.handler_of g req res
  = (req, send_json authMiddleware.NOT_AUTHENTICATED (status 401 res), Done).
Proof.
  intros H. gate_cases g; now rewrite H.
Qed.

Lemma gate_denies (g : Reading.gate) (req : Req) (res : Res) (u : User) :
  user req = Some u ->
  Reading.admits g (role u) = false ->
  exists message,
    Reading.handler_of g req res
    = (req,
       send_json (authMiddleware.denied message (Reading.denial_code g)) (status 403 res),
       Done).
Proof.
  intros Hu Hno. gate_cases g; rewrite Hu, Hno; simpl; eexists; reflexivity.
Qed.

Lemma gate_admits (g : Reading.gate) (req : Req) (res : Res) (u : User) :
  user req = Some u ->
  Reading.admits g (role u) = true ->
  Reading.handler_of g req res = (req, res, Next).
Proof.
  intros Hu Hyes. gate_cases g; rewrite Hu, Hyes; reflexivity.
Qed.

Lemma gate_keeps_request (g : Reading.gate) (req : Req) (res : Res) :
  fst (fst (Reading.handler_of g req res)) = req.
Proof.
  destruct (user req) as [u|] eqn:Hu.
  - destruct (Reading.admits g (role u)) eqn:Ha.
    + now rewrite (gate_admits g req res u Hu Ha).
    + destruct (gate_denies g req res u Hu Ha) as [m ->]. reflexivity.
  - now rewrite (gate_unauthenticated g req res Hu).
Qed.

Lemma denied_code message code res :
  code_of (send_json (authMiddleware.denied message code) res) = Some (JStr code).
Proof. reflexivity. Qed.

(** C8, as the code has it.  Every gate answers 401 [NOT_AUTHENTICATED]
    when no identity is attached, whatever role it requires.  With an
    identity whose role the gate does not admit it answers 403 with a
    [*_REQUIRED] code: [ADMIN_REQUIRED], [HR_REQUIRED] and
    [MARKETING_REQUIRED] for the three fixed gates, the generic
    [ROLE_REQUIRED] for [hasRole] and [hasAnyRole].  With an admitted role it
    calls [next()] and leaves the response alone.  No gate changes the
    request.  An [hr] identity gets 403 [ADMIN_REQUIRED] from [requireAdmin]
    and passes [requireHR]. *)
Theorem role_gate_outcomes :
  forall (g : Reading.gate) (req : Req) (res : Res),
    (user req = None ->
       Reading.handler_of g req res
       = (req, send_json authMiddleware.NOT_AUTHENTICATED (status 401 res), Done)
       /\ code_of (send_json authMiddleware.NOT_AUTHENTICATED (status 401 res))
          = Some (JStr "NOT_AUTHENTICATED"))
    /\ (forall u, user req = Some u -> Reading.admits g (role u) = false ->
          exists message,
            let rejected :=
              send_json (authMiddleware.denied message (Reading.denial_code g))
                (status 403 res) in
            Reading.handler_of g req res = (req, rejected, Done)
            /\ statusCode rejected = 403
            /\ code_of rejected = Some (JStr (Reading.denial_code g)))
    /\ (forall u, user req = Some u -> Reading.admits g (role u) = true ->
          Reading.handler_of g req res = (req, res, Next))
    /\ fst (fst (Reading.handler_of g req res)) = req
    /\ (forall u, user req = Some u -> role u = "hr" ->
          authMiddleware.requireAdmin req res
          = (req,
             send_json (authMiddleware.denied "Acceso denegado: solo administradores"
                          "ADMIN_REQUIRED") (status 403 res),
             Done)
          /\ authMiddleware.requireHR req res = (req, res, Next)).
Proof.
  intros g req res. split; [|split; [|split; [|split]]].
  - intros Hnone. split; [now apply gate_unauthenticated | reflexivity].
  - intros u Hu Hno. destruct (gate_denies g req res u Hu Hno) as [m Hm].
    exists m. simpl. repeat split. exact Hm.
  - intros u Hu Hyes. now apply (gate_admits g req res u).
  - apply gate_keeps_request.
  - intros u Hu Hhr. split.
    + unfold authMiddleware.requireAdmin. rewrite Hu, Hhr. reflexivity.
    + unfold authMiddleware.requireHR. rewrite Hu, Hhr. reflexivity.
Qed.

Lemma role_gate_outcomes_witness :
  (user Samples.anonymous_request = None
   /\ authMiddleware.requireAdmin Samples.anonymous_request res0
      = (Samples.anonymous_request,
         send_json authMiddleware.NOT_AUTHENTICATED (status 401 res0), Done))
  /\ (user Samples.hr_request = Some Samples.hr_user
      /\ Reading.admits Reading.Admin (role Samples.hr_user) = false
      /\ code_of (snd (fst (authMiddleware.requireAdmin Samples.hr_request res0)))
         = Some (JStr "ADMIN_REQUIRED"))
  /\ (Reading.admits (Reading.HasRole "hr") (role Samples.hr_user) = true
      /\ authMiddleware.hasRole "hr" Samples.hr_request res0
         = (Samples.hr_request, res0, Next))
  /\ (role Samples.hr_user = "hr"
      /\ authMiddleware.requireHR Samples.hr_request res0
         = (Samples.hr_request, res0, Next)).
Proof.
  assert (Hu : user Samples.hr_request = Some Samples.hr_user) by reflexivity.
  split; [|split; [|split]].
  - split; [reflexivity|].
    destruct (role_gate_outcomes Reading.Admin Samples.anonymous_request res0)
      as (H & _). exact (proj1 (H eq_refl)).
  - split; [exact Hu|]. split; [reflexivity|].
    destruct (role_gate_outcomes Reading.Admin Samples.hr_request res0)
      as (_ & H & _).
    destruct (H Samples.hr_user Hu eq_refl) as (m & Heq & _ & Hcode).
    simpl in Heq. rewrite Heq. exact Hcode.
  - split; [reflexivity|].
    destruct (role_gate_outcomes (Reading.HasRole "hr") Samples.hr_request res0)
      as (_ & _ & H & _).
    exact (H Samples.hr_user Hu eq_refl).
  - split; [reflexivity|].
    destruct (role_gate_outcomes Reading.HR Samples.hr_request res0)
      as (_ & _ & _ & _ & H).
    exact (proj2 (H Samples.hr_user Hu eq_refl)).
Defined.

(** C8 as stated fails: on a route gated by [hasRole('admin')] an [hr]
    identity is answered 403 with the generic code [ROLE_REQUIRED], not
    [ADMIN_REQUIRED], and the same code is used whatever role is required. *)
Lemma hasRole_code_is_not_role_specific :
  authMiddleware.hasRole "admin" Samples.hr_request res0
  = (Samples.hr_request,
     send_json (authMiddleware.denied "Acceso denegado. Se requiere rol: admin"
                  "ROLE_REQUIRED") (status 403 res0),
     Done)
  /\ code_of (snd (fst (authMiddleware.hasRole "admin" Samples.hr_request res0)))
     <> Some (JStr "ADMIN_REQUIRED")
  /\ code_of (snd (fst (authMiddleware.hasRole "admin" Samples.hr_request res0)))
     = code_of (snd (fst (authMiddleware.hasRole "mkt" Samples.hr_request res0))).
Proof.
  split; [vm_compute; reflexivity|].
  split; [vm_compute; discriminate | vm_compute; reflexivity].
Qed.

(** ** The default role *)

Lemma or_str_falsy (v : option string) (d : string) :
  truthy v = false -> or_str v d = d.
Proof.
  destruct v as [s|]; simpl; [|reflexivity].
  destruct (String.eqb s ""); [reflexivity | discriminate].
Qed.

Lemma staff_gate_excludes_user (g : Reading.gate) :
  Reading.staff_gate g -> Reading.admits g "user" = false.
Proof.
  destruct g as [| | |r|rs]; simpl; try reflexivity.
  - intros [-> | [-> | ->]]; reflexivity.
  - unfold includes. induction 1 as [|r rs Hr _ IH]; cbn [existsb]; [reflexivity|].
    rewrite IH, orb_false_r. destruct Hr as [-> | [-> | ->]]; reflexivity.
Qed.

Lemma user_role_denied (g : Reading.gate) (req : Req) (res : Res) (u : User) :
  Reading.staff_gate g ->
  user req = Some u ->
  role u = "user" ->
  exists message,
    Reading.handler_of g req res
    = (req,
       send_json (authMiddleware.denied message (Reading.denial_code g)) (status 403 res),
       Done).
Proof.
  intros Hg Hu Hr. apply (gate_denies g req res u Hu).
  rewrite Hr. now apply staff_gate_excludes_user.
Qed.

(** C10.  When the verified claims carry no role (absent or empty), the
    identity the authenticator attaches has role ['user'], and so has the
    identity the interceptor attaches after a renewal, as well as the claims
    of the access token it mints; the request goes on as authenticated, and
    every gate for [admin], [hr] or [mkt] answers it with 403. *)
Theorem missing_role_defaults_to_user :
  (forall verifyAccessToken NODE_ENV (req : Req) (res : Res) (tok src : string)
          (decoded : Claims),
      authMiddleware.locateToken req = (Some tok, src) ->
      tok <> "" ->
      verifyAccessToken tok = Return decoded ->
      truthy_num (or_num (c_user_id decoded) (c_id_user decoded)) = true ->
      truthy (c_role decoded) = false ->
      exists req' u,
        authMiddleware.authenticate verifyAccessToken NODE_ENV req res = (req', res, Next)
        /\ user req' = Some u
        /\ role u = "user"
        /\ tokenExpired req' = Some false
        /\ forall g, Reading.staff_gate g ->
             exists message,
               Reading.handler_of g req' res
               = (req',
                  send_json (authMiddleware.denied message (Reading.denial_code g))
                    (status 403 res),
                  Done))
  /\ (forall verifyRefreshToken createAccessToken (req : Req) (res : Res)
             (tok : string) (refreshData : Claims),
        tokenExpired req = Some true ->
        cookie_of req "refresh_token" = Some tok ->
        tok <> "" ->
        verifyRefreshToken tok = Return refreshData ->
        truthy (c_role refreshData) = false ->
        exists req' res' u,
          checkRefreshCookie.refreshMiddleware verifyRefreshToken createAccessToken req res
            = (req', res', Next)
          /\ user req' = Some u
          /\ role u = "user"
          /\ tokenExpired req' = Some false
          /\ c_role (checkRefreshCookie.renewed_claims refreshData) = Some "user"
          /\ forall g, Reading.staff_gate g ->
               exists message,
                 Reading.handler_of g req' res'
                 = (req',
                    send_json (authMiddleware.denied message (Reading.denial_code g))
                      (status 403 res'),
                    Done)).
Proof.
  split.
  - intros verifyAccessToken NODE_ENV req res tok src decoded Hloc Hne Hv Hid Hrole.
    eexists. eexists. split.
    + unfold authMiddleware.authenticate. rewrite Hloc. simpl.
      apply String.eqb_neq in Hne. rewrite Hne. simpl. rewrite Hv, Hid. simpl.
      reflexivity.
    + split; [reflexivity|]. split; [now apply or_str_falsy|].
      split; [reflexivity|].
      intros g Hg. eapply user_role_denied; [exact Hg | reflexivity |].
      now apply or_str_falsy.
  - intros verifyRefreshToken createAccessToken req res tok refreshData
      Hexp Hck Hne Hv Hrole.
    eexists. eexists. eexists. split.
    + unfold checkRefreshCookie.refreshMiddleware. rewrite Hexp, Hck. simpl.
      apply String.eqb_neq in Hne. rewrite Hne. simpl. rewrite Hv. reflexivity.
    + split; [reflexivity|]. split; [now apply or_str_falsy|].
      split; [reflexivity|].
      split; [simpl; now rewrite or_str_falsy|].
      intros g Hg. eapply user_role_denied; [exact Hg | reflexivity |].
      now apply or_str_falsy.
Qed.

Lemma missing_role_defaults_to_user_witness :
  let roleless_req := Samples.request (Samples.bearer Samples.roleless_access) ∅ in
  let renewing_req := Samples.expired_request Samples.roleless_refresh in
  (authMiddleware.locateToken roleless_req = (Some Samples.roleless_access, "header")
   /\ Samples.verifyAccessToken Samples.roleless_access = Return Samples.roleless_claims
   /\ truthy (c_role Samples.roleless_claims) = false
   /\ role <$> user (fst (fst (authMiddleware.authenticate Samples.verifyAccessToken
                                 Samples.NODE_ENV roleless_req res0)))
      = Some "user")
  /\ (tokenExpired renewing_req = Some true
      /\ cookie_of renewing_req "refresh_token" = Some Samples.roleless_refresh
      /\ Samples.verifyRefreshToken Samples.roleless_refresh = Return Samples.roleless_claims
      /\ role <$> user (fst (fst (checkRefreshCookie.refreshMiddleware
                                    Samples.verifyRefreshToken Samples.createAccessToken
                                    renewing_req res0)))
         = Some "user").
Proof.
  intros roleless_req renewing_req.
  destruct missing_role_defaults_to_user as [Hauth Hrenew].
  assert (Hloc : authMiddleware.locateToken roleless_req
                 = (Some Samples.roleless_access, "header")) by (vm_compute; reflexivity).
  assert (Hv : Samples.verifyAccessToken Samples.roleless_access
               = Return Samples.roleless_claims) by (vm_compute; reflexivity).
  assert (Hck : cookie_of renewing_req "refresh_token" = Some Samples.roleless_refresh)
    by (vm_compute; reflexivity).
  assert (Hr : Samples.verifyRefreshToken Samples.roleless_refresh
               = Return Samples.roleless_claims) by (vm_compute; reflexivity).
  split.
  - split; [exact Hloc|]. split; [exact Hv|]. split; [reflexivity|].
    destruct (Hauth Samples.verifyAccessToken Samples.NODE_ENV roleless_req res0
                Samples.roleless_access "header" Samples.roleless_claims
                Hloc ltac:(discriminate) Hv eq_refl eq_refl)
      as (req' & u & Heq & Hu & Hrole & _).
    rewrite Heq. simpl. rewrite Hu. simpl. now rewrite Hrole.
  - split; [reflexivity|]. split; [exact Hck|]. split; [exact Hr|].
    destruct (Hrenew Samples.verifyRefreshToken Samples.createAccessToken renewing_req res0
                Samples.roleless_refresh Samples.roleless_claims
                eq_refl Hck ltac:(discriminate) Hr eq_refl)
      as (req' & res' & u & Heq & Hu & Hrole & _).
    rewrite Heq. simpl. rewrite Hu. simpl. now rewrite Hrole.
Defined.

(** ** Login *)

Lemma query_login_unknown (users : list authQueries.UserRow) (mail : string) :
  (forall r, In r users -> authQueries.email r <> mail) ->
  authQueries.login users mail = [].
Proof.
  unfold authQueries.login. induction users as [|r users IH]; simpl; [reflexivity|].
  intros H. destruct (String.eqb (authQueries.email r) mail) eqn:He.
  - apply String.eqb_eq in He. exfalso. apply (H r); auto.
  - apply IH. intros r' Hr'. apply H. now right.
Qed.

Lemma query_login_head (users : list authQueries.UserRow) (mail : string) row :
  hd_error (authQueries.login users mail) = Some row ->
  In row users /\ authQueries.email row = mail.
Proof.
  unfold authQueries.login. intros H.
  assert (Hin : In row (List.filter (fun r => String.eqb (authQueries.email r) mail) users)).
  { destruct (List.filter _ users); simpl in H; [discriminate|].
    injection H as ->. now left. }
  apply filter_In in Hin as [Hin He]. split; [exact Hin | now apply String.eqb_eq].
Qed.

Lemma model_login_rejects users bcrypt_compare (mail pass : string) :
  (authQueries.login users mail = []
   \/ exists row, hd_error (authQueries.login users mail) = Some row
                  /\ bcrypt_compare pass (authQueries.password row) = false) ->
  authModel.login users bcrypt_compare mail pass = [].
Proof.
  unfold authModel.login. intros [-> | (row & Hrow & Hcmp)]; [reflexivity|].
  destruct (authQueries.login users mail) as [|r rest]; [reflexivity|].
  simpl in Hrow. injection Hrow as ->. now rewrite Hcmp.
Qed.


Lemma controller_login_fields Auth createAccessToken createRefreshToken NODE_ENV
      (req : Req) (res : Res) (fields : gmap string string) (mail pass : string) :
  body req = Some fields ->
  fields !! "email" = Some mail ->
  fields !! "password" = Some pass ->
  mail <> "" -> pass <> "" ->
  authController.login Auth createAccessToken createRefreshToken NODE_ENV req res =
    match authModel.exp_login Auth mail pass with
    | [] =>
        (req, send_json (authController.failure "Credenciales inválidas") (status 401 res),
         Done)
    | user :: _ =>
        (req,
         send_json
           (authController.session_json
              (createAccessToken (authController.access_claims user)) user)
           (status 200
              (cookie "refresh_token"
                 (createRefreshToken (authController.refresh_claims user))
                 (authController.issue_options NODE_ENV) res)),
         Done)
    end.
Proof.
  intros Hb He Hp Hm Hpw. unfold authController.login. rewrite Hb, He, Hp. simpl.
  apply String.eqb_neq in Hm, Hpw. rewrite Hm, Hpw. reflexivity.
Qed.

(** With strings as email and password, a login attempt whose email matches
    no row of [users] and a login attempt with a known email and a password
    that does not match the stored hash get the same answer: status 401, the
    message of invalid credentials, no code, no cookie. *)
Theorem login_failures_indistinguishable :
  forall users bcrypt_compare createAccessToken createRefreshToken NODE_ENV
         (unknown known : Req) (res : Res)
         (fields1 fields2 : gmap string string)
         (email1 password1 email2 password2 : string) (row : authQueries.UserRow),
    body unknown = Some fields1 ->
    fields1 !! "email" = Some email1 -> fields1 !! "password" = Some password1 ->
    email1 <> "" -> password1 <> "" ->
    body known = Some fields2 ->
    fields2 !! "email" = Some email2 -> fields2 !! "password" = Some password2 ->
    email2 <> "" -> password2 <> "" ->
    (forall r, In r users -> authQueries.email r <> email1) ->
    hd_error (authQueries.login users email2) = Some row ->
    bcrypt_compare password2 (authQueries.password row) = false ->
    let login :=
      authController.login (authModel.exports users bcrypt_compare)
        createAccessToken createRefreshToken NODE_ENV in
    let rejected :=
      send_json (authController.failure "Credenciales inválidas") (status 401 res) in
    login unknown res = (unknown, rejected, Done)
    /\ login known res = (known, rejected, Done)
    /\ snd (fst (login unknown res)) = snd (fst (login known res))
    /\ statusCode rejected = 401
    /\ message_of rejected = Some (JStr "Credenciales inválidas")
    /\ code_of rejected = None.
Proof.
  intros users bcrypt_compare createAccessToken createRefreshToken NODE_ENV
    unknown known res fields1 fields2 email1 password1 email2 password2 row
    Hb1 He1 Hp1 Hne1 Hnp1 Hb2 He2 Hp2 Hne2 Hnp2 Hunknown Hknown Hmismatch login rejected.
  assert (H1 : login unknown res = (unknown, rejected, Done)).
  { unfold login.
    rewrite (controller_login_fields _ _ _ _ unknown res fields1 email1 password1) by assumption.
    simpl. rewrite model_login_rejects; [reflexivity|].
    left. now apply query_login_unknown. }
  assert (H2 : login known res = (known, rejected, Done)).
  { unfold login.
    rewrite (controller_login_fields _ _ _ _ known res fields2 email2 password2) by assumption.
    simpl. rewrite model_login_rejects; [reflexivity|].
    right. exists row. split; assumption. }
  split; [exact H1|]. split; [exact H2|].
  split; [now rewrite H1, H2|].
  repeat split.
Qed.

Lemma login_failures_indistinguishable_witness :
  let unknown := Samples.credentials "nadie@empresa.com" "Secreta123" in
  let known := Samples.credentials "ana@empresa.com" "Equivocada9" in
  let login :=
    authController.login Samples.Auth Samples.createAccessToken
      Samples.createRefreshToken Samples.NODE_ENV in
  authQueries.login Samples.users "nadie@empresa.com" = []
  /\ Samples.bcrypt_compare "Equivocada9" "hash-of-Secreta123" = false
  /\ snd (fst (login unknown res0)) = snd (fst (login known res0))
  /\ statusCode (snd (fst (login unknown res0))) = 401.
Proof.
  intros unknown known login.
  split; [reflexivity|]. split; [reflexivity|].
  assert (Hunknown : forall r, In r Samples.users -> authQueries.email r <> "nadie@empresa.com").
  { intros r [<- | []]. discriminate. }
  destruct (login_failures_indistinguishable
              Samples.users Samples.bcrypt_compare Samples.createAccessToken
              Samples.createRefreshToken Samples.NODE_ENV unknown known res0
              {[ "email" := "nadie@empresa.com"; "password" := "Secreta123" ]}
              {[ "email" := "ana@empresa.com"; "password" := "Equivocada9" ]}
              "nadie@empresa.com" "Secreta123" "ana@empresa.com" "Equivocada9"
              (authQueries.mkUserRow 7 "hr" "ana@empresa.com" "hash-of-Secreta123")
              eq_refl ltac:(vm_compute; reflexivity) ltac:(vm_compute; reflexivity)
              ltac:(discriminate) ltac:(discriminate)
              eq_refl ltac:(vm_compute; reflexivity) ltac:(vm_compute; reflexivity)
              ltac:(discriminate) ltac:(discriminate)
              Hunknown eq_refl eq_refl)
    as (H1 & _ & Hsame & _).
  split; [exact Hsame|].
  unfold login, Samples.Auth. rewrite H1. reflexivity.
Defined.

(** On a body with string values the handler over any JSON body is the
    handler above, with [bcrypt.compare] resolving as on strings. *)
Lemma untyped_login_on_strings users bcrypt_compare prepareValue
      createAccessToken createRefreshToken NODE_ENV (req : Req) (res : Res) :
  Untyped.login users (Untyped.compare bcrypt_compare) prepareValue
    createAccessToken createRefreshToken NODE_ENV
    (Untyped.of_strings <$> body req) req res
  = authController.login (authModel.exports users bcrypt_compare)
      createAccessToken createRefreshToken NODE_ENV req res.
Proof.
  unfold Untyped.login, authController.login, Untyped.of_strings.
  destruct (body req) as [fields|]; [|reflexivity].
  cbn [fmap option_fmap option_map]. rewrite !lookup_fmap.
  destruct (fields !! "email") as [mail|]; [|reflexivity].
  destruct (fields !! "password") as [pass|];
    [|cbn; destruct (negb (negb (String.eqb mail ""))); reflexivity].
  cbn [fmap option_fmap option_map Untyped.truthy JS.truthy default].
  destruct (negb (negb (String.eqb mail "")) || negb (negb (String.eqb pass "")));
    [reflexivity|].
  unfold Untyped.model_login, Untyped.query_login, Untyped.compare. unfold id.
  cbn [authModel.exp_login authModel.exports]. unfold authModel.login.
  destruct (authQueries.login users mail) as [|row rest]; [reflexivity|].
  destruct (negb (bcrypt_compare pass (authQueries.password row))); reflexivity.
Qed.

Lemma query_login_known (users : list authQueries.UserRow) (mail : string) row :
  In row users -> authQueries.email row = mail ->
  exists first rest, authQueries.login users mail = first :: rest.
Proof.
  intros Hin He.
  assert (Hf : In row (authQueries.login users mail)).
  { unfold authQueries.login. apply filter_In. split; [exact Hin|].
    now apply String.eqb_eq. }
  destruct (authQueries.login users mail) as [|first rest]; [destruct Hf|].
  now exists first, rest.
Qed.

(** When [bcrypt.compare] rejects the submitted password instead of
    resolving, the attempt with a known email is answered 500 and the attempt
    with an unknown email 401: the comparison is reached only once a row is
    found. *)
Lemma login_rejected_comparison users bcrypt_compare prepareValue
      createAccessToken createRefreshToken NODE_ENV (req : Req) (res : Res)
      (known unknown : string) (password : Untyped.value)
      (row : authQueries.UserRow) (error : Error) :
  known <> "" -> unknown <> "" ->
  Untyped.truthy (Some password) = true ->
  In row users -> authQueries.email row = known ->
  (forall r, In r users -> authQueries.email r <> unknown) ->
  (forall hash, bcrypt_compare (Some password) hash = Throw error) ->
  let login :=
    Untyped.login users bcrypt_compare prepareValue createAccessToken
      createRefreshToken NODE_ENV in
  login (Untyped.attempt known password) req res
    = (req, send_json (authController.login_error NODE_ENV error) (status 500 res), Done)
  /\ login (Untyped.attempt unknown password) req res
     = (req, send_json (authController.failure "Credenciales inválidas") (status 401 res),
        Done).
Proof.
  intros Hk Hu Hp Hin He Hunknown Hthrow login.
  apply String.eqb_neq in Hk, Hu.
  assert (Hfields : forall mail,
             ({[ "email" := Untyped.Str mail; "password" := password ]}
                : gmap string Untyped.value) !! "email" = Some (Untyped.Str mail)
             /\ ({[ "email" := Untyped.Str mail; "password" := password ]}
                   : gmap string Untyped.value) !! "password" = Some password).
  { intros mail. split; vm_compute; reflexivity. }
  unfold login, Untyped.login, Untyped.attempt. split.
  - destruct (Hfields known) as [-> ->]. rewrite Hp.
    cbn [Untyped.truthy]. rewrite Hk. cbn [negb orb].
    unfold Untyped.model_login, Untyped.query_login.
    destruct (query_login_known users known row Hin He) as (first & rest & ->).
    now rewrite Hthrow.
  - destruct (Hfields unknown) as [-> ->]. rewrite Hp.
    cbn [Untyped.truthy]. rewrite Hu. cbn [negb orb].
    unfold Untyped.model_login, Untyped.query_login.
    now rewrite (query_login_unknown users unknown Hunknown).
Qed.

(** C4.  Two failing attempts with the same password, posted as an array
    holding one string, which is truthy and no string: for an email no row
    has, the answer is 401 with the message of invalid credentials; for the
    email of a stored account [bcrypt.compare] rejects, and the answer is 500
    with the message of an internal error.  The two answers differ, so the
    caller learns which emails have an account. *)
Theorem login_failure_reveals_known_email :
  forall prepareValue (req : Req) (res : Res),
    let login :=
      Untyped.login Samples.users (Untyped.compare Samples.bcrypt_compare) prepareValue
        Samples.createAccessToken Samples.createRefreshToken Samples.NODE_ENV in
    let unknown :=
      snd (fst (login (Untyped.attempt "nadie@empresa.com" Untyped.wrapped_password) req res)) in
    let known :=
      snd (fst (login (Untyped.attempt "ana@empresa.com" Untyped.wrapped_password) req res)) in
    authQueries.login Samples.users "nadie@empresa.com" = []
    /\ authQueries.login Samples.users "ana@empresa.com" <> []
    /\ statusCode unknown = 401
    /\ message_of unknown = Some (JStr "Credenciales inválidas")
    /\ statusCode known = 500
    /\ message_of known = Some (JStr "Error interno del servidor")
    /\ cookieOps known = cookieOps res /\ cookieOps unknown = cookieOps res
    /\ unknown <> known.
Proof.
  intros prepareValue req res login unknown known.
  assert (Hrow : In (authQueries.mkUserRow 7 "hr" "ana@empresa.com" "hash-of-Secreta123")
                   Samples.users) by (left; reflexivity).
  assert (Hunknown : forall r, In r Samples.users ->
                               authQueries.email r <> "nadie@empresa.com").
  { intros r [<- | []]. discriminate. }
  destruct (login_rejected_comparison Samples.users
              (Untyped.compare Samples.bcrypt_compare) prepareValue
              Samples.createAccessToken Samples.createRefreshToken Samples.NODE_ENV
              req res "ana@empresa.com" "nadie@empresa.com" Untyped.wrapped_password
              _ (mkError "Error" "data and hash must be strings")
              ltac:(discriminate) ltac:(discriminate) eq_refl Hrow eq_refl Hunknown
              ltac:(reflexivity)) as [Hknown Hunk].
  unfold known, unknown, login. rewrite Hknown, Hunk.
  split; [reflexivity|]. split; [discriminate|].
  repeat (split; [reflexivity|]).
  cbn [fst snd]. intros Heq. apply (f_equal statusCode) in Heq. discriminate Heq.
Qed.




(** ** Logout *)

Lemma cookie_after_cleared (n : string) (o : CookieOptions) (ops : list CookieOp)
      (before : option string) :
  cookie_after n before (ops ++ [ClearCookie n o]) = None.
Proof.
  revert before. induction ops as [|op ops IH]; intros before; simpl.
  - now rewrite String.eqb_refl.
  - destruct op; apply IH.
Qed.

Lemma authenticate_done verifyAccessToken NODE_ENV (req req' : Req) (res res' : Res) :
  authMiddleware.authenticate verifyAccessToken NODE_ENV req res = (req', res', Done) ->
  req' = req /\ statusCode res' = 401 /\ cookieOps res' = cookieOps res
  /\ resHeaders res' = resHeaders res.
Proof.
  unfold authMiddleware.authenticate.
  destruct (authMiddleware.locateToken req) as [t src].
  destruct (negb (truthy t)); [intros [= <- <-]; auto|].
  destruct (verifyAccessToken (default "" t)) as [decoded|error].
  - destruct (negb (truthy_num _)); [intros [= <- <-]; auto | discriminate].
  - destruct (String.eqb _ _); [discriminate | intros [= <- <-]; auto].
Qed.

(** C9, as the code has it.  The [logout] handler clears the
    [refresh_token] cookie with the attributes it was issued with
    ([httpOnly], [secure] in production, [sameSite] strict, path [/api]) and
    answers success, whatever the request carries.  On the route it runs
    behind [authenticate]: it is reached when the authenticator calls
    [next()], that is with a valid or an expired access token, and the
    client is then left without the cookie; a request the authenticator
    rejects is answered 401 and no cookie is cleared. *)
Theorem logout_clears_cookie_behind_authenticate :
  forall verifyAccessToken NODE_ENV (req : Req) (res : Res),
    let success :=
      object [("success", Some (JBool true));
              ("message", Some (JStr "Sesión cerrada exitosamente."))] in
    let cleared res :=
      send_json success
        (clearCookie "refresh_token" (authController.clear_options NODE_ENV) res) in
    authController.logout NODE_ENV req res = (req, cleared res, Done)
    /\ statusCode (cleared res) = statusCode res
    /\ Reading.same_attributes (authController.clear_options NODE_ENV)
         (authController.issue_options NODE_ENV)
    /\ (forall before,
          cookie_after "refresh_token" before (cookieOps (cleared res)) = None)
    /\ (forall req' res',
          authMiddleware.authenticate verifyAccessToken NODE_ENV req res
            = (req', res', Next) ->
          run (authRoutes.logout verifyAccessToken NODE_ENV) req res
          = (req', cleared res, Done))
    /\ (forall req' res',
          authMiddleware.authenticate verifyAccessToken NODE_ENV req res
            = (req', res', Done) ->
          run (authRoutes.logout verifyAccessToken NODE_ENV) req res = (req, res', Done)
          /\ statusCode res' = 401
          /\ cookieOps res' = cookieOps res).
Proof.
  intros verifyAccessToken NODE_ENV req res success cleared.
  split; [reflexivity|]. split; [reflexivity|].
  split; [repeat split|].
  split; [intros before; apply cookie_after_cleared|].
  split.
  - intros req' res' Hnext. unfold authRoutes.logout. simpl. rewrite Hnext.
    apply authenticate_next_token in Hnext as (_ & _ & ->). reflexivity.
  - intros req' res' Hdone. unfold authRoutes.logout. simpl. rewrite Hdone.
    apply authenticate_done in Hdone as (-> & Hs & Hc & _). auto.
Qed.

Lemma logout_clears_cookie_behind_authenticate_witness :
  let expired := Samples.renewal_request Samples.valid_refresh in
  (fst (fst (authMiddleware.authenticate Samples.verifyAccessToken Samples.NODE_ENV
               expired res0)) = Samples.expired_request Samples.valid_refresh
   /\ cookieOps (snd (fst (run (authRoutes.logout Samples.verifyAccessToken
                                  Samples.NODE_ENV) expired res0)))
      = [ClearCookie "refresh_token"
           (mkCookieOptions true true (Some "strict") None (Some "/api"))])
  /\ (snd (authMiddleware.authenticate Samples.verifyAccessToken Samples.NODE_ENV
             Samples.anonymous_request res0) = Done
      /\ statusCode (snd (fst (run (authRoutes.logout Samples.verifyAccessToken
                                      Samples.NODE_ENV)
                                 Samples.anonymous_request res0))) = 401).
Proof.
  intros expired.
  assert (Hnext : authMiddleware.authenticate Samples.verifyAccessToken Samples.NODE_ENV
                    expired res0
                  = (Samples.expired_request Samples.valid_refresh, res0, Next))
    by (vm_compute; reflexivity).
  assert (Hdone : authMiddleware.authenticate Samples.verifyAccessToken Samples.NODE_ENV
                    Samples.anonymous_request res0
                  = (Samples.anonymous_request,
                     send_json authMiddleware.TOKEN_REQUIRED (status 401 res0), Done))
    by (vm_compute; reflexivity).
  split.
  - split; [now rewrite Hnext|].
    destruct (logout_clears_cookie_behind_authenticate Samples.verifyAccessToken
                Samples.NODE_ENV expired res0) as (_ & _ & _ & _ & H & _).
    rewrite (H _ _ Hnext). reflexivity.
  - split; [now rewrite Hdone|].
    destruct (logout_clears_cookie_behind_authenticate Samples.verifyAccessToken
                Samples.NODE_ENV Samples.anonymous_request res0)
      as (_ & _ & _ & _ & _ & H).
    destruct (H _ _ Hdone) as (Hrun & _). rewrite Hrun. reflexivity.
Defined.

(** C9 as stated fails: a logout request that carries the refresh cookie
    but no access token is stopped by [authenticate] with 401
    [TOKEN_REQUIRED]; [logout] does not run, nothing is cleared and the client
    still holds its refresh cookie. *)
Lemma logout_without_token_is_rejected :
  let req := Samples.request None {[ "refresh_token" := Samples.valid_refresh ]} in
  let res' := snd (fst (run (authRoutes.logout Samples.verifyAccessToken Samples.NODE_ENV)
                          req res0)) in
  statusCode res' = 401
  /\ code_of res' = Some (JStr "TOKEN_REQUIRED")
  /\ cookieOps res' = []
  /\ cookie_after "refresh_token" (cookie_of req "refresh_token") (cookieOps res')
     = Some Samples.valid_refresh.
Proof. vm_compute. repeat split. Qed.

(** ** Transparent renewal *)

Lemma refreshMiddleware_renews verifyRefreshToken createAccessToken
      (req : Req) (res : Res) (tok : string) (refreshData : Claims) :
  tokenExpired req = Some true ->
  cookie_of req "refresh_token" = Some tok ->
  tok <> "" ->
  verifyRefreshToken tok = Return refreshData ->
  checkRefreshCookie.refreshMiddleware verifyRefreshToken createAccessToken req res
  = (mkReq (headers req) (query req) (cookies req) (body req)
       (Some (mkUser (c_id_user refreshData) (c_email refreshData)
                (or_str (c_role refreshData) "user") None None None))
       (Some (createAccessToken (checkRefreshCookie.renewed_claims refreshData)))
       (Some false),
     set_header "X-New-Access-Token"
       (createAccessToken (checkRefreshCookie.renewed_claims refreshData)) res,
     Next).
Proof.
  intros Hexp Hck Hne Hv. unfold checkRefreshCookie.refreshMiddleware.
  rewrite Hexp, Hck. simpl. apply String.eqb_neq in Hne. rewrite Hne. simpl.
  now rewrite Hv.
Qed.

Lemma refreshMiddleware_idle verifyRefreshToken createAccessToken (req : Req) (res : Res) :
  tokenExpired req <> Some true ->
  checkRefreshCookie.refreshMiddleware verifyRefreshToken createAccessToken req res
  = (req, res, Next).
Proof.
  intros H. unfold checkRefreshCookie.refreshMiddleware.
  rewrite bool_decide_eq_false_2 by exact H. reflexivity.
Qed.

(** C1, as the code has it.  On a protected request whose access token has
    expired and whose [refresh_token] cookie verifies, the interceptor signs
    a new access token over the refresh token's [id_user], [email] and role
    (['user'] when there is none), attaches that identity and the new token
    to the request, clears [tokenExpired], adds the new token to the response
    as [X-New-Access-Token] and lets the handlers behind it run.  It writes
    no cookie: the client's refresh cookie is the one it sent. *)
Theorem renewal_mints_access_token_only :
  forall verifyAccessToken verifyRefreshToken createAccessToken NODE_ENV
         (req : Req) (res : Res) (tok src rtok : string) (error : Error)
         (refreshData : Claims) (handlers : list Handler),
    authMiddleware.locateToken req = (Some tok, src) ->
    tok <> "" ->
    verifyAccessToken tok = Throw error ->
    err_message error = "ACCESS_TOKEN_EXPIRED" ->
    cookie_of req "refresh_token" = Some rtok ->
    rtok <> "" ->
    verifyRefreshToken rtok = Return refreshData ->
    let newAccessToken :=
      createAccessToken
        (mkClaims None (c_id_user refreshData) (c_email refreshData)
           (Some (or_str (c_role refreshData) "user")) None None None) in
    let renewed :=
      mkReq (headers req) (query req) (cookies req) (body req)
        (Some (mkUser (c_id_user refreshData) (c_email refreshData)
                 (or_str (c_role refreshData) "user") None None None))
        (Some newAccessToken) (Some false) in
    let res' := set_header "X-New-Access-Token" newAccessToken res in
    run [authMiddleware.authenticate verifyAccessToken NODE_ENV;
         checkRefreshCookie.refreshMiddleware verifyRefreshToken createAccessToken]
        req res
      = (renewed, res', Next)
    /\ run (authRoutes.protected createAccessToken verifyAccessToken verifyRefreshToken
              NODE_ENV handlers) req res
       = run handlers renewed res'
    /\ resHeaders res' = (resHeaders res ++ [("X-New-Access-Token", newAccessToken)])%list
    /\ cookieOps res' = cookieOps res
    /\ (forall before,
          cookie_after "refresh_token" before (cookieOps res')
          = cookie_after "refresh_token" before (cookieOps res)).
Proof.
  intros verifyAccessToken verifyRefreshToken createAccessToken NODE_ENV
    req res tok src rtok error refreshData handlers
    Hloc Hne Hthrow Hmsg Hck Hrne Hv newAccessToken renewed res'.
  pose proof (authenticate_throw verifyAccessToken NODE_ENV req res tok src error
                Hloc Hne Hthrow) as Hauth.
  rewrite Hmsg in Hauth. simpl in Hauth.
  pose proof (refreshMiddleware_renews verifyRefreshToken createAccessToken
                (mkReq (headers req) (query req) (cookies req) (body req)
                   None (Some tok) (Some true))
                res rtok refreshData eq_refl Hck Hrne Hv) as Hrenew.
  simpl in Hrenew.
  repeat split.
  - simpl. rewrite Hauth, Hrenew. reflexivity.
  - unfold authRoutes.protected. simpl. rewrite Hauth, Hrenew. reflexivity.
Qed.

Lemma renewal_mints_access_token_only_witness :
  let req := Samples.renewal_request Samples.valid_refresh in
  let res' :=
    snd (fst (run (authRoutes.protected Samples.createAccessToken
                     Samples.verifyAccessToken Samples.verifyRefreshToken
                     Samples.NODE_ENV [Samples.business]) req res0)) in
  authMiddleware.locateToken req = (Some Samples.expired_access, "header")
  /\ Samples.verifyAccessToken Samples.expired_access
     = Throw (mkError "Error" "ACCESS_TOKEN_EXPIRED")
  /\ cookie_of req "refresh_token" = Some Samples.valid_refresh
  /\ Samples.verifyRefreshToken Samples.valid_refresh = Return Samples.hr_refresh_claims
  /\ sent res' = Some (JObj [("ok", JBool true)])
  /\ resHeaders res' = [("X-New-Access-Token", "noid.a-noid")]
  /\ cookieOps res' = [].
Proof.
  intros req res'.
  assert (Hloc : authMiddleware.locateToken req = (Some Samples.expired_access, "header"))
    by (vm_compute; reflexivity).
  assert (Hv : Samples.verifyAccessToken Samples.expired_access
               = Throw (mkError "Error" "ACCESS_TOKEN_EXPIRED")) by (vm_compute; reflexivity).
  assert (Hck : cookie_of req "refresh_token" = Some Samples.valid_refresh)
    by (vm_compute; reflexivity).
  assert (Hr : Samples.verifyRefreshToken Samples.valid_refresh
               = Return Samples.hr_refresh_claims) by (vm_compute; reflexivity).
  split; [exact Hloc|]. split; [exact Hv|]. split; [exact Hck|]. split; [exact Hr|].
  destruct (renewal_mints_access_token_only
              Samples.verifyAccessToken Samples.verifyRefreshToken
              Samples.createAccessToken Samples.NODE_ENV req res0
              Samples.expired_access "header" Samples.valid_refresh
              (mkError "Error" "ACCESS_TOKEN_EXPIRED") Samples.hr_refresh_claims
              [Samples.business]
              Hloc ltac:(discriminate) Hv eq_refl Hck ltac:(discriminate) Hr)
    as (_ & Hrun & _).
  unfold res'. rewrite Hrun. vm_compute. repeat split.
Defined.

(** C1 as stated fails: after a successful renewal by the interceptor the
    response carries the new access token in [X-New-Access-Token] but sets no
    cookie, so the client's refresh cookie is still the value it sent; no
    refresh token was minted. *)
Lemma renewal_leaves_refresh_cookie :
  let req := Samples.renewal_request Samples.valid_refresh in
  let res' :=
    snd (fst (run (authRoutes.protected Samples.createAccessToken
                     Samples.verifyAccessToken Samples.verifyRefreshToken
                     Samples.NODE_ENV [Samples.business]) req res0)) in
  statusCode res' = 200
  /\ sent res' = Some (JObj [("ok", JBool true)])
  /\ Reading.access_token_of res' = Some "noid.a-noid"
  /\ cookieOps res' = []
  /\ cookie_after "refresh_token" (cookie_of req "refresh_token") (cookieOps res')
     = cookie_of req "refresh_token"
  /\ cookie_of req "refresh_token" = Some Samples.valid_refresh.
Proof. vm_compute. repeat split. Qed.

(** ** Rejections of a renewal and the refresh cookie *)

(** The interceptor: without a refresh cookie it answers [SESSION_EXPIRED]
    and clears nothing; with one that does not verify it clears the cookie
    and answers [INVALID_SESSION], whatever the failure. *)
Lemma refreshMiddleware_rejections verifyRefreshToken createAccessToken
      (req : Req) (res : Res) :
  tokenExpired req = Some true ->
  (truthy (cookie_of req "refresh_token") = false ->
     checkRefreshCookie.refreshMiddleware verifyRefreshToken createAccessToken req res
     = (req, send_json checkRefreshCookie.SESSION_EXPIRED (status 401 res), Done))
  /\ (forall tok error,
        cookie_of req "refresh_token" = Some tok -> tok <> "" ->
        verifyRefreshToken tok = Throw error ->
        checkRefreshCookie.refreshMiddleware verifyRefreshToken createAccessToken req res
        = (req,
           send_json checkRefreshCookie.INVALID_SESSION
             (status 401 (clearCookie "refresh_token" no_options res)),
           Done)).
Proof.
  intros Hexp. unfold checkRefreshCookie.refreshMiddleware. rewrite Hexp. simpl. split.
  - intros ->. reflexivity.
  - intros tok error -> Hne Hv. simpl. apply String.eqb_neq in Hne.
    rewrite Hne. simpl. now rewrite Hv.
Qed.

(** X11.  The refresh endpoint: the expired-token and the user-not-found
    rejections clear the cookie; the rejection of a token that fails
    verification for another reason does not. *)
Lemma refreshToken_rejections Auth createAccessToken createRefreshToken
      verifyRefreshToken NODE_ENV (req : Req) (res : Res)
      (jar : gmap string string) (tok : string) :
  cookies req = Some jar ->
  jar !! "refresh_token" = Some tok ->
  tok <> "" ->
  let refreshToken :=
    authController.refreshToken Auth createAccessToken createRefreshToken
      verifyRefreshToken NODE_ENV in
  let cleared :=
    clearCookie "refresh_token" (authController.clear_options NODE_ENV) res in
  (forall error,
     verifyRefreshToken tok = Throw error ->
     (err_message error = "REFRESH_TOKEN_EXPIRED" \/ err_message error = "Token expirado") ->
     refreshToken req res
     = (req,
        send_json
          (authController.failure_code
             "Sesión expirada. Por favor inicie sesión nuevamente." "SESSION_EXPIRED")
          (status 401 cleared),
        Done))
  /\ (forall error,
        verifyRefreshToken tok = Throw error ->
        err_message error <> "REFRESH_TOKEN_EXPIRED" ->
        err_message error <> "Token expirado" ->
        refreshToken req res
        = (req,
           send_json
             (authController.failure_code "Refresh token inválido" "INVALID_REFRESH_TOKEN")
             (status 401 res),
           Done))
  /\ (forall decoded getUserById,
        verifyRefreshToken tok = Return decoded ->
        authModel.exp_getUserById Auth = Some getUserById ->
        getUserById (c_user_id decoded) = [] ->
        refreshToken req res
        = (req,
           send_json (authController.failure_code "Usuario no encontrado" "USER_NOT_FOUND")
             (status 401 cleared),
           Done))
  /\ (forall decoded,
        verifyRefreshToken tok = Return decoded ->
        authModel.exp_getUserById Auth = None ->
        refreshToken req res
        = (req, send_json authController.refresh_error (status 500 res), Done)).
Proof.
  intros Hjar Htok Hne refreshToken cleared.
  unfold refreshToken, authController.refreshToken. rewrite Hjar, Htok. simpl.
  apply String.eqb_neq in Hne. rewrite Hne. simpl.
  split; [|split; [|split]].
  - intros error -> [Hm | Hm]; rewrite Hm; reflexivity.
  - intros error -> H1 H2. apply String.eqb_neq in H1, H2. now rewrite H1, H2.
  - intros decoded getUserById -> -> ->. reflexivity.
  - intros decoded -> ->. reflexivity.
Qed.

(** C6 at its failing input.  [POST /refresh] with a forged refresh cookie:
    verification fails with a failure other than expiry, the endpoint answers
    401 [INVALID_REFRESH_TOKEN], clears nothing and the client keeps the
    forged cookie.  The sibling paths clear it: the same endpoint on an
    expired token, and the interceptor on the same forged token. *)
Theorem refresh_endpoint_keeps_invalid_cookie :
  let endpoint :=
    run (authRoutes.refresh Samples.Auth Samples.createAccessToken
           Samples.createRefreshToken Samples.verifyRefreshToken Samples.NODE_ENV) in
  let interceptor :=
    checkRefreshCookie.refreshMiddleware Samples.verifyRefreshToken
      Samples.createAccessToken in
  let forged := Samples.request None {[ "refresh_token" := Samples.forged_refresh ]} in
  let expired := Samples.request None {[ "refresh_token" := Samples.expired_refresh ]} in
  Samples.verifyRefreshToken Samples.forged_refresh
    = Throw (mkError "Error" "REFRESH_TOKEN_TAMPERED")
  /\ statusCode (snd (fst (endpoint forged res0))) = 401
  /\ code_of (snd (fst (endpoint forged res0))) = Some (JStr "INVALID_REFRESH_TOKEN")
  /\ cookieOps (snd (fst (endpoint forged res0))) = []
  /\ cookie_after "refresh_token" (Some Samples.forged_refresh)
       (cookieOps (snd (fst (endpoint forged res0))))
     = Some Samples.forged_refresh
  /\ code_of (snd (fst (endpoint expired res0))) = Some (JStr "SESSION_EXPIRED")
  /\ cookieOps (snd (fst (endpoint expired res0)))
     = [ClearCookie "refresh_token" (authController.clear_options Samples.NODE_ENV)]
  /\ code_of (snd (fst (interceptor (Samples.expired_request Samples.forged_refresh) res0)))
     = Some (JStr "INVALID_SESSION")
  /\ cookieOps (snd (fst (interceptor (Samples.expired_request Samples.forged_refresh) res0)))
     = [ClearCookie "refresh_token" no_options].
Proof. vm_compute. repeat split. Qed.

(** ** Minting and the credential store *)

(** [login] and the refresh endpoint sign an access token only over a row
    the store has just returned. *)
Lemma login_mints_from_store users bcrypt_compare createAccessToken createRefreshToken
      NODE_ENV (req : Req) (res : Res) (t : string) :
  sent (snd (fst (authController.login (authModel.exports users bcrypt_compare)
                    createAccessToken createRefreshToken NODE_ENV req res)))
    ≫= prop "accessToken" = Some (JStr t) ->
  exists row,
    In row users
    /\ t = createAccessToken
             (authController.access_claims (authModel.userWithoutPassword row)).
Proof.
  unfold authController.login.
  destruct (body req) as [fields|]; simpl.
  - destruct (negb (truthy (fields !! "email")) || negb (truthy (fields !! "password")));
      [simpl; discriminate|].
    simpl. unfold authModel.login.
    destruct (authQueries.login users (default "" (fields !! "email")))
      as [|row rest] eqn:Hq; [simpl; discriminate|].
    destruct (negb (bcrypt_compare _ _)); [simpl; discriminate|].
    simpl. intros [= <-]. exists row. split; [|reflexivity].
    apply (query_login_head users (default "" (fields !! "email")) row).
    now rewrite Hq.
  - destruct (bool_decide _); simpl; discriminate.
Qed.

Lemma refreshToken_mints_from_lookup Auth createAccessToken createRefreshToken
      verifyRefreshToken NODE_ENV (req : Req) (res : Res) (t : string) :
  sent (snd (fst (authController.refreshToken Auth createAccessToken createRefreshToken
                    verifyRefreshToken NODE_ENV req res)))
    ≫= prop "accessToken" = Some (JStr t) ->
  exists getUserById tok decoded user rest,
    authModel.exp_getUserById Auth = Some getUserById
    /\ verifyRefreshToken tok = Return decoded
    /\ getUserById (c_user_id decoded) = user :: rest
    /\ t = createAccessToken (authController.access_claims user).
Proof.
  unfold authController.refreshToken.
  destruct (cookies req) as [jar|]; [|simpl; discriminate].
  destruct (negb (truthy (jar !! "refresh_token"))); [simpl; discriminate|].
  destruct (verifyRefreshToken (default "" (jar !! "refresh_token")))
    as [decoded|error] eqn:Hv.
  - destruct (authModel.exp_getUserById Auth) as [getUserById|]; [|simpl; discriminate].
    destruct (getUserById (c_user_id decoded)) as [|user rest] eqn:Hg; [simpl; discriminate|].
    simpl. intros [= <-].
    now exists getUserById, (default "" (jar !! "refresh_token")), decoded, user, rest.
  - destruct (_ || _); simpl; discriminate.
Qed.

(** C7 at its failing input.  Account 7 has been deleted: the store is
    empty, neither query finds it.  A protected request with an expired
    access token and the account's refresh token, still within its seven
    days, is renewed by the interceptor: a new access token is minted, the
    identity with role [hr] is attached and the business handler runs.  With
    the same cookie the refresh endpoint, given the lookup it calls, answers
    [USER_NOT_FOUND] and mints nothing; with the model as exported it
    answers 500. *)
Theorem interceptor_mints_for_deleted_account :
  let store : list authQueries.UserRow := [] in
  let protected :=
    run (authRoutes.protected Samples.createAccessToken Samples.verifyAccessToken
           Samples.verifyRefreshToken Samples.NODE_ENV [Samples.business]) in
  let endpoint Auth :=
    authController.refreshToken Auth Samples.createAccessToken
      Samples.createRefreshToken Samples.verifyRefreshToken Samples.NODE_ENV in
  let req := Samples.renewal_request Samples.valid_refresh in
  authQueries.getUserById store (Some 7) = []
  /\ authQueries.login store "ana@empresa.com" = []
  /\ Samples.verifyRefreshToken Samples.valid_refresh = Return Samples.hr_refresh_claims
  /\ c_user_id Samples.hr_refresh_claims = Some 7
  /\ statusCode (snd (fst (protected req res0))) = 200
  /\ sent (snd (fst (protected req res0))) = Some (JObj [("ok", JBool true)])
  /\ Reading.access_token_of (snd (fst (protected req res0))) = Some "noid.a-noid"
  /\ role <$> user (fst (fst (protected req res0))) = Some "hr"
  /\ code_of (snd (fst (endpoint (Samples.AuthWithLookup store) req res0)))
     = Some (JStr "USER_NOT_FOUND")
  /\ Reading.access_token_of (snd (fst (endpoint (Samples.AuthWithLookup store) req res0)))
     = None
  /\ statusCode
       (snd (fst (endpoint (authModel.exports store Samples.bcrypt_compare) req res0)))
     = 500.
Proof. vm_compute. repeat split. Qed.

(** * Further properties of the middlewares *)

(** X1.  Whatever the request and the verifier, [authenticate] ends in one
    of two ways.  Either it answers: the status is 401, a body is sent, the
    request is left as it was and no header or cookie is written.  Or it
    calls [next()]: the response is untouched, only [user], [token] and
    [tokenExpired] of the request change, the token is the one it located,
    and the context is either an identity with a user id and
    [tokenExpired = false], or no identity and [tokenExpired = true]. *)
Theorem authenticate_outcome_invariant :
  forall verifyAccessToken NODE_ENV (req : Req) (res : Res),
    match authMiddleware.authenticate verifyAccessToken NODE_ENV req res with
    | (req', res', Done) =>
        req' = req /\ statusCode res' = 401 /\ is_Some (sent res')
        /\ cookieOps res' = cookieOps res /\ resHeaders res' = resHeaders res
    | (req', res', Next) =>
        res' = res
        /\ headers req' = headers req /\ query req' = query req
        /\ cookies req' = cookies req /\ body req' = body req
        /\ token req' = fst (authMiddleware.locateToken req)
        /\ truthy (token req') = true
        /\ ((exists u, user req' = Some u /\ truthy_num (id_user u) = true
                       /\ tokenExpired req' = Some false)
            \/ (user req' = None /\ tokenExpired req' = Some true))
    end.
Proof.
  intros verifyAccessToken NODE_ENV req res. unfold authMiddleware.authenticate.
  destruct (authMiddleware.locateToken req) as [t src]. simpl.
  destruct (truthy t) eqn:Ht; simpl.
  - destruct (verifyAccessToken (default "" t)) as [decoded|error].
    + destruct (truthy_num (or_num (c_user_id decoded) (c_id_user decoded))) eqn:Hid; simpl.
      * repeat split; try assumption. left. eexists. repeat split. exact Hid.
      * repeat split. now eexists.
    + destruct (String.eqb (err_message error) "ACCESS_TOKEN_EXPIRED"); simpl.
      * repeat split; try assumption. now right.
      * repeat split. now eexists.
  - repeat split. now eexists.
Qed.

Lemma authenticate_return verifyAccessToken NODE_ENV req res tok src decoded :
  authMiddleware.locateToken req = (Some tok, src) ->
  tok <> "" ->
  verifyAccessToken tok = Return decoded ->
  authMiddleware.authenticate verifyAccessToken NODE_ENV req res =
    if truthy_num (or_num (c_user_id decoded) (c_id_user decoded))
    then (mkReq (headers req) (query req) (cookies req) (body req)
            (Some (mkUser (or_num (c_user_id decoded) (c_id_user decoded))
                     (c_email decoded)
                     (or_str (c_role decoded) "user")
                     (Some (or_str (c_name decoded) ""))
                     (Some (or_str (c_surname decoded) ""))
                     (Some (or_str (c_loginMethod decoded) "traditional"))))
            (Some tok) (Some false), res, Next)
    else (req, send_json authMiddleware.INVALID_TOKEN_FORMAT (status 401 res), Done).
Proof.
  intros Hloc Hne Hv. unfold authMiddleware.authenticate. rewrite Hloc. simpl.
  apply String.eqb_neq in Hne. rewrite Hne. simpl. rewrite Hv.
  destruct (truthy_num _); reflexivity.
Qed.

(** X2.  The user id of a verified token is [user_id] when that is set and
    not 0, else [id_user].  When neither is usable (absent, or the number 0)
    the token is answered 401 [INVALID_TOKEN_FORMAT] although it verified,
    and nothing is attached.  Otherwise the identity carries that id, the
    token's email, and the defaults [''] for name and surname and
    ['traditional'] for the login method when the token has none. *)
Theorem authenticate_user_id_required :
  forall verifyAccessToken NODE_ENV (req : Req) (res : Res) (tok src : string)
         (decoded : Claims),
    authMiddleware.locateToken req = (Some tok, src) ->
    tok <> "" ->
    verifyAccessToken tok = Return decoded ->
    (truthy_num (c_user_id decoded) = false ->
     truthy_num (c_id_user decoded) = false ->
       authMiddleware.authenticate verifyAccessToken NODE_ENV req res
       = (req, send_json authMiddleware.INVALID_TOKEN_FORMAT (status 401 res), Done)
       /\ code_of (send_json authMiddleware.INVALID_TOKEN_FORMAT (status 401 res))
          = Some (JStr "INVALID_TOKEN_FORMAT"))
    /\ (forall id,
          (truthy_num (c_user_id decoded) = true /\ id = c_user_id decoded)
          \/ (truthy_num (c_user_id decoded) = false
              /\ truthy_num (c_id_user decoded) = true /\ id = c_id_user decoded) ->
          exists req' u,
            authMiddleware.authenticate verifyAccessToken NODE_ENV req res
              = (req', res, Next)
            /\ user req' = Some u
            /\ id_user u = id
            /\ email u = c_email decoded
            /\ (c_name decoded = None -> name u = Some "")
            /\ (c_surname decoded = None -> surname u = Some "")
            /\ (c_loginMethod decoded = None -> loginMethod u = Some "traditional")).
Proof.
  intros verifyAccessToken NODE_ENV req res tok src decoded Hloc Hne Hv.
  pose proof (authenticate_return verifyAccessToken NODE_ENV req res tok src decoded
                Hloc Hne Hv) as Hauth.
  split.
  - intros H1 H2. unfold or_num in Hauth. rewrite H1, H2 in Hauth.
    split; [exact Hauth | reflexivity].
  - intros id Hid.
    assert (Hor : or_num (c_user_id decoded) (c_id_user decoded) = id
                  /\ truthy_num id = true).
    { unfold or_num. destruct Hid as [[H1 ->] | (H1 & H2 & ->)]; rewrite H1; auto. }
    destruct Hor as [Hor Htr]. rewrite Hor, Htr in Hauth.
    eexists. eexists. split; [exact Hauth|]. simpl.
    repeat split; intros ->; reflexivity.
Qed.

Lemma authenticate_user_id_required_witness :
  let zero_id := mkClaims (Some 0) None (Some "ana@empresa.com") (Some "hr") None None None in
  let legacy := mkClaims (Some 0) (Some 9) (Some "ana@empresa.com") (Some "hr") None None None in
  let req := Samples.request (Samples.bearer "t") ∅ in
  (statusCode (snd (fst (authMiddleware.authenticate (fun _ => Return zero_id)
                           Samples.NODE_ENV req res0))) = 401
   /\ user (fst (fst (authMiddleware.authenticate (fun _ => Return zero_id)
                        Samples.NODE_ENV req res0))) = None)
  /\ (id_user <$> user (fst (fst (authMiddleware.authenticate (fun _ => Return legacy)
                                    Samples.NODE_ENV req res0)))
      = Some (Some 9)).
Proof.
  intros zero_id legacy req.
  assert (Hloc : authMiddleware.locateToken req = (Some "t", "header"))
    by (vm_compute; reflexivity).
  split.
  - destruct (authenticate_user_id_required (fun _ => Return zero_id) Samples.NODE_ENV
                req res0 "t" "header" zero_id Hloc ltac:(discriminate) eq_refl)
      as [H _].
    destruct (H eq_refl eq_refl) as [Heq _]. rewrite Heq. split; reflexivity.
  - destruct (authenticate_user_id_required (fun _ => Return legacy) Samples.NODE_ENV
                req res0 "t" "header" legacy Hloc ltac:(discriminate) eq_refl)
      as [_ H].
    destruct (H (Some 9) ltac:(right; repeat split; reflexivity))
      as (req' & u & Heq & Hu & Hid & _).
    rewrite Heq. simpl. rewrite Hu. simpl. now rewrite Hid.
Defined.

(** ** The token in the [Authorization] header *)

Lemma split_no_sep (sep : ascii) (s : string) :
  ~ In sep (list_ascii_of_string s) -> split sep s = [s].
Proof.
  induction s as [|c s IH]; simpl; [reflexivity|].
  intros Hno. destruct (Ascii.eqb c sep) eqn:Hc.
  - apply Ascii.eqb_eq in Hc. exfalso. apply Hno. now left.
  - rewrite IH; [reflexivity|]. intros Hin. apply Hno. now right.
Qed.

Lemma split_at_sep (sep : ascii) (a b : string) :
  ~ In sep (list_ascii_of_string a) ->
  split sep (a +:+ String sep b) = a :: split sep b.
Proof.
  induction a as [|c a IH]; simpl.
  - intros _. now rewrite Ascii.eqb_refl.
  - intros Hno. destruct (Ascii.eqb c sep) eqn:Hc.
    + apply Ascii.eqb_eq in Hc. exfalso. apply Hno. now left.
    + rewrite IH; [reflexivity|]. intros Hin. apply Hno. now right.
Qed.

Lemma split_pieces_no_sep (sep : ascii) (s piece : string) :
  In piece (split sep s) -> ~ In sep (list_ascii_of_string piece).
Proof.
  revert piece. induction s as [|c s IH]; simpl; intros piece.
  - intros [<- | []]. simpl. tauto.
  - destruct (Ascii.eqb c sep) eqn:Hc.
    + intros [<- | Hin]; [simpl; tauto | now apply IH].
    + destruct (split sep s) as [|p ps] eqn:Hs.
      * intros [<- | []]. simpl. intros [-> | []]. now rewrite Ascii.eqb_refl in Hc.
      * intros [<- | Hin].
        -- simpl. intros [-> | Hin]; [now rewrite Ascii.eqb_refl in Hc|].
           apply (IH p); [now left | exact Hin].
        -- apply IH. now right.
Qed.

Lemma split_nonempty (sep : ascii) (s : string) : split sep s <> [].
Proof.
  destruct s as [|c s]; simpl; [discriminate|].
  destruct (Ascii.eqb c sep); [discriminate|].
  destruct (split sep s); discriminate.
Qed.

Lemma split_join (sep : ascii) (s : string) :
  join (String sep EmptyString) (split sep s) = s.
Proof.
  induction s as [|c s IH]; simpl; [reflexivity|].
  pose proof (split_nonempty sep s) as Hne.
  destruct (split sep s) as [|p ps]; [congruence|]. clear Hne.
  destruct (Ascii.eqb c sep) eqn:Hc.
  - apply Ascii.eqb_eq in Hc as ->.
    change (join (String sep "") ("" :: p :: ps))
      with ("" +:+ String sep "" +:+ join (String sep "") (p :: ps)).
    rewrite IH. reflexivity.
  - destruct ps as [|q qs].
    + simpl in *. now rewrite IH.
    + change (join (String sep "") (String c p :: q :: qs))
        with (String c p +:+ String sep "" +:+ join (String sep "") (q :: qs)).
      change (join (String sep "") (p :: q :: qs))
        with (p +:+ String sep "" +:+ join (String sep "") (q :: qs)) in IH.
      rewrite <- IH. reflexivity.
Qed.

Lemma append_empty_r (s : string) : s +:+ "" = s.
Proof.
  induction s as [|c s IH]; [reflexivity|].
  change (String c s +:+ "") with (String c (s +:+ "")). now rewrite IH.
Qed.

Lemma bearer_scheme (x : string) :
  truthy (Some ("Bearer " +:+ x)) && startsWith ("Bearer " +:+ x) "Bearer " = true.
Proof. destruct x; reflexivity. Qed.

Lemma bearer_pieces (x : string) :
  split " " ("Bearer " +:+ x) = "Bearer" :: split " " x.
Proof.
  change ("Bearer " +:+ x) with ("Bearer" +:+ String " " x).
  apply split_at_sep. simpl.
  intros H. repeat (destruct H as [H | H]; [discriminate|]). exact H.
Qed.

(** X3.  From a header [Bearer <t>], with [t] free of spaces, the
    authenticator takes exactly [t], also when more text follows after a
    further space; and whatever the header, a token taken from it contains no
    space. *)
Theorem header_token_between_spaces :
  forall (req : Req),
    (forall t rest,
       headers req !! "authorization" = Some ("Bearer " +:+ t +:+ rest) ->
       ~ In " "%char (list_ascii_of_string t) ->
       rest = "" \/ (exists r, rest = String " " r) ->
       authMiddleware.locateToken req = (Some t, "header"))
    /\ (forall tok,
          authMiddleware.locateToken req = (Some tok, "header") ->
          ~ In " "%char (list_ascii_of_string tok)).
Proof.
  intros req. split.
  - intros t rest Hh Hno Hrest. unfold authMiddleware.locateToken. rewrite Hh.
    cbn [default]. unfold id. rewrite bearer_scheme, bearer_pieces.
    assert (Hsplit : exists pieces, split " " (t +:+ rest) = t :: pieces).
    { destruct Hrest as [-> | [r ->]].
      - exists []. rewrite append_empty_r. now apply split_no_sep.
      - eexists. now apply split_at_sep. }
    destruct Hsplit as [pieces ->]. reflexivity.
  - intros tok. unfold authMiddleware.locateToken.
    destruct (truthy _ && startsWith _ _).
    + intros [= Hpiece]. apply (split_pieces_no_sep " " (default "" (headers req !! "authorization"))).
      apply list_elem_of_In. eapply list_elem_of_lookup_2. exact Hpiece.
    + repeat (destruct (truthy _); [discriminate|]). discriminate.
Qed.

Lemma header_token_between_spaces_witness :
  let req := Samples.request (Some "Bearer hr7.a-hr7 trailing words") ∅ in
  authMiddleware.locateToken req = (Some Samples.valid_access, "header")
  /\ ~ In " "%char (list_ascii_of_string Samples.valid_access).
Proof.
  intros req.
  destruct (header_token_between_spaces req) as [Htake Hnospace].
  assert (Hloc : authMiddleware.locateToken req = (Some Samples.valid_access, "header")).
  { apply (Htake Samples.valid_access " trailing words").
    - vm_compute. reflexivity.
    - vm_compute. intros H. repeat (destruct H as [H | H]; [discriminate|]). exact H.
    - right. now exists "trailing words". }
  split; [exact Hloc | exact (Hnospace _ Hloc)].
Defined.

(** ** Routes built from the middlewares *)

Lemma includes_In (xs : list string) (x : string) :
  includes xs x = true <-> In x xs.
Proof.
  unfold includes. rewrite existsb_exists. split.
  - intros (y & Hin & Heq). apply String.eqb_eq in Heq. now subst.
  - intros Hin. exists x. split; [exact Hin | apply String.eqb_refl].
Qed.

(** X4.  A role gate placed directly behind [authenticate], without the
    interceptor in between, answers a request whose access token has expired
    with 401 [NOT_AUTHENTICATED]: the expired token is neither renewed nor
    reported as invalid, and the handlers behind the gate do not run. *)
Theorem expired_token_meets_gate :
  forall verifyAccessToken NODE_ENV (req : Req) (res : Res) (tok src : string)
         (error : Error) (g : Reading.gate) (handlers : list Handler),
    authMiddleware.locateToken req = (Some tok, src) ->
    tok <> "" ->
    verifyAccessToken tok = Throw error ->
    err_message error = "ACCESS_TOKEN_EXPIRED" ->
    let expired :=
      mkReq (headers req) (query req) (cookies req) (body req)
        None (Some tok) (Some true) in
    let rejected := send_json authMiddleware.NOT_AUTHENTICATED (status 401 res) in
    run (authMiddleware.authenticate verifyAccessToken NODE_ENV
           :: Reading.handler_of g :: handlers) req res
      = (expired, rejected, Done)
    /\ run (authMiddleware.authenticate verifyAccessToken NODE_ENV
              :: authMiddleware.isAuthenticated :: handlers) req res
       = (expired, rejected, Done).
Proof.
  intros verifyAccessToken NODE_ENV req res tok src error g handlers
    Hloc Hne Hthrow Hmsg expired rejected.
  pose proof (authenticate_throw verifyAccessToken NODE_ENV req res tok src error
                Hloc Hne Hthrow) as Hauth.
  rewrite Hmsg in Hauth. simpl in Hauth.
  split; cbn [run]; rewrite Hauth; cbv beta iota.
  - fold expired.
    now rewrite (gate_unauthenticated g expired res (eq_refl : user expired = None)).
  - reflexivity.
Qed.

Lemma expired_token_meets_gate_witness :
  let req := Samples.renewal_request Samples.valid_refresh in
  code_of (snd (fst (run [authMiddleware.authenticate Samples.verifyAccessToken
                            Samples.NODE_ENV;
                          authMiddleware.requireHR; Samples.business] req res0)))
  = Some (JStr "NOT_AUTHENTICATED").
Proof.
  intros req.
  destruct (expired_token_meets_gate Samples.verifyAccessToken Samples.NODE_ENV req res0
              Samples.expired_access "header" (mkError "Error" "ACCESS_TOKEN_EXPIRED")
              Reading.HR [Samples.business]
              ltac:(vm_compute; reflexivity) ltac:(discriminate)
              ltac:(vm_compute; reflexivity) eq_refl) as [Hrun _].
  change authMiddleware.requireHR with (Reading.handler_of Reading.HR).
  rewrite Hrun. reflexivity.
Defined.

(** X5.  [hasAnyRole(roles)] lets an authenticated request through exactly
    when the identity's role is one of [roles], compared as written (case
    matters); otherwise it answers 403 [ROLE_REQUIRED] with the roles listed
    in the message, separated by a comma and a space.  With an empty list it
    turns every identity away. *)
Theorem hasAnyRole_membership :
  forall (roles : list string) (req : Req) (res : Res) (u : User),
    user req = Some u ->
    (In (role u) roles ->
       authMiddleware.hasAnyRole roles req res = (req, res, Next))
    /\ (~ In (role u) roles ->
          authMiddleware.hasAnyRole roles req res
          = (req,
             send_json
               (authMiddleware.denied
                  ("Acceso denegado. Se requiere uno de estos roles: " +:+ join ", " roles)
                  "ROLE_REQUIRED")
               (status 403 res),
             Done))
    /\ snd (authMiddleware.hasAnyRole [] req res) = Done.
Proof.
  intros roles req res u Hu. unfold authMiddleware.hasAnyRole. rewrite Hu.
  split; [|split].
  - intros Hin. apply includes_In in Hin. now rewrite Hin.
  - intros Hout. destruct (includes roles (role u)) eqn:Hinc; [|reflexivity].
    apply includes_In in Hinc. contradiction.
  - reflexivity.
Qed.

Lemma hasAnyRole_membership_witness :
  authMiddleware.hasAnyRole ["admin"; "hr"] Samples.hr_request res0
    = (Samples.hr_request, res0, Next)
  /\ message_of (snd (fst (authMiddleware.hasAnyRole ["admin"; "HR"]
                             Samples.hr_request res0)))
     = Some (JStr "Acceso denegado. Se requiere uno de estos roles: admin, HR").
Proof.
  split.
  - destruct (hasAnyRole_membership ["admin"; "hr"] Samples.hr_request res0
                Samples.hr_user eq_refl) as [H _].
    apply H. right. now left.
  - destruct (hasAnyRole_membership ["admin"; "HR"] Samples.hr_request res0
                Samples.hr_user eq_refl) as (_ & H & _).
    rewrite H; [reflexivity|].
    simpl. intros [H' | [H' | []]]; discriminate H'.
Defined.

(** X6.  On a protected route a request whose access token verifies goes
    straight to the handlers with the identity attached: the interceptor
    changes nothing, adds no [X-New-Access-Token] header, and neither the
    refresh cookie nor the refresh verifier is consulted. *)
Theorem valid_token_skips_renewal :
  forall verifyAccessToken verifyRefreshToken createAccessToken NODE_ENV
         (req : Req) (res : Res) (tok src : string) (decoded : Claims)
         (handlers : list Handler),
    authMiddleware.locateToken req = (Some tok, src) ->
    tok <> "" ->
    verifyAccessToken tok = Return decoded ->
    truthy_num (or_num (c_user_id decoded) (c_id_user decoded)) = true ->
    let authenticated :=
      mkReq (headers req) (query req) (cookies req) (body req)
        (Some (mkUser (or_num (c_user_id decoded) (c_id_user decoded))
                 (c_email decoded) (or_str (c_role decoded) "user")
                 (Some (or_str (c_name decoded) ""))
                 (Some (or_str (c_surname decoded) ""))
                 (Some (or_str (c_loginMethod decoded) "traditional"))))
        (Some tok) (Some false) in
    run (authRoutes.protected createAccessToken verifyAccessToken verifyRefreshToken
           NODE_ENV handlers) req res
    = run handlers authenticated res.
Proof.
  intros verifyAccessToken verifyRefreshToken createAccessToken NODE_ENV
    req res tok src decoded handlers Hloc Hne Hv Hid authenticated.
  pose proof (authenticate_return verifyAccessToken NODE_ENV req res tok src decoded
                Hloc Hne Hv) as Hauth.
  rewrite Hid in Hauth.
  unfold authRoutes.protected. simpl. rewrite Hauth.
  now rewrite refreshMiddleware_idle.
Qed.

Lemma valid_token_skips_renewal_witness :
  let req :=
    Samples.request (Samples.bearer Samples.valid_access)
      {[ "refresh_token" := Samples.forged_refresh ]} in
  let out :=
    run (authRoutes.protected Samples.createAccessToken Samples.verifyAccessToken
           Samples.verifyRefreshToken Samples.NODE_ENV [Samples.business]) req res0 in
  statusCode (snd (fst out)) = 200
  /\ resHeaders (snd (fst out)) = []
  /\ cookieOps (snd (fst out)) = []
  /\ role <$> user (fst (fst out)) = Some "hr".
Proof.
  intros req out.
  pose proof (valid_token_skips_renewal Samples.verifyAccessToken
                Samples.verifyRefreshToken Samples.createAccessToken Samples.NODE_ENV
                req res0 Samples.valid_access "header" Samples.hr_claims
                [Samples.business]
                ltac:(vm_compute; reflexivity) ltac:(discriminate)
                ltac:(vm_compute; reflexivity) eq_refl) as Hrun.
  unfold out. rewrite Hrun. vm_compute. repeat split.
Defined.

(** * User accounts *)

Section AccountProperties.

Variable pg_integer : string -> option Z.
Variable invalid_integer : string -> Error.
Variable fresh_id : list authQueries.UserRow -> Z.
Variable bcrypt_hash : string -> Z -> string.
Variable toLowerCase : string -> string.

Let createUser := adminModel.createUser fresh_id bcrypt_hash toLowerCase.
Let updateUserById :=
  adminModel.updateUserById pg_integer invalid_integer bcrypt_hash toLowerCase.
Let deleteUserById := adminModel.deleteUserById pg_integer invalid_integer.

Lemma createUser_cases (users : list authQueries.UserRow) (data : gmap string string) :
  (exists error, createUser users (Some data) = (Throw error, users))
  \/ (exists role email password,
        data !! "role" = Some role /\ data !! "email" = Some email
        /\ data !! "password" = Some password
        /\ role <> "" /\ email <> "" /\ password <> ""
        /\ In (toLowerCase role) adminModel.validRoles
        /\ createUser users (Some data)
           = (Return (object [("message", Some (JStr "Usuario creado exitosamente"));
                              ("user",
                               Some (adminModel.user_json
                                       (authQueries.mkUserInfo (fresh_id users)
                                          (toLowerCase role) email)))]),
              (users ++ [authQueries.mkUserRow (fresh_id users) (toLowerCase role)
                           email (bcrypt_hash password 10)])%list)).
Proof.
  unfold createUser, adminModel.createUser.
  destruct (data !! "role") as [role|] eqn:Hr; simpl; [|left; eauto].
  destruct (String.eqb role "") eqn:Hre; simpl; [left; eauto|].
  destruct (data !! "email") as [email|] eqn:He; simpl; [|left; eauto].
  destruct (String.eqb email "") eqn:Hee; simpl; [left; eauto|].
  destruct (data !! "password") as [password|] eqn:Hp; simpl; [|left; eauto].
  destruct (String.eqb password "") eqn:Hpe; simpl; [left; eauto|].
  destruct (includes adminModel.validRoles (toLowerCase role)) eqn:Hv;
    pose proof Hv as Hv'; unfold includes in Hv'; simpl in Hv'; rewrite Hv'; simpl;
    [|left; eauto].
  right. exists role, email, password.
  apply String.eqb_neq in Hre, Hee, Hpe. apply includes_In in Hv.
  repeat split; try assumption; reflexivity.
Qed.

(** X13.  [createUser] either throws and leaves the table as it was, or adds
    exactly one row at the end: the role in lower case and one of [admin],
    [hr], [mkt], the email as submitted, and as password the bcrypt hash (10
    rounds) of the submitted one; the object it returns shows the new row
    without the password.  It throws, with the message prefixed
    [Error al crear usuario: ], whenever the role, the email or the password
    is missing or empty. *)
Theorem createUser_adds_one_hashed_row :
  forall (users : list authQueries.UserRow) (data : gmap string string),
    (forall error users',
       createUser users (Some data) = (Throw error, users') -> users' = users)
    /\ (forall result users',
          createUser users (Some data) = (Return result, users') ->
          exists role email password,
            data !! "role" = Some role /\ data !! "email" = Some email
            /\ data !! "password" = Some password
            /\ In (toLowerCase role) adminModel.validRoles
            /\ users' = (users ++ [authQueries.mkUserRow (fresh_id users)
                                     (toLowerCase role) email
                                     (bcrypt_hash password 10)])%list
            /\ prop "user" result
               = Some (JObj [("user_id", JNum (fresh_id users));
                             ("role", JStr (toLowerCase role));
                             ("email", JStr email)]))
    /\ (truthy (data !! "role") = false \/ truthy (data !! "email") = false
        \/ truthy (data !! "password") = false ->
          createUser users (Some data)
          = (Throw (mkError "Error"
                      "Error al crear usuario: Todos los campos son requeridos"),
             users)).
Proof.
  intros users data. split; [|split].
  - intros error users' H.
    destruct (createUser_cases users data) as [[e He] | (r & m & p & _ & _ & _ & _ & _ & _ & _ & He)];
      rewrite He in H; congruence.
  - intros result users' H.
    destruct (createUser_cases users data)
      as [[e He] | (r & m & p & Hr & Hm & Hp & _ & _ & _ & Hv & He)];
      rewrite He in H; [discriminate|].
    injection H as <- <-. exists r, m, p. repeat split; assumption.
  - unfold createUser, adminModel.createUser. intros [H | [H | H]]; rewrite H; simpl;
      try rewrite orb_true_r; reflexivity.
Qed.

Lemma login_query_app (users : list authQueries.UserRow) (row : authQueries.UserRow)
      (mail : string) :
  (forall r, In r users -> authQueries.email r <> mail) ->
  authQueries.email row = mail ->
  authQueries.login (users ++ [row]) mail = [row].
Proof.
  intros Hnew Hrow. unfold authQueries.login. rewrite List.filter_app.
  fold (authQueries.login users mail). rewrite (query_login_unknown users mail Hnew).
  simpl. rewrite Hrow, String.eqb_refl. reflexivity.
Qed.

(** X14.  An account created by [createUser] can log in: when no row had
    that email before and [bcrypt.compare] accepts the hash [bcrypt.hash]
    made of the password, [authModel.login] with the submitted email and
    password returns the new user, with the role in lower case, and the
    login handler answers 200. *)
Theorem created_account_logs_in :
  forall bcrypt_compare createAccessToken createRefreshToken NODE_ENV
         (users : list authQueries.UserRow) (data : gmap string string)
         (role email password : string) (res : Res),
    data !! "role" = Some role -> data !! "email" = Some email ->
    data !! "password" = Some password ->
    role <> "" -> email <> "" -> password <> "" ->
    In (toLowerCase role) adminModel.validRoles ->
    (forall r, In r users -> authQueries.email r <> email) ->
    bcrypt_compare password (bcrypt_hash password 10) = true ->
    let users' := snd (createUser users (Some data)) in
    let user := authQueries.mkUserInfo (fresh_id users) (toLowerCase role) email in
    authModel.login users' bcrypt_compare email password = [user]
    /\ statusCode
         (snd (fst (authController.login (authModel.exports users' bcrypt_compare)
                      createAccessToken createRefreshToken NODE_ENV
                      (mkReq ∅ None None (Some data) None None None) res)))
       = 200.
Proof.
  intros bcrypt_compare createAccessToken createRefreshToken NODE_ENV users data
    role email password res Hr He Hp Hrn Hen Hpn Hv Hnew Hcmp users' user.
  assert (Husers : users' = (users ++ [authQueries.mkUserRow (fresh_id users)
                                         (toLowerCase role) email
                                         (bcrypt_hash password 10)])%list).
  { unfold users'.
    destruct (createUser_cases users data)
      as [[e Hc] | (r & m & p & Hr' & He' & Hp' & _ & _ & _ & _ & Hc)].
    - exfalso. revert Hc. unfold createUser, adminModel.createUser.
      rewrite Hr, He, Hp. simpl.
      apply String.eqb_neq in Hrn, Hen, Hpn. rewrite Hrn, Hen, Hpn. simpl.
      apply includes_In in Hv. unfold includes in Hv. simpl in Hv. rewrite Hv.
      discriminate.
    - rewrite Hc. simpl. congruence. }
  assert (Hlogin : authModel.login users' bcrypt_compare email password = [user]).
  { rewrite Husers. unfold authModel.login.
    rewrite (login_query_app users
               (authQueries.mkUserRow (fresh_id users) (toLowerCase role) email
                  (bcrypt_hash password 10)) email Hnew eq_refl).
    simpl.
    now rewrite Hcmp. }
  split; [exact Hlogin|].
  rewrite (controller_login_fields _ _ _ _
             (mkReq ∅ None None (Some data) None None None) res data email password
             eq_refl He Hp Hen Hpn).
  simpl. rewrite Hlogin. reflexivity.
Qed.

Lemma filter_map_set (n : Z) (set : authQueries.UserRow -> authQueries.UserRow)
      (users : list authQueries.UserRow) :
  (forall r, authQueries.user_id (set r) = authQueries.user_id r) ->
  List.filter (fun r => Z.eqb (authQueries.user_id r) n)
    (List.map (fun r => if Z.eqb (authQueries.user_id r) n then set r else r) users)
  = List.map set (List.filter (fun r => Z.eqb (authQueries.user_id r) n) users).
Proof.
  intros Hid. induction users as [|r users IH]; simpl; [reflexivity|].
  destruct (Z.eqb (authQueries.user_id r) n) eqn:Hr; simpl.
  - rewrite Hid, Hr. simpl. now rewrite IH.
  - rewrite Hr. exact IH.
Qed.

(** X15.  [updateUserById] with no password, or with the empty string as
    password, keeps the stored hash: the rows with the given id get the new
    role (in lower case, when one is given) and email (when one is given and
    not empty) and the hash the first of them had; every other row is left
    alone.  A non-empty password is stored as its bcrypt hash. *)
Theorem updateUserById_keeps_or_hashes_password :
  forall (users : list authQueries.UserRow) (user_id : string) (n : Z)
         (data : gmap string string) (existing : authQueries.UserRow)
         (others : list authQueries.UserRow),
    pg_integer user_id = Some n ->
    List.filter (fun r => Z.eqb (authQueries.user_id r) n) users = existing :: others ->
    (truthy (data !! "role") = true ->
       In (toLowerCase (default "" (data !! "role"))) adminModel.validRoles) ->
    let role' :=
      if truthy (data !! "role") then toLowerCase (default "" (data !! "role"))
      else authQueries.role existing in
    let email' := or_str (data !! "email") (authQueries.email existing) in
    let stored password' :=
      List.map (fun r => if Z.eqb (authQueries.user_id r) n
                         then authQueries.mkUserRow (authQueries.user_id r)
                                role' email' password'
                         else r) users in
    (data !! "password" = None \/ data !! "password" = Some "" ->
       snd (updateUserById users user_id (Some data))
       = stored (authQueries.password existing))
    /\ (forall p, data !! "password" = Some p -> p <> "" -> bcrypt_hash p 10 <> "" ->
          snd (updateUserById users user_id (Some data)) = stored (bcrypt_hash p 10))
    /\ (exists result, fst (updateUserById users user_id (Some data)) = Return result
                       /\ prop "user" result
                          = Some (JObj [("user_id", JNum (authQueries.user_id existing));
                                        ("role", JStr role');
                                        ("email", JStr email')])).
Proof.
  intros users user_id n data existing others Hn Hrows Hvalid role' email' stored.
  unfold updateUserById, adminModel.updateUserById, adminQueries.getUserById,
    adminQueries.updateUserById.
  rewrite Hn, Hrows. fold role'. fold email'.
  assert (Hgate : truthy (data !! "role") && negb (includes adminModel.validRoles role')
                  = false).
  { unfold role'. destruct (truthy (data !! "role")) eqn:Ht; [|reflexivity].
    rewrite andb_true_l. apply negb_false_iff, includes_In, Hvalid. reflexivity. }
  rewrite Hgate. split; [|split].
  - intros [Hp | Hp]; rewrite Hp; simpl.
    + destruct (String.eqb (authQueries.password existing) ""); reflexivity.
    + destruct (String.eqb (authQueries.password existing) ""); reflexivity.
  - intros p Hp Hpn Hhash. rewrite Hp. simpl.
    apply String.eqb_neq in Hpn, Hhash. rewrite Hpn. simpl. rewrite Hhash. reflexivity.
  - eexists. split; [reflexivity|]. reflexivity.
Qed.

(** X16.  [deleteUserById] on an id some row has removes every row with
    that id and no other, and returns the first of them as [deletedUser],
    password hash included; afterwards [getUserById] for that id throws "no
    encontrado", the lookup by id finds nothing, and an email only that
    account had can no longer log in.  On an id no row has it throws, with the
    message prefixed [Error al eliminar usuario: ], and the table is left as
    it was. *)
Theorem deleteUserById_removes_account :
  forall bcrypt_compare (users : list authQueries.UserRow) (user_id : string) (n : Z),
    pg_integer user_id = Some n ->
    (forall existing others,
       List.filter (fun r => Z.eqb (authQueries.user_id r) n) users = existing :: others ->
       let users' := snd (deleteUserById users user_id) in
       users' = List.filter (fun r => negb (Z.eqb (authQueries.user_id r) n)) users
       /\ (forall r, In r users' <-> In r users /\ authQueries.user_id r <> n)
       /\ (exists result,
             fst (deleteUserById users user_id) = Return result
             /\ prop "deletedUser" result = Some (adminModel.row_json existing)
             /\ prop "deletedUser" result ≫= prop "password"
                = Some (JStr (authQueries.password existing)))
       /\ adminModel.getUserById pg_integer invalid_integer users' user_id
          = Throw (mkError "Error"
                     ("Error al obtener usuario por ID: Usuario con ID "
                        +:+ user_id +:+ " no encontrado"))
       /\ authQueries.getUserById users' (Some n) = []
       /\ (forall mail pass,
             (forall r, In r users -> authQueries.email r = mail ->
                        authQueries.user_id r = n) ->
             authModel.login users' bcrypt_compare mail pass = []))
    /\ (List.filter (fun r => Z.eqb (authQueries.user_id r) n) users = [] ->
          deleteUserById users user_id
          = (Throw (mkError "Error"
                      ("Error al eliminar usuario: Usuario con ID "
                         +:+ user_id +:+ " no encontrado")),
             users)).
Proof.
  intros bcrypt_compare users user_id n Hn. split.
  - intros existing others Hrows users'.
    assert (Husers : users'
                     = List.filter (fun r => negb (Z.eqb (authQueries.user_id r) n)) users).
    { unfold users', deleteUserById, adminModel.deleteUserById,
        adminQueries.getUserById, adminQueries.deleteUserById.
      rewrite Hn, Hrows. reflexivity. }
    assert (Hin : forall r, In r users' <-> In r users /\ authQueries.user_id r <> n).
    { intros r. rewrite Husers, filter_In, negb_true_iff, Z.eqb_neq. reflexivity. }
    assert (Hgone : List.filter (fun r => Z.eqb (authQueries.user_id r) n) users' = []).
    { destruct (List.filter _ users') as [|r rest] eqn:Hf; [reflexivity|].
      assert (Hr : In r (List.filter (fun r => Z.eqb (authQueries.user_id r) n) users'))
        by (rewrite Hf; apply in_eq).
      apply filter_In in Hr as [Hr Hid]. apply Hin in Hr as [_ Hr].
      apply Z.eqb_eq in Hid. contradiction. }
    split; [exact Husers|]. split; [exact Hin|]. split; [|split; [|split]].
    + unfold deleteUserById, adminModel.deleteUserById,
        adminQueries.getUserById, adminQueries.deleteUserById.
      rewrite Hn, Hrows. eexists. split; [reflexivity|]. split; reflexivity.
    + unfold adminModel.getUserById, adminQueries.getUserById. rewrite Hn, Hgone.
      reflexivity.
    + unfold authQueries.getUserById. now rewrite Hgone.
    + intros mail pass Honly. apply model_login_rejects. left.
      apply query_login_unknown. intros r Hr Hmail.
      apply Hin in Hr as [Hr Hid]. apply Hid, (Honly r Hr Hmail).
  - intros Hnone. unfold deleteUserById, adminModel.deleteUserById,
      adminQueries.getUserById. rewrite Hn, Hnone. reflexivity.
Qed.

(** X17.  The roles in the table stay among [admin], [hr] and [mkt]:
    when every row has one of these roles, so has every row after
    [createUser], [updateUserById] or [deleteUserById], whatever is
    submitted and whether the operation returns or throws. *)
Theorem account_operations_keep_roles_valid :
  forall (users : list authQueries.UserRow) (user_id : string)
         (userData : option (gmap string string)),
    Forall Accounts.valid_role users ->
    Forall Accounts.valid_role (snd (createUser users userData))
    /\ Forall Accounts.valid_role (snd (updateUserById users user_id userData))
    /\ Forall Accounts.valid_role (snd (deleteUserById users user_id)).
Proof.
  intros users user_id userData Hvalid. split; [|split].
  - destruct userData as [data|]; [|exact Hvalid].
    destruct (createUser_cases users data)
      as [[e Hc] | (r & m & p & _ & _ & _ & _ & _ & _ & Hv & Hc)]; rewrite Hc; simpl.
    + exact Hvalid.
    + apply List.Forall_app. split; [exact Hvalid|]. constructor; [exact Hv | constructor].
  - unfold updateUserById, adminModel.updateUserById, adminQueries.getUserById,
      adminQueries.updateUserById.
    destruct (pg_integer user_id) as [n|]; [|exact Hvalid].
    destruct (List.filter _ users) as [|existing others] eqn:Hrows; [exact Hvalid|].
    destruct userData as [data|]; [|exact Hvalid].
    assert (Hex : Accounts.valid_role existing).
    { assert (Hin : In existing (List.filter
                       (fun r => Z.eqb (authQueries.user_id r) n) users))
        by (rewrite Hrows; apply in_eq).
      apply filter_In in Hin as [Hin _].
      rewrite List.Forall_forall in Hvalid. now apply Hvalid. }
    destruct (truthy (data !! "role")) eqn:Ht.
    + rewrite andb_true_l.
      destruct (includes adminModel.validRoles
                  (toLowerCase (default "" (data !! "role")))) eqn:Hinc;
        cbn [negb snd]; [|exact Hvalid].
      apply includes_In in Hinc.
      apply List.Forall_map. eapply List.Forall_impl; [|exact Hvalid].
      intros r Hr. destruct (Z.eqb (authQueries.user_id r) n); [exact Hinc | exact Hr].
    + rewrite andb_false_l. cbn [snd].
      apply List.Forall_map. eapply List.Forall_impl; [|exact Hvalid].
      intros r Hr. destruct (Z.eqb (authQueries.user_id r) n); [exact Hex | exact Hr].
  - unfold deleteUserById, adminModel.deleteUserById, adminQueries.getUserById,
      adminQueries.deleteUserById.
    destruct (pg_integer user_id) as [n|]; [|exact Hvalid].
    destruct (List.filter _ users) as [|existing others]; [exact Hvalid|]. simpl.
    rewrite List.Forall_forall in *. intros r Hr. apply filter_In in Hr as [Hr _].
    now apply Hvalid.
Qed.


End AccountProperties.

Lemma createUser_adds_one_hashed_row_witness :
  let created :=
    adminModel.createUser Accounts.fresh_id Accounts.bcrypt_hash Accounts.toLowerCase
      Samples.users (Some Accounts.new_account) in
  snd created
    = [authQueries.mkUserRow 7 "hr" "ana@empresa.com" "hash-of-Secreta123";
       authQueries.mkUserRow 8 "mkt" "luis@empresa.com" "hash-of-Segura456"]
  /\ adminModel.createUser Accounts.fresh_id Accounts.bcrypt_hash Accounts.toLowerCase
       Samples.users (Some {[ "role" := "hr"; "email" := "eva@empresa.com" ]})
     = (Throw (mkError "Error" "Error al crear usuario: Todos los campos son requeridos"),
        Samples.users).
Proof.
  intros created.
  destruct (createUser_adds_one_hashed_row Accounts.fresh_id Accounts.bcrypt_hash
              Accounts.toLowerCase Samples.users Accounts.new_account) as (_ & Hok & _).
  destruct (createUser_adds_one_hashed_row Accounts.fresh_id Accounts.bcrypt_hash
              Accounts.toLowerCase Samples.users
              {[ "role" := "hr"; "email" := "eva@empresa.com" ]}) as (_ & _ & Hmissing).
  split.
  - assert (Hc : exists result, created = (Return result, snd created)).
    { vm_compute. eexists. reflexivity. }
    destruct Hc as [result Hc].
    destruct (Hok result (snd created) Hc) as (r & m & p & Hr & Hm & Hp & _ & Husers & _).
    rewrite Husers.
    assert (Hr' : Accounts.new_account !! "role" = Some "MKT") by (vm_compute; reflexivity).
    assert (Hm' : Accounts.new_account !! "email" = Some "luis@empresa.com")
      by (vm_compute; reflexivity).
    assert (Hp' : Accounts.new_account !! "password" = Some "Segura456")
      by (vm_compute; reflexivity).
    rewrite Hr' in Hr. rewrite Hm' in Hm. rewrite Hp' in Hp.
    injection Hr as <-. injection Hm as <-. injection Hp as <-.
    vm_compute. reflexivity.
  - apply Hmissing. right. right. vm_compute. reflexivity.
Defined.

Lemma created_account_logs_in_witness :
  let users' :=
    snd (adminModel.createUser Accounts.fresh_id Accounts.bcrypt_hash Accounts.toLowerCase
           Samples.users (Some Accounts.new_account)) in
  Samples.bcrypt_compare "Segura456" (Accounts.bcrypt_hash "Segura456" 10) = true
  /\ authModel.login users' Samples.bcrypt_compare "luis@empresa.com" "Segura456"
     = [authQueries.mkUserInfo 8 "mkt" "luis@empresa.com"].
Proof.
  intros users'. split; [reflexivity|].
  assert (Hnew : forall r, In r Samples.users -> authQueries.email r <> "luis@empresa.com").
  { intros r [<- | []]. discriminate. }
  destruct (created_account_logs_in Accounts.fresh_id Accounts.bcrypt_hash
              Accounts.toLowerCase Samples.bcrypt_compare Samples.createAccessToken
              Samples.createRefreshToken Samples.NODE_ENV Samples.users
              Accounts.new_account "MKT" "luis@empresa.com" "Segura456" res0
              ltac:(vm_compute; reflexivity) ltac:(vm_compute; reflexivity)
              ltac:(vm_compute; reflexivity)
              ltac:(discriminate) ltac:(discriminate) ltac:(discriminate)
              ltac:(vm_compute; auto) Hnew eq_refl) as [Hlogin _].
  exact Hlogin.
Defined.

Lemma updateUserById_keeps_or_hashes_password_witness :
  let promote : gmap string string := {[ "role" := "Admin"; "password" := "" ]} in
  let rekey : gmap string string := {[ "password" := "Nueva789x" ]} in
  snd (adminModel.updateUserById Accounts.pg_integer Accounts.invalid_integer
         Accounts.bcrypt_hash Accounts.toLowerCase Samples.users "7" (Some promote))
    = [authQueries.mkUserRow 7 "admin" "ana@empresa.com" "hash-of-Secreta123"]
  /\ snd (adminModel.updateUserById Accounts.pg_integer Accounts.invalid_integer
            Accounts.bcrypt_hash Accounts.toLowerCase Samples.users "7" (Some rekey))
     = [authQueries.mkUserRow 7 "hr" "ana@empresa.com" "hash-of-Nueva789x"].
Proof.
  intros promote rekey. split.
  - destruct (updateUserById_keeps_or_hashes_password Accounts.pg_integer
                Accounts.invalid_integer Accounts.bcrypt_hash Accounts.toLowerCase
                Samples.users "7" 7 promote
                (authQueries.mkUserRow 7 "hr" "ana@empresa.com" "hash-of-Secreta123") []
                eq_refl eq_refl ltac:(intros _; vm_compute; auto)) as [Hkeep _].
    rewrite Hkeep; [vm_compute; reflexivity|].
    right. vm_compute. reflexivity.
  - destruct (updateUserById_keeps_or_hashes_password Accounts.pg_integer
                Accounts.invalid_integer Accounts.bcrypt_hash Accounts.toLowerCase
                Samples.users "7" 7 rekey
                (authQueries.mkUserRow 7 "hr" "ana@empresa.com" "hash-of-Secreta123") []
                eq_refl eq_refl ltac:(vm_compute; discriminate)) as (_ & Hhash & _).
    rewrite (Hhash "Nueva789x"); [vm_compute; reflexivity | | |].
    + vm_compute. reflexivity.
    + discriminate.
    + discriminate.
Defined.

Lemma deleteUserById_removes_account_witness :
  snd (adminModel.deleteUserById Accounts.pg_integer Accounts.invalid_integer
         Samples.users "7") = []
  /\ authModel.login
       (snd (adminModel.deleteUserById Accounts.pg_integer Accounts.invalid_integer
               Samples.users "7"))
       Samples.bcrypt_compare "ana@empresa.com" "Secreta123" = []
  /\ adminModel.deleteUserById Accounts.pg_integer Accounts.invalid_integer
       Samples.users "9"
     = (Throw (mkError "Error"
                 "Error al eliminar usuario: Usuario con ID 9 no encontrado"),
        Samples.users).
Proof.
  destruct (deleteUserById_removes_account Accounts.pg_integer Accounts.invalid_integer
              Samples.bcrypt_compare Samples.users "7" 7 eq_refl) as [Hfound _].
  destruct (deleteUserById_removes_account Accounts.pg_integer Accounts.invalid_integer
              Samples.bcrypt_compare Samples.users "9" 9 eq_refl) as [_ Hmissing].
  destruct (Hfound (authQueries.mkUserRow 7 "hr" "ana@empresa.com" "hash-of-Secreta123")
              [] eq_refl) as (Husers & _ & _ & _ & _ & Hlogin).
  split; [rewrite Husers; reflexivity|]. split.
  - apply Hlogin. intros r [<- | []] _. reflexivity.
  - exact (Hmissing eq_refl).
Defined.

Lemma account_operations_keep_roles_valid_witness :
  Forall Accounts.valid_role Samples.users
  /\ Forall Accounts.valid_role
       (snd (adminModel.updateUserById Accounts.pg_integer Accounts.invalid_integer
               Accounts.bcrypt_hash Accounts.toLowerCase Samples.users "7"
               (Some {[ "role" := "root" ]})))
  /\ Forall Accounts.valid_role
       (snd (adminModel.createUser Accounts.fresh_id Accounts.bcrypt_hash
               Accounts.toLowerCase Samples.users (Some Accounts.new_account))).
Proof.
  assert (Hvalid : Forall Accounts.valid_role Samples.users).
  { constructor; [vm_compute; auto | constructor]. }
  split; [exact Hvalid|].
  destruct (account_operations_keep_roles_valid Accounts.pg_integer
              Accounts.invalid_integer Accounts.fresh_id Accounts.bcrypt_hash
              Accounts.toLowerCase Samples.users "7" (Some {[ "role" := "root" ]}) Hvalid)
    as (_ & Hupdate & _).
  destruct (account_operations_keep_roles_valid Accounts.pg_integer
              Accounts.invalid_integer Accounts.fresh_id Accounts.bcrypt_hash
              Accounts.toLowerCase Samples.users "7" (Some Accounts.new_account) Hvalid)
    as (Hcreate & _).
  split; [exact Hupdate | exact Hcreate].
Defined.

(** ** The handlers for user accounts *)

Section AccountHandlers.

Variable pg_integer : string -> option Z.
Variable invalid_integer : string -> Error.
Variable fresh_id : list authQueries.UserRow -> Z.
Variable bcrypt_hash : string -> Z -> string.
Variable toLowerCase : string -> string.

Lemma createUser_throw_unchanged users userData error users' :
  adminModel.createUser fresh_id bcrypt_hash toLowerCase users userData
    = (Throw error, users') ->
  users' = users.
Proof.
  destruct userData as [data|].
  - intros H.
    destruct (createUser_cases fresh_id bcrypt_hash toLowerCase users data)
      as [[e He] | (r & m & p & _ & _ & _ & _ & _ & _ & _ & He)];
      rewrite He in H; congruence.
  - simpl. congruence.
Qed.

Lemma updateUserById_throw_unchanged users user_id userData error users' :
  adminModel.updateUserById pg_integer invalid_integer bcrypt_hash toLowerCase
    users user_id userData = (Throw error, users') ->
  users' = users.
Proof.
  unfold adminModel.updateUserById, adminQueries.getUserById, adminQueries.updateUserById.
  destruct (pg_integer user_id) as [n|]; [|congruence].
  destruct (List.filter _ users) as [|existing others]; [congruence|].
  destruct userData as [data|]; [|congruence].
  destruct (truthy (data !! "role") && _); [congruence | discriminate].
Qed.

Lemma deleteUserById_throw_unchanged users user_id error users' :
  adminModel.deleteUserById pg_integer invalid_integer users user_id
    = (Throw error, users') ->
  users' = users.
Proof.
  unfold adminModel.deleteUserById, adminQueries.getUserById, adminQueries.deleteUserById.
  destruct (pg_integer user_id) as [n|]; [|congruence].
  destruct (List.filter _ users) as [|existing others]; [congruence | discriminate].
Qed.

(** X18.  The three handlers that change user accounts answer a failure
    with status 400 and a body [{success: false, error}], and then the table
    is the one they found; when they do not fail, [createUser] answers 201 and
    the other two keep the status they were given.  In particular an unknown
    id is answered 400, not 404, by [updateUserById] and [deleteUserById]. *)
Theorem account_handlers_fail_cleanly :
  forall (users : list authQueries.UserRow) (user_id : string) (req : Req) (res : Res),
    statusCode res = 200 ->
    let outcome (created : Z) (out : Res * list authQueries.UserRow) :=
      (statusCode (fst out) = 400 /\ snd out = users
       /\ sent (fst out) ≫= prop "success" = Some (JBool false)
       /\ is_Some (sent (fst out) ≫= prop "error"))
      \/ (statusCode (fst out) = created /\ is_Some (sent (fst out))) in
    outcome 201
      (adminController.createUser fresh_id bcrypt_hash toLowerCase users req res)
    /\ outcome 200
         (adminController.updateUserById pg_integer invalid_integer bcrypt_hash
            toLowerCase user_id users req res)
    /\ outcome 200
         (adminController.deleteUserById pg_integer invalid_integer user_id users req res)
    /\ (forall n,
          pg_integer user_id = Some n ->
          List.filter (fun r => Z.eqb (authQueries.user_id r) n) users = [] ->
          statusCode (fst (adminController.deleteUserById pg_integer invalid_integer
                             user_id users req res)) = 400
          /\ statusCode (fst (adminController.updateUserById pg_integer invalid_integer
                                bcrypt_hash toLowerCase user_id users req res)) = 400).
Proof.
  intros users user_id req res Hstatus outcome. unfold outcome.
  split; [|split; [|split]].
  - unfold adminController.createUser.
    destruct (adminModel.createUser _ _ _ users (body req)) as [[result|error] users'] eqn:Hc.
    + right. simpl. split; [reflexivity | now eexists].
    + left. simpl. apply createUser_throw_unchanged in Hc.
      repeat split; [exact Hc | now eexists].
  - unfold adminController.updateUserById.
    destruct (adminModel.updateUserById _ _ _ _ users user_id (body req))
      as [[result|error] users'] eqn:Hc.
    + right. simpl. split; [exact Hstatus | now eexists].
    + left. simpl. apply updateUserById_throw_unchanged in Hc.
      repeat split; [exact Hc | now eexists].
  - unfold adminController.deleteUserById.
    destruct (adminModel.deleteUserById _ _ users user_id) as [[result|error] users'] eqn:Hc.
    + right. simpl. split; [exact Hstatus | now eexists].
    + left. simpl. apply deleteUserById_throw_unchanged in Hc.
      repeat split; [exact Hc | now eexists].
  - intros n Hn Hnone. split.
    + unfold adminController.deleteUserById, adminModel.deleteUserById,
        adminQueries.getUserById. rewrite Hn, Hnone. reflexivity.
    + unfold adminController.updateUserById, adminModel.updateUserById,
        adminQueries.getUserById. rewrite Hn, Hnone. reflexivity.
Qed.

(** X19.  [getUserById] answers with the row of the given id, and the
    [data] it sends includes the row's password hash; for an id no row has,
    and for an id the database does not accept as an integer, it answers 404
    with the model's message, prefixed [Error al obtener usuario por ID: ]. *)
Theorem account_lookup_answers :
  forall (users : list authQueries.UserRow) (user_id : string) (req : Req) (res : Res),
    (forall n existing others,
       pg_integer user_id = Some n ->
       List.filter (fun r => Z.eqb (authQueries.user_id r) n) users = existing :: others ->
       let out : Res * list authQueries.UserRow :=
         adminController.getUserById pg_integer invalid_integer user_id users req res in
       statusCode (fst out) = statusCode res
       /\ sent (fst out) ≫= prop "data" = Some (adminModel.row_json existing)
       /\ (sent (fst out) ≫= prop "data") ≫= prop "password"
          = Some (JStr (authQueries.password existing))
       /\ snd out = users)
    /\ (forall n,
          pg_integer user_id = Some n ->
          List.filter (fun r => Z.eqb (authQueries.user_id r) n) users = [] ->
          adminController.getUserById pg_integer invalid_integer user_id users req res
          = (send_json
               (adminController.failed
                  (mkError "Error"
                     ("Error al obtener usuario por ID: Usuario con ID "
                        +:+ user_id +:+ " no encontrado")))
               (status 404 res),
             users))
    /\ (pg_integer user_id = None ->
          adminController.getUserById pg_integer invalid_integer user_id users req res
          = (send_json
               (adminController.failed
                  (mkError "Error"
                     ("Error al obtener usuario por ID: "
                        +:+ err_message (invalid_integer user_id))))
               (status 404 res),
             users)).
Proof.
  intros users user_id req res.
  unfold adminController.getUserById, adminModel.getUserById, adminQueries.getUserById.
  split; [|split].
  - intros n existing others -> ->. repeat split.
  - intros n -> ->. reflexivity.
  - intros ->. reflexivity.
Qed.

End AccountHandlers.

Lemma account_handlers_fail_cleanly_witness :
  statusCode res0 = 200
  /\ statusCode (fst (adminController.deleteUserById Accounts.pg_integer
                        Accounts.invalid_integer "9" Samples.users
                        Samples.anonymous_request res0)) = 400
  /\ statusCode (fst (adminController.createUser Accounts.fresh_id Accounts.bcrypt_hash
                        Accounts.toLowerCase Samples.users
                        (Accounts.posting Accounts.new_account) res0)) = 201.
Proof.
  split; [reflexivity|].
  destruct (account_handlers_fail_cleanly Accounts.pg_integer Accounts.invalid_integer
              Accounts.fresh_id Accounts.bcrypt_hash Accounts.toLowerCase
              Samples.users "9" Samples.anonymous_request res0 eq_refl)
    as (_ & _ & _ & Hunknown).
  destruct (account_handlers_fail_cleanly Accounts.pg_integer Accounts.invalid_integer
              Accounts.fresh_id Accounts.bcrypt_hash Accounts.toLowerCase
              Samples.users "9" (Accounts.posting Accounts.new_account) res0 eq_refl)
    as ([(Hbad & Hsame & _) | [Hcreated _]] & _).
  - exfalso. vm_compute in Hsame. discriminate Hsame.
  - split; [exact (proj1 (Hunknown 9 eq_refl eq_refl)) | exact Hcreated].
Defined.

Lemma account_lookup_answers_witness :
  (sent (fst (adminController.getUserById Accounts.pg_integer Accounts.invalid_integer
                "7" Samples.users Samples.anonymous_request res0))
     ≫= prop "data") ≫= prop "password"
  = Some (JStr "hash-of-Secreta123")
  /\ statusCode (fst (adminController.getUserById Accounts.pg_integer
                        Accounts.invalid_integer "siete" Samples.users
                        Samples.anonymous_request res0)) = 404.
Proof.
  destruct (account_lookup_answers Accounts.pg_integer Accounts.invalid_integer
              Samples.users "7" Samples.anonymous_request res0) as (Hfound & _).
  destruct (account_lookup_answers Accounts.pg_integer Accounts.invalid_integer
              Samples.users "siete" Samples.anonymous_request res0) as (_ & _ & Hbad).
  split.
  - destruct (Hfound 7 (authQueries.mkUserRow 7 "hr" "ana@empresa.com" "hash-of-Secreta123")
                [] eq_refl eq_refl) as (_ & _ & Hpw & _).
    exact Hpw.
  - rewrite (Hbad eq_refl). reflexivity.
Defined.

(** * Further properties of renewal and of the auth controller *)

(** X7.  On a protected route, a request whose access token has expired
    and which brings no refresh token (no cookies at all, no [refresh_token]
    cookie, or an empty one) is answered 401 [SESSION_EXPIRED] and no cookie
    is touched; one whose refresh token fails verification, for whatever
    reason, is answered 401 [INVALID_SESSION] and the cookie is cleared with
    default options, which are not the attributes it was issued with.  In
    both cases no handler behind the interceptor runs and no identity is
    attached. *)
Theorem expired_token_without_valid_refresh :
  forall verifyAccessToken verifyRefreshToken createAccessToken NODE_ENV
         (req : Req) (res : Res) (tok src : string) (error : Error)
         (handlers : list Handler),
    authMiddleware.locateToken req = (Some tok, src) ->
    tok <> "" ->
    verifyAccessToken tok = Throw error ->
    err_message error = "ACCESS_TOKEN_EXPIRED" ->
    let protected :=
      run (authRoutes.protected createAccessToken verifyAccessToken verifyRefreshToken
             NODE_ENV handlers) in
    let expired :=
      mkReq (headers req) (query req) (cookies req) (body req)
        None (Some tok) (Some true) in
    (truthy (cookie_of req "refresh_token") = false ->
       protected req res
       = (expired, send_json checkRefreshCookie.SESSION_EXPIRED (status 401 res), Done))
    /\ (forall rtok failure,
          cookie_of req "refresh_token" = Some rtok -> rtok <> "" ->
          verifyRefreshToken rtok = Throw failure ->
          protected req res
          = (expired,
             send_json checkRefreshCookie.INVALID_SESSION
               (status 401 (clearCookie "refresh_token" no_options res)),
             Done))
    /\ ~ Reading.same_attributes no_options (authController.issue_options NODE_ENV).
Proof.
  intros verifyAccessToken verifyRefreshToken createAccessToken NODE_ENV
    req res tok src error handlers Hloc Hne Hthrow Hmsg protected expired.
  pose proof (authenticate_throw verifyAccessToken NODE_ENV req res tok src error
                Hloc Hne Hthrow) as Hauth.
  rewrite Hmsg in Hauth. simpl in Hauth.
  destruct (refreshMiddleware_rejections verifyRefreshToken createAccessToken
              expired res eq_refl) as [Habsent Hinvalid].
  split; [|split].
  - intros Hno. unfold protected, authRoutes.protected. cbn [run].
    rewrite Hauth. cbv beta iota. fold expired. now rewrite (Habsent Hno).
  - intros rtok failure Hck Hrne Hv. unfold protected, authRoutes.protected. cbn [run].
    rewrite Hauth. cbv beta iota. fold expired.
    now rewrite (Hinvalid rtok failure Hck Hrne Hv).
  - intros (Hhttp & _). discriminate Hhttp.
Qed.

Lemma expired_token_without_valid_refresh_witness :
  let run_protected :=
    run (authRoutes.protected Samples.createAccessToken Samples.verifyAccessToken
           Samples.verifyRefreshToken Samples.NODE_ENV [Samples.business]) in
  code_of (snd (fst (run_protected
                       (Samples.request (Samples.bearer Samples.expired_access) ∅) res0)))
    = Some (JStr "SESSION_EXPIRED")
  /\ cookieOps (snd (fst (run_protected
                            (Samples.renewal_request Samples.expired_refresh) res0)))
     = [ClearCookie "refresh_token" no_options].
Proof.
  intros run_protected.
  assert (Hv : Samples.verifyAccessToken Samples.expired_access
               = Throw (mkError "Error" "ACCESS_TOKEN_EXPIRED")) by (vm_compute; reflexivity).
  split.
  - destruct (expired_token_without_valid_refresh Samples.verifyAccessToken
                Samples.verifyRefreshToken Samples.createAccessToken Samples.NODE_ENV
                (Samples.request (Samples.bearer Samples.expired_access) ∅) res0
                Samples.expired_access "header" _ [Samples.business]
                ltac:(vm_compute; reflexivity) ltac:(discriminate) Hv eq_refl)
      as (Habsent & _).
    unfold run_protected. rewrite Habsent; [reflexivity | vm_compute; reflexivity].
  - destruct (expired_token_without_valid_refresh Samples.verifyAccessToken
                Samples.verifyRefreshToken Samples.createAccessToken Samples.NODE_ENV
                (Samples.renewal_request Samples.expired_refresh) res0
                Samples.expired_access "header" _ [Samples.business]
                ltac:(vm_compute; reflexivity) ltac:(discriminate) Hv eq_refl)
      as (_ & Hinvalid & _).
    unfold run_protected.
    rewrite (Hinvalid Samples.expired_refresh (mkError "Error" "REFRESH_TOKEN_EXPIRED"));
      [reflexivity | vm_compute; reflexivity | discriminate | vm_compute; reflexivity].
Defined.

(** X8.  A refresh token as [login] signs it carries the user under
    [user_id]; the interceptor reads [id_user].  So the access token it mints
    from such a refresh token has no user id, and when the client presents
    that new token (a codec that reads back what it signed), [authenticate]
    answers 401 [INVALID_TOKEN_FORMAT]. *)
Theorem renewed_token_is_rejected :
  forall verifyAccessToken verifyRefreshToken createAccessToken NODE_ENV
         (req : Req) (res : Res) (rtok : string) (account : authQueries.UserInfo),
    tokenExpired req = Some true ->
    cookie_of req "refresh_token" = Some rtok ->
    rtok <> "" ->
    verifyRefreshToken rtok = Return (authController.refresh_claims account) ->
    let minted :=
      checkRefreshCookie.renewed_claims (authController.refresh_claims account) in
    let newAccessToken := createAccessToken minted in
    newAccessToken <> "" ->
    verifyAccessToken newAccessToken = Return minted ->
    c_user_id minted = None /\ c_id_user minted = None
    /\ (exists req',
          checkRefreshCookie.refreshMiddleware verifyRefreshToken createAccessToken req res
            = (req', set_header "X-New-Access-Token" newAccessToken res, Next)
          /\ token req' = Some newAccessToken
          /\ id_user <$> user req' = Some None)
    /\ (forall (next : Req) (res2 : Res) (src : string),
          authMiddleware.locateToken next = (Some newAccessToken, src) ->
          authMiddleware.authenticate verifyAccessToken NODE_ENV next res2
          = (next, send_json authMiddleware.INVALID_TOKEN_FORMAT (status 401 res2), Done)).
Proof.
  intros verifyAccessToken verifyRefreshToken createAccessToken NODE_ENV
    req res rtok account Hexp Hck Hne Hv minted newAccessToken Hnew Hround.
  split; [reflexivity|]. split; [reflexivity|]. split.
  - eexists. split.
    + apply (refreshMiddleware_renews verifyRefreshToken createAccessToken req res rtok
               (authController.refresh_claims account) Hexp Hck Hne Hv).
    + split; reflexivity.
  - intros next res2 src Hloc.
    rewrite (authenticate_return verifyAccessToken NODE_ENV next res2 newAccessToken src
               minted Hloc Hnew Hround).
    reflexivity.
Qed.

Lemma renewed_token_is_rejected_witness :
  let ana := authQueries.mkUserInfo 7 "hr" "ana@empresa.com" in
  let req := Samples.expired_request Samples.valid_refresh in
  Accounts.verifyRefreshToken Samples.valid_refresh
    = Return (authController.refresh_claims ana)
  /\ snd (fst (checkRefreshCookie.refreshMiddleware Accounts.verifyRefreshToken
                 Accounts.createAccessToken req res0))
     = set_header "X-New-Access-Token" "renewed.a-renewed" res0
  /\ Accounts.verifyAccessToken "renewed.a-renewed" = Return Accounts.renewed
  /\ code_of (snd (fst (authMiddleware.authenticate Accounts.verifyAccessToken
                          Samples.NODE_ENV
                          (Samples.request (Samples.bearer "renewed.a-renewed") ∅) res0)))
     = Some (JStr "INVALID_TOKEN_FORMAT").
Proof.
  intros ana req.
  assert (Hr : Accounts.verifyRefreshToken Samples.valid_refresh
               = Return (authController.refresh_claims ana)) by (vm_compute; reflexivity).
  assert (Ha : Accounts.verifyAccessToken "renewed.a-renewed" = Return Accounts.renewed)
    by (vm_compute; reflexivity).
  destruct (renewed_token_is_rejected Accounts.verifyAccessToken
              Accounts.verifyRefreshToken Accounts.createAccessToken Samples.NODE_ENV
              req res0 Samples.valid_refresh ana
              eq_refl ltac:(vm_compute; reflexivity) ltac:(discriminate) Hr
              ltac:(discriminate) Ha)
    as (_ & _ & (req' & Hrenew & _) & Hreject).
  split; [exact Hr|]. split; [now rewrite Hrenew|]. split; [exact Ha|].
  rewrite (Hreject (Samples.request (Samples.bearer "renewed.a-renewed") ∅) res0 "header");
    [reflexivity | vm_compute; reflexivity].
Defined.

(** X9.  Whatever the request and the model, [login] answers in one of
    four ways.  500 when the request has no body; 400 when the email or the
    password is missing or empty, without the model being asked; 401 when
    the model returns no user; and 200.  Only the 200 answer sets a cookie
    or carries an access token: every other answer leaves the cookies as they
    were and has [success: false]. *)
Theorem login_answers :
  forall Auth createAccessToken createRefreshToken NODE_ENV (req : Req) (res : Res),
    let res' :=
      snd (fst (authController.login Auth createAccessToken createRefreshToken
                  NODE_ENV req res)) in
    (body req = None -> statusCode res' = 500)
    /\ (forall fields,
          body req = Some fields ->
          truthy (fields !! "email") = false \/ truthy (fields !! "password") = false ->
          res' = send_json (authController.failure "Email y contraseña son requeridos")
                   (status 400 res))
    /\ (statusCode res' = 200
        \/ ((statusCode res' = 400 \/ statusCode res' = 401 \/ statusCode res' = 500)
            /\ cookieOps res' = cookieOps res
            /\ sent res' ≫= prop "accessToken" = None
            /\ sent res' ≫= prop "success" = Some (JBool false))).
Proof.
  intros Auth createAccessToken createRefreshToken NODE_ENV req res res'.
  unfold res', authController.login.
  destruct (body req) as [fields|].
  - split; [discriminate|]. split.
    + intros fields' [= <-] [H | H]; rewrite H; simpl;
        try rewrite orb_true_r; reflexivity.
    + destruct (negb (truthy (fields !! "email")) || negb (truthy (fields !! "password")));
        [right; simpl; auto 10|].
      destruct (authModel.exp_login Auth _ _); [right; simpl; auto 10 | left; reflexivity].
  - split; [reflexivity|]. split; [discriminate|].
    right. unfold authController.login_error.
    destruct (bool_decide _); simpl; auto 10.
Qed.

Lemma login_answers_witness :
  let login :=
    authController.login Samples.Auth Samples.createAccessToken
      Samples.createRefreshToken Samples.NODE_ENV in
  statusCode (snd (fst (login Samples.anonymous_request res0))) = 400
  /\ statusCode
       (snd (fst (login (mkReq ∅ None None None None None None) res0))) = 500.
Proof.
  intros login. split.
  - destruct (login_answers Samples.Auth Samples.createAccessToken
                Samples.createRefreshToken Samples.NODE_ENV
                Samples.anonymous_request res0) as (_ & Hmissing & _).
    unfold login. rewrite (Hmissing ∅ eq_refl); [reflexivity|].
    left. vm_compute. reflexivity.
  - destruct (login_answers Samples.Auth Samples.createAccessToken
                Samples.createRefreshToken Samples.NODE_ENV
                (mkReq ∅ None None None None None None) res0) as (Hnobody & _).
    exact (Hnobody eq_refl).
Defined.

(** X10.  With the model as [authModel] exports it, which has no
    [getUserById], the refresh endpoint never renews a session: whatever the
    request, the store and the verifier, it answers 401 or 500, its body
    carries no access token, and it sets no cookie (at most it clears the
    refresh cookie). *)
Theorem refresh_endpoint_never_renews :
  forall users bcrypt_compare createAccessToken createRefreshToken verifyRefreshToken
         NODE_ENV (req : Req) (res : Res),
    let res' :=
      snd (fst (authController.refreshToken (authModel.exports users bcrypt_compare)
                  createAccessToken createRefreshToken verifyRefreshToken
                  NODE_ENV req res)) in
    (statusCode res' = 401 \/ statusCode res' = 500)
    /\ sent res' ≫= prop "accessToken" = None
    /\ sent res' ≫= prop "success" = Some (JBool false)
    /\ (cookieOps res' = cookieOps res
        \/ cookieOps res'
           = (cookieOps res
                ++ [ClearCookie "refresh_token" (authController.clear_options NODE_ENV)])%list).
Proof.
  intros users bcrypt_compare createAccessToken createRefreshToken verifyRefreshToken
    NODE_ENV req res res'.
  unfold res', authController.refreshToken.
  destruct (cookies req) as [jar|]; [|simpl; auto].
  destruct (negb (truthy (jar !! "refresh_token"))); [simpl; auto|].
  destruct (verifyRefreshToken (default "" (jar !! "refresh_token"))) as [decoded|error].
  - simpl. auto.
  - destruct (_ || _); simpl; auto.
Qed.

Lemma refreshToken_rejections_witness :
  let endpoint :=
    authController.refreshToken (Samples.AuthWithLookup []) Samples.createAccessToken
      Samples.createRefreshToken Samples.verifyRefreshToken Samples.NODE_ENV in
  code_of (snd (fst (endpoint (Samples.request None
                                 {[ "refresh_token" := Samples.expired_refresh ]}) res0)))
    = Some (JStr "SESSION_EXPIRED")
  /\ code_of (snd (fst (endpoint (Samples.request None
                                    {[ "refresh_token" := Samples.valid_refresh ]}) res0)))
     = Some (JStr "USER_NOT_FOUND")
  /\ cookieOps (snd (fst (endpoint (Samples.request None
                                      {[ "refresh_token" := Samples.valid_refresh ]}) res0)))
     = [ClearCookie "refresh_token" (authController.clear_options Samples.NODE_ENV)].
Proof.
  intros endpoint.
  assert (Hjar1 : ({[ "refresh_token" := Samples.expired_refresh ]} : gmap string string)
                    !! "refresh_token" = Some Samples.expired_refresh)
    by (vm_compute; reflexivity).
  assert (Hjar2 : ({[ "refresh_token" := Samples.valid_refresh ]} : gmap string string)
                    !! "refresh_token" = Some Samples.valid_refresh)
    by (vm_compute; reflexivity).
  destruct (refreshToken_rejections (Samples.AuthWithLookup []) Samples.createAccessToken
              Samples.createRefreshToken Samples.verifyRefreshToken Samples.NODE_ENV
              (Samples.request None {[ "refresh_token" := Samples.expired_refresh ]}) res0
              ({[ "refresh_token" := Samples.expired_refresh ]} : gmap string string)
              Samples.expired_refresh eq_refl Hjar1 ltac:(discriminate))
    as (Hexpired & _).
  destruct (refreshToken_rejections (Samples.AuthWithLookup []) Samples.createAccessToken
              Samples.createRefreshToken Samples.verifyRefreshToken Samples.NODE_ENV
              (Samples.request None {[ "refresh_token" := Samples.valid_refresh ]}) res0
              ({[ "refresh_token" := Samples.valid_refresh ]} : gmap string string)
              Samples.valid_refresh eq_refl Hjar2 ltac:(discriminate))
    as (_ & _ & Hunknown & _).
  split.
  - unfold endpoint.
    rewrite (Hexpired (mkError "Error" "REFRESH_TOKEN_EXPIRED"));
      [reflexivity | vm_compute; reflexivity | now left].
  - unfold endpoint.
    rewrite (Hunknown Samples.hr_refresh_claims (authQueries.getUserById []));
      [split; reflexivity | vm_compute; reflexivity | reflexivity | reflexivity].
Defined.

(** X12.  Given a model that supplies the lookup it calls, the refresh
    endpoint renews from the store, not from the old token: with a refresh
    token that verifies and whose [user_id] the lookup finds, it signs the
    new access and refresh tokens over the row found (so a role changed in
    the store since the old token was signed is the one in the new tokens),
    sets the refresh cookie to the new refresh token with the issuance
    attributes, and returns the new access token in the body, not in a
    header. *)
Theorem refresh_endpoint_renews_from_store :
  forall Auth createAccessToken createRefreshToken verifyRefreshToken NODE_ENV
         (req : Req) (res : Res) (jar : gmap string string) (tok : string)
         (decoded : Claims) getUserById (user : authQueries.UserInfo)
         (rest : list authQueries.UserInfo),
    cookies req = Some jar ->
    jar !! "refresh_token" = Some tok ->
    tok <> "" ->
    verifyRefreshToken tok = Return decoded ->
    authModel.exp_getUserById Auth = Some getUserById ->
    getUserById (c_user_id decoded) = user :: rest ->
    let newAccessToken := createAccessToken (authController.access_claims user) in
    let newRefreshToken := createRefreshToken (authController.refresh_claims user) in
    let res' :=
      snd (fst (authController.refreshToken Auth createAccessToken createRefreshToken
                  verifyRefreshToken NODE_ENV req res)) in
    statusCode res' = statusCode res
    /\ sent res' = Some (authController.session_json newAccessToken user)
    /\ sent res' ≫= prop "accessToken" = Some (JStr newAccessToken)
    /\ resHeaders res' = resHeaders res
    /\ cookieOps res'
       = (cookieOps res
            ++ [SetCookie "refresh_token" newRefreshToken
                  (authController.issue_options NODE_ENV)])%list
    /\ (forall before,
          cookie_after "refresh_token" before (cookieOps res') = Some newRefreshToken)
    /\ c_role (authController.access_claims user) = Some (authQueries.i_role user)
    /\ c_role (authController.refresh_claims user) = Some (authQueries.i_role user).
Proof.
  intros Auth createAccessToken createRefreshToken verifyRefreshToken NODE_ENV
    req res jar tok decoded getUserById user rest Hjar Htok Hne Hv Hget Hrow
    newAccessToken newRefreshToken res'.
  assert (Hres : res' = send_json (authController.session_json newAccessToken user)
                          (cookie "refresh_token" newRefreshToken
                             (authController.issue_options NODE_ENV) res)).
  { unfold res', authController.refreshToken. rewrite Hjar, Htok. simpl.
    apply String.eqb_neq in Hne. rewrite Hne. simpl. rewrite Hv, Hget, Hrow.
    reflexivity. }
  rewrite Hres. repeat split.
  intros before. simpl. clear.
  revert before. induction (cookieOps res) as [|op ops IH]; intros before; simpl.
  - reflexivity.
  - destruct op; apply IH.
Qed.

Lemma refresh_endpoint_renews_from_store_witness :
  let promoted := [authQueries.mkUserRow 7 "admin" "ana@empresa.com" "hash-of-Secreta123"] in
  let res' :=
    snd (fst (authController.refreshToken (Samples.AuthWithLookup promoted)
                Samples.createAccessToken Samples.createRefreshToken
                Samples.verifyRefreshToken Samples.NODE_ENV
                (Samples.request None {[ "refresh_token" := Samples.valid_refresh ]})
                res0)) in
  c_role Samples.hr_refresh_claims = Some "hr"
  /\ (sent res' ≫= prop "user") ≫= prop "role" = Some (JStr "admin")
  /\ cookieOps res'
     = [SetCookie "refresh_token" "hr7.r-hr7"
          (mkCookieOptions true true (Some "strict") (Some 604800000) (Some "/api"))].
Proof.
  intros promoted res'. split; [reflexivity|].
  assert (Hjar : ({[ "refresh_token" := Samples.valid_refresh ]} : gmap string string)
                   !! "refresh_token" = Some Samples.valid_refresh)
    by (vm_compute; reflexivity).
  destruct (refresh_endpoint_renews_from_store (Samples.AuthWithLookup promoted)
              Samples.createAccessToken Samples.createRefreshToken
              Samples.verifyRefreshToken Samples.NODE_ENV
              (Samples.request None {[ "refresh_token" := Samples.valid_refresh ]}) res0
              ({[ "refresh_token" := Samples.valid_refresh ]} : gmap string string)
              Samples.valid_refresh
              Samples.hr_refresh_claims (authQueries.getUserById promoted)
              (authQueries.mkUserInfo 7 "admin" "ana@empresa.com") []
              eq_refl Hjar ltac:(discriminate)
              ltac:(vm_compute; reflexivity) eq_refl eq_refl)
    as (_ & Hsent & _ & _ & Hcookie & _).
  split.
  - unfold res'. rewrite Hsent. reflexivity.
  - unfold res'. rewrite Hcookie. vm_compute. reflexivity.
Defined.

(** * The validators' regular expressions *)

Lemma star_spec (p : Z -> bool) (s : list Z) :
  forall pos k,
    RegExp.star p pos s k = true <->
    exists a b, s = (a ++ b)%list /\ forallb p a = true
                /\ k (pos + List.length a)%nat b = true.
Proof.
  induction s as [|c s IH]; intros pos k; simpl.
  - split.
    + intros Hk. exists [], []. simpl. now rewrite Nat.add_0_r.
    + intros (a & b & Hs & _ & Hk). symmetry in Hs.
      apply app_eq_nil in Hs as [-> ->]. simpl in Hk. now rewrite Nat.add_0_r in Hk.
  - rewrite orb_true_iff, andb_true_iff, IH. split.
    + intros [[Hc (a & b & -> & Ha & Hk)] | Hk].
      * exists (c :: a), b. simpl. rewrite Hc, Ha.
        replace (pos + S (List.length a))%nat with (S pos + List.length a)%nat by lia.
        auto.
      * exists [], (c :: s). simpl. now rewrite Nat.add_0_r.
    + intros (a & b & Hs & Ha & Hk). destruct a as [|c' a]; simpl in *.
      * right. subst b. now rewrite Nat.add_0_r in Hk.
      * injection Hs as <- ->. apply andb_true_iff in Ha as [Hc Ha].
        left. split; [exact Hc|]. exists a, b.
        replace (S (pos + List.length a))%nat with (pos + S (List.length a))%nat by lia.
        auto.
Qed.

Lemma repeat_spec (p : Z -> bool) (max : nat) :
  forall min pos s k,
    RegExp.repeat p min max pos s k = true <->
    exists a b, s = (a ++ b)%list /\ forallb p a = true
                /\ (min <= List.length a <= max)%nat
                /\ k (pos + List.length a)%nat b = true.
Proof.
  induction max as [|max IH]; intros min pos s k; simpl.
  - rewrite andb_true_iff, Nat.eqb_eq. split.
    + intros [-> Hk]. exists [], s. simpl. rewrite Nat.add_0_r. auto.
    + intros (a & b & -> & _ & [Hmin Hmax] & Hk).
      destruct a; simpl in *; [|lia]. rewrite Nat.add_0_r in Hk. split; [lia | exact Hk].
  - rewrite orb_true_iff, andb_true_iff, Nat.eqb_eq. split.
    + intros [Hstep | [-> Hk]].
      * destruct s as [|c s]; [discriminate|].
        apply andb_true_iff in Hstep as [Hc Hrest].
        apply IH in Hrest as (a & b & -> & Ha & Hlen & Hk).
        exists (c :: a), b. simpl. rewrite Hc, Ha.
        replace (pos + S (List.length a))%nat with (S pos + List.length a)%nat by lia.
        repeat split; try assumption; lia.
      * exists [], s. simpl. rewrite Nat.add_0_r. repeat split; try assumption; lia.
    + intros (a & b & -> & Ha & Hlen & Hk). destruct a as [|c a]; simpl in *.
      * right. rewrite Nat.add_0_r in Hk. split; [lia | exact Hk].
      * left. apply andb_true_iff in Ha as [Hc Ha]. rewrite Hc. simpl.
        apply IH. exists a, b.
        replace (S pos + List.length a)%nat with (pos + S (List.length a))%nat by lia.
        repeat split; try assumption; lia.
Qed.

Lemma lookahead_class (C : Z -> bool) (pos : nat) (s : list Z) :
  forallb RegExp.dot s = true ->
  RegExp.matches (RegExp.Seq (RegExp.Star RegExp.dot) (RegExp.Class C)) pos s
    (fun _ _ => true)
  = existsb C s.
Proof.
  intros Hdot. apply eq_true_iff_eq. simpl. rewrite star_spec, existsb_exists. split.
  - intros (a & b & -> & _ & Hk). destruct b as [|c b]; [discriminate|].
    exists c. rewrite andb_true_r in Hk. split; [|exact Hk].
    apply in_or_app. right. now left.
  - intros (c & Hin & Hc). apply in_split in Hin as (a & b & ->).
    exists a, (c :: b). rewrite forallb_app in Hdot.
    apply andb_true_iff in Hdot as [Ha _]. now rewrite Hc.
Qed.

Lemma lookahead_star (C : Z -> bool) (pos : nat) (s : list Z) :
  forallb RegExp.dot s = true ->
  RegExp.star RegExp.dot pos s
    (fun _ s' => match s' with
                 | c :: _ => C c && true
                 | [] => false
                 end)
  = existsb C s.
Proof. exact (lookahead_class C pos s). Qed.

Lemma search_anchored (r : RegExp.regex) (s : list Z) :
  forall pos, RegExp.search (RegExp.Seq RegExp.Bol r) (S pos) s = false.
Proof.
  induction s as [|c s IH]; intros pos; simpl; [reflexivity|]. apply IH.
Qed.

Lemma test_anchored (r : RegExp.regex) (s : list Z) :
  RegExp.test (RegExp.Seq RegExp.Bol r) s = RegExp.matches r 0 s (fun _ _ => true).
Proof.
  unfold RegExp.test. destruct s as [|c s]; simpl.
  - now rewrite orb_false_r.
  - now rewrite search_anchored, orb_false_r.
Qed.

Lemma test_passwordRegex (s : list Z) :
  RegExp.test RegExp.passwordRegex s = RegExp.password_policy s.
Proof.
  unfold RegExp.passwordRegex. rewrite test_anchored.
  unfold RegExp.password_policy.
  cbn [RegExp.matches].
  destruct (forallb RegExp.dot s) eqn:Hdot.
  - rewrite !(lookahead_star _ 0 s Hdot).
    destruct (existsb RegExp.upper s); [|now rewrite !andb_false_r].
    destruct (existsb RegExp.lower s); [|now rewrite !andb_false_r].
    destruct (existsb RegExp.digit s); [|now rewrite !andb_false_r].
    rewrite !andb_true_l, !andb_true_r.
    apply eq_true_iff_eq. rewrite repeat_spec, andb_true_iff, !Nat.leb_le. split.
    + intros (a & b & -> & _ & Hlen & Hk). destruct b; [|discriminate].
      rewrite app_nil_r. lia.
    + intros Hlen. exists s, []. rewrite app_nil_r. repeat split; try assumption; lia.
  - assert (Hrep : RegExp.repeat RegExp.dot 8 16 0 s
                     (fun _ s' => match s' with
                                  | [] => true
                                  | _ :: _ => false
                                  end) = false).
    { apply not_true_iff_false. intros Hrep.
      apply repeat_spec in Hrep as (a & b & -> & Ha & _ & Hk).
      destruct b; [|discriminate]. rewrite app_nil_r in Hdot. congruence. }
    rewrite Hrep, !andb_false_r.
    destruct (Nat.leb 8 (List.length s)), (Nat.leb (List.length s) 16); reflexivity.
Qed.

(** X20.  The password pattern of the login and account validators accepts
    exactly the strings its documentation describes: 8 to 16 code units,
    none of them a line terminator, with at least one of [A-Z], one of [a-z]
    and one of [0-9].  In particular it never accepts the empty string. *)
Theorem passwordRegex_is_the_policy :
  forall s : list Z,
    RegExp.test RegExp.passwordRegex s = RegExp.password_policy s
    /\ RegExp.test RegExp.passwordRegex [] = false.
Proof.
  intros s. split; [apply test_passwordRegex | reflexivity].
Qed.

Lemma plus_spec (p : Z -> bool) (pos : nat) (s : list Z) (k : nat -> list Z -> bool) :
  RegExp.matches (RegExp.Plus p) pos s k = true <->
  exists a b, s = (a ++ b)%list /\ a <> [] /\ forallb p a = true
              /\ k (pos + List.length a)%nat b = true.
Proof.
  simpl. destruct s as [|c s].
  - split; [discriminate|]. intros (a & b & Hs & Hne & _). symmetry in Hs.
    apply app_eq_nil in Hs as [-> _]. congruence.
  - rewrite andb_true_iff, star_spec. split.
    + intros [Hc (a & b & -> & Ha & Hk)]. exists (c :: a), b.
      split; [reflexivity|]. split; [discriminate|].
      split; [simpl; now rewrite Hc, Ha|]. simpl.
      replace (pos + S (List.length a))%nat with (S pos + List.length a)%nat by lia.
      exact Hk.
    + intros (a & b & Hs & Hne & Ha & Hk). destruct a as [|c' a]; [congruence|].
      simpl in *. injection Hs as <- ->. apply andb_true_iff in Ha as [Hc Ha].
      split; [exact Hc|]. exists a, b.
      replace (S (pos + List.length a))%nat with (pos + S (List.length a))%nat by lia.
      auto.
Qed.

Lemma local_char_not_at (c : Z) : RegExp.local_char c = true -> c <> 64.
Proof.
  unfold RegExp.local_char. intros H ->. vm_compute in H. discriminate.
Qed.

Lemma local_chars_count (a : list Z) :
  forallb RegExp.local_char a = true -> count_occ Z.eq_dec a 64 = 0%nat.
Proof.
  induction a as [|c a IH]; simpl; [reflexivity|].
  intros H. apply andb_true_iff in H as [Hc Ha].
  destruct (Z.eq_dec c 64) as [->|_]; [now apply local_char_not_at in Hc | now apply IH].
Qed.

(** X21.  The email pattern of the account validators accepts exactly the
    strings of the form [local@domain.tail] in which the three parts are not
    empty and hold neither white space nor [@] (the domain and the tail may
    hold further dots).  So an accepted string has exactly one [@] and no
    white space anywhere. *)
Theorem emailRegex_shape :
  forall s : list Z,
    (RegExp.test RegExp.emailRegex s = true <->
     exists l d t,
       s = (l ++ 64 :: d ++ 46 :: t)%list
       /\ l <> [] /\ d <> [] /\ t <> []
       /\ forallb RegExp.local_char l = true
       /\ forallb RegExp.local_char d = true
       /\ forallb RegExp.local_char t = true)
    /\ (RegExp.test RegExp.emailRegex s = true ->
        count_occ Z.eq_dec s 64 = 1%nat
        /\ forallb (fun c => negb (RegExp.white_space c)) s = true).
Proof.
  intros s.
  assert (Hshape :
    RegExp.test RegExp.emailRegex s = true <->
    exists l d t,
      s = (l ++ 64 :: d ++ 46 :: t)%list
      /\ l <> [] /\ d <> [] /\ t <> []
      /\ forallb RegExp.local_char l = true
      /\ forallb RegExp.local_char d = true
      /\ forallb RegExp.local_char t = true).
  { unfold RegExp.emailRegex. rewrite test_anchored.
    change (RegExp.matches (RegExp.Seq (RegExp.Plus RegExp.local_char) ?r) 0 s ?k)
      with (RegExp.matches (RegExp.Plus RegExp.local_char) 0 s
              (fun pos' s' => RegExp.matches r pos' s' k)).
    rewrite plus_spec. split.
    - intros (l & rest & -> & Hl & Hlc & Hk).
      cbn [RegExp.matches] in Hk. destruct rest as [|c rest]; [discriminate|].
      apply andb_true_iff in Hk as [Hat Hk]. apply Z.eqb_eq in Hat as <-.
      apply (plus_spec RegExp.local_char _ rest) in Hk
        as (d & rest' & -> & Hd & Hdc & Hk).
      destruct rest' as [|c rest']; [discriminate|].
      apply andb_true_iff in Hk as [Hdot Hk]. apply Z.eqb_eq in Hdot as <-.
      apply (plus_spec RegExp.local_char _ rest') in Hk
        as (t & rest'' & -> & Ht & Htc & Hk).
      destruct rest''; [|discriminate]. rewrite app_nil_r.
      exists l, d, t. repeat split; assumption.
    - intros (l & d & t & -> & Hl & Hd & Ht & Hlc & Hdc & Htc).
      exists l, (64 :: d ++ 46 :: t)%list. repeat split; try assumption.
      cbn [RegExp.matches]. rewrite Z.eqb_refl. cbn [andb].
      apply (plus_spec RegExp.local_char _ (d ++ 46 :: t)).
      exists d, (46 :: t)%list. repeat split; try assumption.
      rewrite Z.eqb_refl. cbn [andb].
      apply (plus_spec RegExp.local_char _ t).
      exists t, []. rewrite app_nil_r. repeat split; assumption. }
  split; [exact Hshape|].
  intros Htest. apply Hshape in Htest as (l & d & t & -> & _ & _ & _ & Hl & Hd & Ht).
  split.
  - rewrite count_occ_app. simpl. rewrite count_occ_app. simpl.
    rewrite !local_chars_count by assumption. reflexivity.
  - assert (Hws : forall a, forallb RegExp.local_char a = true ->
                            forallb (fun c => negb (RegExp.white_space c)) a = true).
    { intros a Ha. rewrite forallb_forall in *. intros c Hc. specialize (Ha c Hc).
      unfold RegExp.local_char in Ha. rewrite negb_orb in Ha.
      now apply andb_true_iff in Ha as [Ha _]. }
    rewrite forallb_app. simpl. rewrite forallb_app. simpl.
    rewrite !Hws by assumption. reflexivity.
Qed.

Lemma emailRegex_shape_witness :
  RegExp.test RegExp.emailRegex (RegExp.units "ana@empresa.com") = true
  /\ count_occ Z.eq_dec (RegExp.units "ana@empresa.com") 64 = 1%nat.
Proof.
  destruct (emailRegex_shape (RegExp.units "ana@empresa.com")) as [Hshape Hone].
  assert (Htest : RegExp.test RegExp.emailRegex (RegExp.units "ana@empresa.com") = true).
  { apply Hshape.
    exists (RegExp.units "ana"), (RegExp.units "empresa"), (RegExp.units "com").
    vm_compute. repeat split; discriminate. }
  split; [exact Htest | exact (proj1 (Hone Htest))].
Defined.

(** X22.  The [password] rule of the update validator never answers
    [false]: it lets the empty string through, the value with which
    [updateUserById] keeps the stored hash, and any other value exactly when
    it follows the password policy; otherwise it throws its message.  The
    examples the validators' documentation gives are judged as documented. *)
Theorem update_password_rule_accepts :
  forall value : list Z,
    RegExp.update_password_rule value
    = (if bool_decide (value = []) || RegExp.password_policy value
       then Return true
       else Throw (mkError "Error"
                     "La contraseña debe tener 8-16 caracteres, incluir mayúscula, minúscula y un número"))
    /\ RegExp.update_password_rule [] = Return true
    /\ RegExp.test RegExp.passwordRegex (RegExp.units "Password123") = true
    /\ RegExp.test RegExp.passwordRegex (RegExp.units "AdminSecure456") = true
    /\ RegExp.test RegExp.passwordRegex (RegExp.units "password") = false
    /\ RegExp.test RegExp.passwordRegex (RegExp.units "PASSWORD123") = false
    /\ RegExp.test RegExp.passwordRegex (RegExp.units "Pass1") = false
    /\ RegExp.test RegExp.passwordRegex (RegExp.units "PasswordVeryLong123456") = false.
Proof.
  intros value. split.
  - unfold RegExp.update_password_rule.
    destruct (bool_decide (value = [])); [reflexivity|].
    rewrite test_passwordRegex.
    destruct (RegExp.password_policy value); reflexivity.
  - repeat split; vm_compute; reflexivity.
Qed.
